(** * A shallow embedding of [lighter_bot.py]

    The file models the request executor ([_make_request]), the order
    gateway, the session engine ([execute_delta_neutral_session]) and the
    daily scheduler ([run_daily_cycle]) of [LighterTradingBot] as
    executable state-passing functions, and proves the properties of the
    bot's specification against them.

    Conventions.
    - Everything the program obtains from outside its own source is read
      from an environment [env]: the HTTP transport, the clock, the
      random module, [uuid4], the task that may call [stop()], and the
      three library conversions the source calls ([hmac ... hexdigest],
      [float(str)], [str(obj)]).
    - Everything the program does to the outside is appended to a
      chronological [trace]: every HTTP attempt with its outcome, every
      [asyncio.sleep], every log record.
    - Python [float] values are binary64 numbers, the primitive floats
      of [PrimFloat]; every operation the source performs on them is the
      correctly rounded operation on these.  The trace holds the
      argument of every [asyncio.sleep] as the exact value of the number
      slept, a rational.
    - Exceptions are values of [exn]; every modelled exception is a
      subclass of Python's [Exception], so that [except Exception]
      catches whatever the model raises.  A [BaseException] that is not
      an [Exception] - [asyncio.CancelledError] raised into a task that
      is cancelled at an await, [KeyboardInterrupt] - has no
      counterpart: the model describes the runs of a task that is not
      cancelled, and [Raise] always stands for an [Exception]. *)

From Stdlib Require Import QArith PrimFloat FloatOps SpecFloat.
From stdpp Require Import gmap strings list list_numbers pretty.

#[local] Set Warnings "-register-all,-inexact-float".
Local Open Scope Z_scope.

(** ** Enumerations and configuration records *)

Inductive OrderSide := BUY | SELL.
Inductive OrderType := LIMIT | MARKET.

Definition OrderSide_value (s : OrderSide) : string :=
  match s with BUY => "BUY" | SELL => "SELL" end.
Definition OrderType_value (t : OrderType) : string :=
  match t with LIMIT => "LIMIT" | MARKET => "MARKET" end.

Record AccountConfig := {
  account_name : string;
  api_key : string;
  secret_key : string
}.

Record TradingConfig := {
  base_url : string;
  request_timeout : Z;
  max_retries : Z;
  min_session_duration : Z;
  max_session_duration : Z;
  min_daily_sessions : Z;
  max_daily_sessions : Z;
  max_position_size : float;
  symbols : list string
}.

(** [TradingConfig()] with every default, [__post_init__] included. *)
Definition default_trading_config : TradingConfig := {|
  base_url := "https://api.lighter.xyz";
  request_timeout := 30;
  max_retries := 3;
  min_session_duration := 300;
  max_session_duration := 2100;
  min_daily_sessions := 70;
  max_daily_sessions := 180;
  max_position_size := 0.1%float;
  symbols := ["ETH-USDC"; "BTC-USDC"]
|}.

(** The immutable part of a bot.  [__init__] raises [ValueError] unless
    [account_configs] has exactly two elements. *)
Record bot_config := {
  account_configs : list AccountConfig;
  trading_config : TradingConfig
}.

(** ** Values exchanged with the exchange *)

(** Decoded JSON, as [response.json()] returns it. *)
Inductive json :=
| JNull
| JBool (b : bool)
| JInt (z : Z)
| JFloat (f : float)
| JStr (s : string)
| JList (l : list json)
| JDict (kv : list (string * json)).

Inductive exn :=
| ClientError (msg : string)        (* aiohttp.ClientError and subclasses *)
| TimeoutError                      (* asyncio.TimeoutError *)
| ApiError (data : json)            (* Exception(f"API error: {data}") *)
| KeyError (key : string)
| TypeError
| AttributeError
| ValueError
| IndexError
| ZeroDivisionError
| OverflowError
| OtherException (msg : string).

Inductive result (A : Type) :=
| Ok (a : A)
| Raise (e : exn).
Arguments Ok {A} a.
Arguments Raise {A} e.

(** The [order_data] dictionary of [place_order].  Quantity and price are
    kept as the floats they are; on the wire they are [str(quantity)],
    [str(price)]. *)
Record order_data := {
  od_symbol : string;
  od_side : string;
  od_type : string;
  od_quantity : float;
  od_price : option float
}.

(** The keyword arguments forwarded by [_make_request] to [request]. *)
Inductive kwargs :=
| NoKwargs
| JsonBody (o : order_data)
| QueryParams (p : list (string * string)).

(** The arguments of one [session.request(method, url, headers=..., **kwargs)]
    call.  [req_url] is the [url] argument, the string of line 124; the
    query parameters of [kwargs] are added to it by aiohttp, not by the
    source. *)
Record request := {
  req_method : string;
  req_endpoint : string;
  req_url : string;
  req_headers : gmap string string;
  req_kwargs : kwargs
}.

(** What one pass through the [async with ... request(...)] block meets:
    the call raises, or a response arrives with a status and a body which
    [await response.json()] either decodes or refuses by raising. *)
Inductive attempt_outcome :=
| RequestRaises (e : exn)
| Responded (status : Z) (body : result json).

(** ** Trace of effects *)

Inductive level := INFO | WARNING | ERROR.

Inductive log_record :=
| LogApiError (status : Z) (account : nat) (data : json)
| LogRequestFailed (attempt : Z) (account : nat) (e : exn)
| LogCancelled (order_id : json) (account : nat)
| LogCancelFailed (order_id : json) (account : nat) (e : exn)
| LogSessionActive
| LogSessionStart (sid : string) (sym : string) (long1 : bool) (duration : Z)
| LogOpened (sid : string) (id1 id2 : json) (size price : float)
| LogClosed (sid : string) (account1_pnl account2_pnl total_pnl : float)
    (duration : Z)
| LogSessionFailed (sid : string) (e : exn)
| LogCleanupFailed (e : exn)
| LogCycleStart (daily_sessions : Z)
| LogSlotFailed (n : Z) (e : exn)
| LogSlotCompleted (n : Z) (daily_sessions : Z) (minutes : float)
| LogCycleCompleted
| LogStopping.

Inductive event :=
| EvHttp (account : nat) (req : request) (o : attempt_outcome)
| EvSleep (seconds : Q)             (* the exact value of the argument *)
| EvLog (lvl : level) (r : log_record).

(** ** The environment and the mutable runtime *)

Record env := {
  (* library functions *)
  hmac_sha256_hex : string -> string -> string;  (* hmac.new(k, m, sha256).hexdigest() *)
  float_of_str : string -> option float;         (* float(s); None: ValueError *)
  str_of_json : json -> string;                  (* str(x), as f-strings apply it *)
  (* the outside world *)
  transport : nat -> nat -> request -> attempt_outcome; (* n-th attempt, account, request *)
  time_ms : nat -> Z;                            (* n-th reading of the clock, in ms *)
  rand_bits : nat -> Z;                          (* n-th call into the random module *)
  uuid4 : nat -> string;                         (* n-th str(uuid.uuid4()) *)
  stop_requested_at : nat -> bool                (* stop() runs while the bot is
                                                    suspended at its n-th await *)
}.

(** [is_running] is the bot's flag; it is kept with the cursors because the
    only writer besides [run_daily_cycle] is [stop()], which another task
    calls while the bot is suspended. *)
Record runtime := {
  is_running : bool;
  n_attempts : nat;
  n_clock : nat;
  n_draws : nat;
  n_uuids : nat;
  n_awaits : nat;
  trace : list event
}.

Definition initial_runtime : runtime := {|
  is_running := false; n_attempts := 0; n_clock := 0; n_draws := 0;
  n_uuids := 0; n_awaits := 0; trace := []
|}.

Definition set_running (b : bool) (rt : runtime) : runtime :=
  {| is_running := b; n_attempts := n_attempts rt; n_clock := n_clock rt;
     n_draws := n_draws rt; n_uuids := n_uuids rt; n_awaits := n_awaits rt;
     trace := trace rt |}.

Definition emit (ev : event) (rt : runtime) : runtime :=
  {| is_running := is_running rt; n_attempts := n_attempts rt;
     n_clock := n_clock rt; n_draws := n_draws rt; n_uuids := n_uuids rt;
     n_awaits := n_awaits rt; trace := trace rt ++ [ev] |}.

(** ** The error-and-state monad *)

Definition M (St A : Type) : Type := St -> result A * St.

Definition ret {St A} (a : A) : M St A := fun s => (Ok a, s).
Definition raise {St A} (e : exn) : M St A := fun s => (Raise e, s).
Definition bind {St A B} (m : M St A) (k : A -> M St B) : M St B :=
  fun s => match m s with
           | (Ok a, s') => k a s'
           | (Raise e, s') => (Raise e, s')
           end.
Definition modify {St} (f : St -> St) : M St unit := fun s => (Ok tt, f s).
Definition of_option {St A} (o : option A) (e : exn) : M St A :=
  match o with Some a => ret a | None => raise e end.

Declare Scope py_scope.
Delimit Scope py_scope with py.
Notation "x <- m ;; k" := (bind m (fun x => k))
  (at level 100, m at next level, right associativity) : py_scope.
Notation "m ;;; k" := (bind m (fun _ => k))
  (at level 100, right associativity) : py_scope.

(** ** Python built-ins used by the source *)

(** [range(n)] *)
Definition range (n : Z) : list Z := seqZ 0 n.

(** [d[k]] : [KeyError] on a dict without the key, [TypeError] on
    anything that is not a dict. *)
Fixpoint assoc (k : string) (kv : list (string * json)) : option json :=
  match kv with
  | [] => None
  | (k', v) :: rest => if String.eqb k k' then Some v else assoc k rest
  end.

Definition subscript (d : json) (k : string) : result json :=
  match d with
  | JDict kv => match assoc k kv with Some v => Ok v | None => Raise (KeyError k) end
  | _ => Raise TypeError
  end.

(** [d.get(k)] and [d.get(k, default)] : [AttributeError] unless a dict. *)
Definition dict_get (d : json) (k : string) (default : json) : result json :=
  match d with
  | JDict kv => Ok (match assoc k kv with Some v => v | None => default end)
  | _ => Raise AttributeError
  end.

(** [for x in v] : the elements of a list, the keys of a dict, the
    characters of a string; [TypeError] otherwise. *)
Fixpoint chars (s : string) : list json :=
  match s with
  | EmptyString => []
  | String c s' => JStr (String c EmptyString) :: chars s'
  end.

Definition iterate (v : json) : result (list json) :=
  match v with
  | JList l => Ok l
  | JDict kv => Ok (map (fun p => JStr (fst p)) kv)
  | JStr s => Ok (chars s)
  | _ => Raise TypeError
  end.

(** ** Session objects and the engine's mutable state *)

Record Session := {
  session_id : string;
  symbol : string;
  account1_long : bool;
  start_time : Z;
  planned_duration : Z;
  end_time : option Z;
  account1_order_id : json;      (* JNull is Python's None *)
  account2_order_id : json;
  closed : bool
}.

Definition set_account1_order_id (v : json) (s : Session) : Session :=
  {| session_id := session_id s; symbol := symbol s;
     account1_long := account1_long s; start_time := start_time s;
     planned_duration := planned_duration s; end_time := end_time s;
     account1_order_id := v; account2_order_id := account2_order_id s;
     closed := closed s |}.

Definition set_account2_order_id (v : json) (s : Session) : Session :=
  {| session_id := session_id s; symbol := symbol s;
     account1_long := account1_long s; start_time := start_time s;
     planned_duration := planned_duration s; end_time := end_time s;
     account1_order_id := account1_order_id s; account2_order_id := v;
     closed := closed s |}.

Definition set_end_time (t : Z) (s : Session) : Session :=
  {| session_id := session_id s; symbol := symbol s;
     account1_long := account1_long s; start_time := start_time s;
     planned_duration := planned_duration s; end_time := Some t;
     account1_order_id := account1_order_id s;
     account2_order_id := account2_order_id s; closed := closed s |}.

Definition set_closed (b : bool) (s : Session) : Session :=
  {| session_id := session_id s; symbol := symbol s;
     account1_long := account1_long s; start_time := start_time s;
     planned_duration := planned_duration s; end_time := end_time s;
     account1_order_id := account1_order_id s;
     account2_order_id := account2_order_id s; closed := b |}.

(** Session objects live in [heap] and are named by their index, so that
    [self.sessions], [self.active_session] and the local variable
    [session] of the engine can share one object. *)
Record engine := {
  heap : list Session;
  sessions : list nat;            (* self.sessions *)
  active_session : option nat     (* self.active_session *)
}.

Definition initial_engine : engine :=
  {| heap := []; sessions := []; active_session := None |}.

Definition bot : Type := engine * runtime.

(** The Session values that [self.sessions] refers to, in order. *)
Definition history (en : engine) : list Session :=
  omap (fun r => heap en !! r) (sessions en).

Definition update_session (r : nat) (f : Session -> Session) (en : engine) : engine :=
  {| heap := alter f r (heap en); sessions := sessions en;
     active_session := active_session en |}.

Definition set_active (a : option nat) (en : engine) : engine :=
  {| heap := heap en; sessions := sessions en; active_session := a |}.

(** [self.active_session = session; self.sessions.append(session)] for a
    freshly constructed object. *)
Definition register_session (s : Session) (en : engine) : nat * engine :=
  let r := length (heap en) in
  (r, {| heap := heap en ++ [s]; sessions := sessions en ++ [r];
         active_session := Some r |}).

(** ** Numbers *)

(** [float(n)] for an integer [n]: the nearest binary64 number, ties to
    even; it is infinite exactly when Python raises [OverflowError]. *)
Definition float_of_Z (n : Z) : float :=
  SF2Prim (binary_normalize prec emax n 0 false).

Definition spec_of_Z (n : Z) : spec_float :=
  match n with
  | Z0 => S754_zero false
  | Zpos p => S754_finite false p 0
  | Zneg p => S754_finite true p 0
  end.

(** [a / b] for integers [a] and [b <> 0]: the correctly rounded
    quotient of the two integers. *)
Definition int_truediv (a b : Z) : float :=
  SF2Prim (SFdiv prec emax (spec_of_Z a) (spec_of_Z b)).

(** The exact value of a finite float (0 for the others, which the
    program never passes where this is used). *)
Definition float_value (f : float) : Q :=
  match Prim2SF f with
  | S754_finite s m e =>
      let n := if s then Zneg m else Zpos m in
      if 0 <=? e then inject_Z (n * 2 ^ e) else Qmake n (Z.to_pos (2 ^ (- e)))
  | _ => 0%Q
  end.

(** ** The profit computation *)

(** Lines 298-306, in binary64 arithmetic; the division by zero is
    raised by the caller. *)
Definition session_pnl (account1_long : bool)
    (position_size current_price closing_price : float)
    : float * float * float :=
  let price_change_pct :=
    ((closing_price - current_price) / current_price)%float in
  let '(account1_pnl, account2_pnl) :=
    if account1_long
    then ((position_size * price_change_pct)%float,
          (- position_size * price_change_pct)%float)
    else ((- position_size * price_change_pct)%float,
          (position_size * price_change_pct)%float) in
  let total_pnl := (account1_pnl + account2_pnl)%float in
  (account1_pnl, account2_pnl, total_pnl).

(** ** The program *)

Section Model.
Context (E : env) (B : bot_config).
Local Open Scope py_scope.

Let cfg := trading_config B.

(** *** Effects *)

Definition log (lvl : level) (r : log_record) (rt : runtime) : runtime :=
  emit (EvLog lvl r) rt.

(** [LighterTradingBot.stop] *)
Definition stop (rt : runtime) : runtime :=
  log INFO LogStopping (set_running false rt).

(** Every [await] suspends the bot; the environment says whether another
    task calls [stop()] before the bot is resumed. *)
Definition await_point (rt : runtime) : runtime :=
  let rt' := {| is_running := is_running rt; n_attempts := n_attempts rt;
                n_clock := n_clock rt; n_draws := n_draws rt;
                n_uuids := n_uuids rt; n_awaits := S (n_awaits rt);
                trace := trace rt |} in
  if stop_requested_at E (n_awaits rt) then stop rt' else rt'.

(** [await asyncio.sleep(seconds)] *)
Definition asyncio_sleep (seconds : Q) (rt : runtime) : runtime :=
  await_point (emit (EvSleep seconds) rt).

(** One pass through [async with session.request(...) as response] up to
    and including [await response.json()]. *)
Definition send (account_index : nat) (req : request) (rt : runtime)
    : attempt_outcome * runtime :=
  let o := transport E (n_attempts rt) account_index req in
  (o, await_point (emit (EvHttp account_index req o)
        {| is_running := is_running rt; n_attempts := S (n_attempts rt);
           n_clock := n_clock rt; n_draws := n_draws rt;
           n_uuids := n_uuids rt; n_awaits := n_awaits rt;
           trace := trace rt |})).

(** A reading of the clock: [time.time() * 1000] truncated, and
    [datetime.now()]. *)
Definition read_clock (rt : runtime) : Z * runtime :=
  (time_ms E (n_clock rt),
   {| is_running := is_running rt; n_attempts := n_attempts rt;
      n_clock := S (n_clock rt); n_draws := n_draws rt;
      n_uuids := n_uuids rt; n_awaits := n_awaits rt; trace := trace rt |}).

Definition draw (rt : runtime) : Z * runtime :=
  (rand_bits E (n_draws rt),
   {| is_running := is_running rt; n_attempts := n_attempts rt;
      n_clock := n_clock rt; n_draws := S (n_draws rt);
      n_uuids := n_uuids rt; n_awaits := n_awaits rt; trace := trace rt |}).

Definition fresh_uuid (rt : runtime) : string * runtime :=
  (uuid4 E (n_uuids rt),
   {| is_running := is_running rt; n_attempts := n_attempts rt;
      n_clock := n_clock rt; n_draws := n_draws rt;
      n_uuids := S (n_uuids rt); n_awaits := n_awaits rt; trace := trace rt |}).

(** *** The [random] module *)

(** [random.choice(seq)] : [IndexError] on an empty sequence. *)
Definition random_choice {A} (seq : list A) : M runtime A := fun rt =>
  match seq with
  | [] => (Raise IndexError, rt)
  | x :: _ =>
      let '(r, rt1) := draw rt in
      (Ok (nth (Z.to_nat (r mod Z.of_nat (length seq))) seq x), rt1)
  end.

(** [random.randint(a, b)] : [ValueError] on an empty range. *)
Definition random_randint (a b : Z) : M runtime Z := fun rt =>
  if b <? a then (Raise ValueError, rt)
  else let '(r, rt1) := draw rt in (Ok (a + r mod (b - a + 1)), rt1).

(** [random.random()] : 53 random bits times 2^-53, a float in
    [0, 1). *)
Definition random_random (rt : runtime) : float * runtime :=
  let '(r, rt1) := draw rt in
  ((float_of_Z (r mod 2 ^ 53) / float_of_Z (2 ^ 53))%float, rt1).

(** [random.uniform(a, b)] is [a + (b - a) * random()]. *)
Definition random_uniform (a b : float) (rt : runtime) : float * runtime :=
  let '(u, rt1) := random_random rt in
  ((a + (b - a) * u)%float, rt1).

(** [float(x)] : an integer too large for a float is refused with
    [OverflowError], a string that is no number with [ValueError]. *)
Definition py_float (v : json) : result float :=
  match v with
  | JInt z => if is_infinity (float_of_Z z) then Raise OverflowError
              else Ok (float_of_Z z)
  | JFloat f => Ok f
  | JBool b => Ok (if b then 1%float else 0%float)
  | JStr s => match float_of_str E s with
              | Some f => Ok f
              | None => Raise ValueError
              end
  | _ => Raise TypeError
  end.

(** *** Signer and request executor *)

Definition _generate_signature (secret_key payload : string) : string :=
  hmac_sha256_hex E secret_key payload.

Definition _get_nonce (rt : runtime) : Z * runtime := read_clock rt.

(** The exceptions caught by
    [except (aiohttp.ClientError, asyncio.TimeoutError)]. *)
Definition retryable (e : exn) : bool :=
  match e with
  | ClientError _ | TimeoutError => true
  | _ => false
  end.

(** The body of the [try] of one attempt, lines 128-137. *)
Definition attempt_body (account_index : nat) (o : attempt_outcome)
    : M runtime json := fun rt =>
  match o with
  | RequestRaises e => (Raise e, rt)
  | Responded status (Raise e) => (Raise e, rt)
  | Responded status (Ok data) =>
      if status =? 200 then (Ok data, rt)
      else (Raise (ApiError data),
            log ERROR (LogApiError status account_index data) rt)
  end.

(** [for attempt in range(max_retries)], lines 126-143.  Leaving the
    loop without a [return] makes the function return [None]. *)
Fixpoint attempt_loop (account_index : nat) (req : request)
    (attempts : list Z) : M runtime json := fun rt =>
  match attempts with
  | [] => (Ok JNull, rt)
  | attempt :: rest =>
      let '(o, rt1) := send account_index req rt in
      match attempt_body account_index o rt1 with
      | (Ok data, rt2) => (Ok data, rt2)
      | (Raise e, rt2) =>
          if retryable e then
            let rt3 := log WARNING
                         (LogRequestFailed (attempt + 1) account_index e) rt2 in
            if attempt =? max_retries cfg - 1 then (Raise e, rt3)
            else attempt_loop account_index req rest
                   (asyncio_sleep (inject_Z (2 ^ attempt)) rt3)
          else (Raise e, rt2)
      end
  end.

Definition _make_request (account_index : nat) (method endpoint : string)
    (kw : kwargs) : M runtime json := fun rt =>
  match account_configs B !! account_index with
  | None => (Raise IndexError, rt)
  | Some account_config =>
      let headers : gmap string string :=
        {[ "X-API-KEY" := api_key account_config;
           "Content-Type" := "application/json" ]} in
      let '(headers, rt1) :=
        if negb (String.prefix "/public" endpoint) then
          let '(nonce, rt1) := _get_nonce rt in
          let signature_payload := pretty nonce +:+ method +:+ endpoint in
          let signature :=
            _generate_signature (secret_key account_config) signature_payload in
          (<["X-SIGNATURE" := signature]> (<["X-NONCE" := pretty nonce]> headers),
           rt1)
        else (headers, rt) in
      let url := base_url cfg +:+ endpoint in
      attempt_loop account_index
        {| req_method := method; req_endpoint := endpoint; req_url := url;
           req_headers := headers; req_kwargs := kw |}
        (range (max_retries cfg)) rt1
  end.

(** *** Market and order gateway *)

Definition lift_result {St A} (r : result A) : M St A := fun s => (r, s).

Definition get_market_data (symbol : string) : M runtime json :=
  _make_request 0 "GET" ("/public/markets/" +:+ symbol) NoKwargs.

Definition get_balance (account_index : nat) : M runtime json :=
  _make_request account_index "GET" "/private/account/balance" NoKwargs.

Definition place_order (account_index : nat) (symbol : string)
    (side : OrderSide) (order_type : OrderType) (quantity : float)
    (price : option float) : M runtime json :=
  let order_data :=
    {| od_symbol := symbol; od_side := OrderSide_value side;
       od_type := OrderType_value order_type; od_quantity := quantity;
       od_price := price |} in
  _make_request account_index "POST" "/private/orders" (JsonBody order_data).

Definition cancel_order (account_index : nat) (order_id : json)
    : M runtime json :=
  _make_request account_index "DELETE"
    ("/private/orders/" +:+ str_of_json E order_id) NoKwargs.

Definition get_order_status (account_index : nat) (order_id : json)
    : M runtime json :=
  _make_request account_index "GET"
    ("/private/orders/" +:+ str_of_json E order_id) NoKwargs.

Definition get_open_orders (account_index : nat) (symbol : option string)
    : M runtime json :=
  let params :=
    match symbol with
    | Some s => if String.eqb s "" then [] else [("symbol", s)]
    | None => []
    end in
  response <- _make_request account_index "GET" "/private/orders/open"
                (QueryParams params) ;;
  lift_result (dict_get response "orders" (JList [])).

(** The [for order in open_orders] loop of [close_all_orders].  A
    failing [cancel_order] is caught and logged.  A failing
    [order['id']] is caught too, but the handler's own f-string
    evaluates [order['id']] again, so the error leaves the loop. *)
Fixpoint cancel_each (account_index : nat) (open_orders : list json)
    : M runtime unit := fun rt =>
  match open_orders with
  | [] => (Ok tt, rt)
  | order :: rest =>
      match subscript order "id" with
      | Raise e => (Raise e, rt)
      | Ok oid =>
          match cancel_order account_index oid rt with
          | (Ok _, rt1) =>
              cancel_each account_index rest
                (log INFO (LogCancelled oid account_index) rt1)
          | (Raise e, rt1) =>
              cancel_each account_index rest
                (log ERROR (LogCancelFailed oid account_index e) rt1)
          end
      end
  end.

Definition close_all_orders (account_index : nat) (symbol : string)
    : M runtime unit :=
  open_orders <- get_open_orders account_index (Some symbol) ;;
  orders <- lift_result (iterate open_orders) ;;
  cancel_each account_index orders.

(** *** Session engine *)

Definition lift_rt {A} (m : M runtime A) : M bot A := fun s =>
  let '(r, rt') := m (snd s) in (r, (fst s, rt')).

Definition on_runtime (f : runtime -> runtime) : M bot unit := fun s =>
  (Ok tt, (fst s, f (snd s))).

Definition on_engine (f : engine -> engine) : M bot unit := fun s =>
  (Ok tt, (f (fst s), snd s)).

(** Lines 237-240. *)
Definition uniform_size : M bot float := fun s =>
  let '(x, rt') :=
    random_uniform (max_position_size cfg * 0.3)%float (max_position_size cfg)
      (snd s) in
  (Ok x, (fst s, rt')).

(** Lines 233-266 of [execute_delta_neutral_session]: opening price,
    position size, the two opening orders, their ids stored on the
    session object [r], and the log line, whose f-string evaluates
    [order1['id']] and [order2['id']].  Returns the local variables
    [current_price] and [position_size]. *)
Definition open_positions (r : nat) (session_id symbol : string)
    (account1_long : bool) : M bot (float * float) :=
  market_data <- lift_rt (get_market_data symbol) ;;
  last_price <- lift_result (subscript market_data "last_price") ;;
  current_price <- lift_result (py_float last_price) ;;
  position_size <- uniform_size ;;
  orders <-
    (if account1_long then
       order1 <- lift_rt (place_order 0 symbol BUY MARKET position_size None) ;;
       order2 <- lift_rt (place_order 1 symbol SELL MARKET position_size None) ;;
       ret (order1, order2)
     else
       order1 <- lift_rt (place_order 0 symbol SELL MARKET position_size None) ;;
       order2 <- lift_rt (place_order 1 symbol BUY MARKET position_size None) ;;
       ret (order1, order2)) ;;
  id1 <- lift_result (dict_get (fst orders) "id" JNull) ;;
  on_engine (update_session r (set_account1_order_id id1)) ;;;
  id2 <- lift_result (dict_get (snd orders) "id" JNull) ;;
  on_engine (update_session r (set_account2_order_id id2)) ;;;
  shown1 <- lift_result (subscript (fst orders) "id") ;;
  shown2 <- lift_result (subscript (snd orders) "id") ;;
  on_runtime
    (log INFO (LogOpened session_id shown1 shown2 position_size current_price)) ;;;
  ret (current_price, position_size).

(** Lines 271-287: the two closing orders. *)
Definition close_positions (symbol : string) (account1_long : bool)
    (position_size : float) : M bot unit :=
  if account1_long then
    lift_rt (place_order 0 symbol SELL MARKET position_size None) ;;;
    lift_rt (place_order 1 symbol BUY MARKET position_size None) ;;;
    ret tt
  else
    lift_rt (place_order 0 symbol BUY MARKET position_size None) ;;;
    lift_rt (place_order 1 symbol SELL MARKET position_size None) ;;;
    ret tt.

(** Lines 289-312: the session object is marked, then the closing price
    is fetched and the profit figures are computed and logged.  A float
    division raises [ZeroDivisionError] when the divisor is [0.0] or
    [-0.0], whatever the dividend. *)
Definition settle (r : nat) (session_id symbol : string)
    (account1_long : bool) (duration : Z) (current_price position_size : float)
    : M bot unit :=
  now <- lift_rt (fun rt => let '(t, rt') := read_clock rt in (Ok t, rt')) ;;
  on_engine (update_session r (set_end_time now)) ;;;
  on_engine (update_session r (set_closed true)) ;;;
  market_data <- lift_rt (get_market_data symbol) ;;
  last_price <- lift_result (subscript market_data "last_price") ;;
  closing_price <- lift_result (py_float last_price) ;;
  (if (current_price =? 0)%float then raise ZeroDivisionError else ret tt) ;;;
  let '(account1_pnl, account2_pnl, total_pnl) :=
    session_pnl account1_long position_size current_price closing_price in
  on_runtime
    (log INFO (LogClosed session_id account1_pnl account2_pnl total_pnl duration)).

(** The body of the [try] of [execute_delta_neutral_session], lines
    233-312, for the session object [r]. *)
Definition session_body (r : nat) (session_id symbol : string)
    (account1_long : bool) (duration : Z) : M bot unit :=
  opened <- open_positions r session_id symbol account1_long ;;
  on_runtime (asyncio_sleep (inject_Z duration)) ;;;
  close_positions symbol account1_long (snd opened) ;;;
  settle r session_id symbol account1_long duration (fst opened) (snd opened).

(** Lines 206-211: the random parameters of a session. *)
Definition choose_parameters : M runtime (string * bool * Z) :=
  symbol <- random_choice (symbols cfg) ;;
  account1_long <- random_choice [true; false] ;;
  duration <- random_randint (min_session_duration cfg)
                (max_session_duration cfg) ;;
  ret (symbol, account1_long, duration).

(** Lines 317-321: the handler's own [try]. *)
Definition cleanup (symbol : string) (rt : runtime) : runtime :=
  match (close_all_orders 0 symbol ;;; close_all_orders 1 symbol) rt with
  | (Ok _, rt') => rt'
  | (Raise close_error, rt') => log ERROR (LogCleanupFailed close_error) rt'
  end.

Definition execute_delta_neutral_session : M bot unit := fun s =>
  match active_session (fst s) with
  | Some _ => (Ok tt, (fst s, log WARNING LogSessionActive (snd s)))
  | None =>
      match choose_parameters (snd s) with
      | (Raise e, rt1) => (Raise e, (fst s, rt1))
      | (Ok (symbol, account1_long, duration), rt1) =>
          let '(u, rt2) := fresh_uuid rt1 in
          let session_id := String.substring 0 8 u in
          let '(now, rt3) := read_clock rt2 in
          let session :=
            {| session_id := session_id; symbol := symbol;
               account1_long := account1_long; start_time := now;
               planned_duration := duration; end_time := None;
               account1_order_id := JNull; account2_order_id := JNull;
               closed := false |} in
          let '(r, en1) := register_session session (fst s) in
          let rt4 :=
            log INFO (LogSessionStart session_id symbol account1_long duration)
              rt3 in
          match session_body r session_id symbol account1_long duration
                  (en1, rt4) with
          | (Ok _, s') => (Ok tt, (set_active None (fst s'), snd s'))
          | (Raise e, s') =>
              let rt5 := log ERROR (LogSessionFailed session_id e) (snd s') in
              (Ok tt, (set_active None (fst s'), cleanup symbol rt5))
          end
      end
  end.

(** *** Daily scheduler *)

(** [for session_num in range(daily_sessions)], lines 340-355. *)
Fixpoint cycle_loop (daily_sessions : Z) (min_delay : float) (slots : list Z)
    (s : bot) : bot :=
  match slots with
  | [] => s
  | session_num :: rest =>
      if negb (is_running (snd s)) then s
      else
        let '(r, s1) := execute_delta_neutral_session s in
        let rt1 :=
          match r with
          | Ok _ => snd s1
          | Raise e => log ERROR (LogSlotFailed (session_num + 1) e) (snd s1)
          end in
        let '(delay, rt2) :=
          random_uniform (min_delay * 0.7)%float (min_delay * 1.3)%float rt1 in
        let rt3 :=
          log INFO
            (LogSlotCompleted (session_num + 1) daily_sessions
               (delay / 60)%float)
            rt2 in
        cycle_loop daily_sessions min_delay rest
          (fst s1, asyncio_sleep (float_value delay) rt3)
  end.

Definition run_daily_cycle : M bot unit := fun s =>
  let rt0 := set_running true (snd s) in
  match random_randint (min_daily_sessions cfg) (max_daily_sessions cfg) rt0 with
  | (Raise e, rt1) => (Raise e, (fst s, rt1))
  | (Ok daily_sessions, rt1) =>
      let rt2 := log INFO (LogCycleStart daily_sessions) rt1 in
      if daily_sessions =? 0 then (Raise ZeroDivisionError, (fst s, rt2))
      else
        let min_delay := int_truediv (24 * 3600) daily_sessions in
        let s' :=
          cycle_loop daily_sessions min_delay (range daily_sessions)
            (fst s, rt2) in
        (Ok tt, (fst s', log INFO LogCycleCompleted (snd s')))
  end.
End Model.

(** ** Observations on traces *)

(** The events appended between two runtimes. *)
Definition events_since (rt rt' : runtime) : list event :=
  drop (length (trace rt)) (trace rt').

(** The HTTP attempts of a trace, with their outcomes. *)
Definition http_attempts (evs : list event)
    : list (nat * request * attempt_outcome) :=
  omap (fun ev => match ev with
                  | EvHttp a rq o => Some (a, rq, o)
                  | _ => None
                  end) evs.

(** The arguments of the [asyncio.sleep] calls of a trace. *)
Definition sleeps (evs : list event) : list Q :=
  omap (fun ev => match ev with EvSleep d => Some d | _ => None end) evs.

(** The trace without its log records: attempts and sleeps, in order. *)
Definition wire (evs : list event) : list event :=
  omap (fun ev => match ev with EvLog _ _ => None | _ => Some ev end) evs.

(** The exception an attempt ended in, if any; an attempt is transient
    when that exception is one the executor retries. *)
Definition outcome_error (o : attempt_outcome) : option exn :=
  match o with
  | RequestRaises e => Some e
  | Responded _ (Raise e) => Some e
  | Responded _ (Ok _) => None
  end.

Definition transient (o : attempt_outcome) : bool :=
  match outcome_error o with
  | Some e => retryable e
  | None => false
  end.

(** The attempts that [_make_request] turned into a returned value: a
    response with status 200 whose body was decoded. *)
Definition answered (evs : list event) : list (nat * request * json) :=
  omap (fun ev => match ev with
                  | EvHttp a rq (Responded status (Ok data)) =>
                      if status =? 200 then Some (a, rq, data) else None
                  | _ => None
                  end) evs.

(** The orders the gateway placed: answered POSTs to [/private/orders]. *)
Definition order_of_request (rq : request) : option order_data :=
  if String.eqb (req_method rq) "POST" && String.eqb (req_endpoint rq) "/private/orders"
  then match req_kwargs rq with JsonBody od => Some od | _ => None end
  else None.

Definition placed_orders (evs : list event) : list (nat * order_data) :=
  omap (fun '(a, rq, _) => pair a <$> order_of_request rq) (answered evs).

(** The order requests that were not retried: the POSTs to
    [/private/orders] whose attempt did not end in a transient failure. *)
Definition decisive_orders (evs : list event) : list (nat * order_data) :=
  omap (fun '(a, rq, o) =>
          if transient o then None else pair a <$> order_of_request rq)
    (http_attempts evs).

(** Every order body put on the wire, answered or not. *)
Definition order_bodies (evs : list event) : list order_data :=
  omap (fun '(_, rq, _) => match req_kwargs rq with
                           | JsonBody od => Some od
                           | _ => None
                           end) (http_attempts evs).

(** The market-data documents received: answered GETs under
    [/public/markets/]. *)
Definition market_documents (evs : list event) : list json :=
  omap (fun '(_, rq, data) =>
          if String.eqb (req_method rq) "GET"
             && String.prefix "/public/markets/" (req_endpoint rq)
          then Some data else None) (answered evs).

(** The profit figures reported by the closing log line. *)
Definition pnl_reports (evs : list event) : list (float * float * float) :=
  omap (fun ev => match ev with
                  | EvLog INFO (LogClosed _ a1 a2 tot _) => Some (a1, a2, tot)
                  | _ => None
                  end) evs.

(** The session counts announced by [run_daily_cycle]. *)
Definition announced_counts (evs : list event) : list Z :=
  omap (fun ev => match ev with
                  | EvLog INFO (LogCycleStart n) => Some n
                  | _ => None
                  end) evs.

(** The listing requests of [close_all_orders] made for an account. *)
Definition listing_attempts (account : nat) (evs : list event) : list request :=
  omap (fun '(a, rq, _) =>
          if Nat.eqb a account && String.eqb (req_endpoint rq) "/private/orders/open"
          then Some rq else None) (http_attempts evs).

(** The configurations the specification calls valid. *)
Definition valid_config (c : TradingConfig) : Prop :=
  min_session_duration c <= max_session_duration c
  /\ min_daily_sessions c <= max_daily_sessions c
  /\ symbols c <> [].

(** The record [stop()] logs when the environment calls it at an await. *)
Definition stop_events (E : env) (rt : runtime) : list event :=
  if stop_requested_at E (n_awaits rt) then [EvLog INFO LogStopping] else [].

(** What the events of one [_make_request] call look like: attempts on the
    caller's account with the caller's request, back-off sleeps, and the
    executor's (or [stop]'s) log records. *)
Definition executor_event (i : nat) (rq : request) (ev : event) : Prop :=
  match ev with
  | EvHttp a rq' _ => a = i /\ rq' = rq
  | EvSleep _ => True
  | EvLog ERROR (LogApiError _ _ _) => True
  | EvLog WARNING (LogRequestFailed _ _ _) => True
  | EvLog INFO LogStopping => True
  | EvLog _ _ => False
  end.

(** The wire events of [n] consecutive failed-and-retried attempts
    numbered from [a], the first of which is the transport's attempt
    [idx]: every attempt but the last is followed by its back-off sleep. *)
Fixpoint retry_schedule (E : env) (i : nat) (rq : request) (idx : nat)
    (a : Z) (n : nat) : list event :=
  match n with
  | O => []
  | S n' =>
      EvHttp i rq (transport E idx i rq)
      :: match n' with
         | O => []
         | S _ => EvSleep (inject_Z (2 ^ a))
                  :: retry_schedule E i rq (S idx) (a + 1) n'
         end
  end.

(** What [_make_request] does with the outcome of the attempt it stops at. *)
Definition final_result (o : attempt_outcome) : result json :=
  match o with
  | RequestRaises e => Raise e
  | Responded _ (Raise e) => Raise e
  | Responded status (Ok data) =>
      if status =? 200 then Ok data else Raise (ApiError data)
  end.

(** The authentication headers the specification asks of a request made
    for account [acct] with the given method, path and nonce. *)
Definition headers_ok (E : env) (acct : AccountConfig) (method endpoint : string)
    (nonce : Z) (h : gmap string string) : Prop :=
  h !! "X-API-KEY" = Some (api_key acct)
  /\ if String.prefix "/public" endpoint
     then h !! "X-NONCE" = None /\ h !! "X-SIGNATURE" = None
     else h !! "X-NONCE" = Some (pretty nonce)
          /\ h !! "X-SIGNATURE"
             = Some (hmac_sha256_hex E (secret_key acct)
                       (pretty nonce +:+ method +:+ endpoint)).

(** ** Stub environments and configurations

    Concrete collaborators on which the model is run: a stub transport is a
    function of the attempt's number, the account and the request. *)

Definition stub_str (j : json) : string :=
  match j with JStr s => s | JInt z => pretty z | _ => "?" end.

Definition stub_env (tr : nat -> nat -> request -> attempt_outcome) : env := {|
  hmac_sha256_hex := fun k m => "hmac(" +:+ k +:+ "," +:+ m +:+ ")";
  float_of_str := fun s => if String.eqb s "2010" then Some 2010%float else None;
  str_of_json := stub_str;
  transport := tr;
  time_ms := fun n => 1700000000000 + Z.of_nat n;
  rand_bits := fun _ => 0;
  uuid4 := fun _ => "0f8fad5b-d9cb-469f-a165-70867728950e";
  stop_requested_at := fun _ => false
|}.

Definition two_accounts : list AccountConfig :=
  [ {| account_name := "Account1"; api_key := "key1"; secret_key := "secret1" |};
    {| account_name := "Account2"; api_key := "key2"; secret_key := "secret2" |} ].

Definition default_bot : bot_config :=
  {| account_configs := two_accounts; trading_config := default_trading_config |}.

(** The default configuration with another retry budget. *)
Definition bot_with_retries (n : Z) : bot_config := {|
  account_configs := two_accounts;
  trading_config := {|
    base_url := "https://api.lighter.xyz"; request_timeout := 30;
    max_retries := n;
    min_session_duration := 300; max_session_duration := 2100;
    min_daily_sessions := 70; max_daily_sessions := 180;
    max_position_size := 0.1%float; symbols := ["ETH-USDC"; "BTC-USDC"] |} |}.

(** Every attempt times out. *)
Definition always_timeout (n account : nat) (rq : request) : attempt_outcome :=
  RequestRaises TimeoutError.

(** Two connection errors, then an answer. *)
Definition flaky_transport (n account : nat) (rq : request) : attempt_outcome :=
  if (n <? 2)%nat then RequestRaises (ClientError "connection reset")
  else Responded 200 (Ok (JDict [("balance", JStr "12.5")])).

(** A gateway in front of the exchange answers 502 with an HTML page, on
    which [response.json()] raises [aiohttp.ContentTypeError], a subclass
    of [aiohttp.ClientError]. *)
Definition bad_gateway (n account : nat) (rq : request) : attempt_outcome :=
  Responded 502 (Raise (ClientError "ContentTypeError: text/html")).

(** The exchange rejects every request with a JSON error document. *)
Definition rejecting (n account : nat) (rq : request) : attempt_outcome :=
  Responded 400 (Ok (JDict [("error", JStr "insufficient margin")])).

(** The events of one gateway call that went through [_make_request] for
    account [i] with the given method, path and keyword arguments, under
    a retry budget [budget], and that ended in [r].  A returned value is
    the body of the one answered attempt, unless the budget allows no
    attempt at all and the value is [None]. *)
Definition call_events (budget : Z) (i : nat) (method endpoint : string)
    (kw : kwargs) (r : result json) (evs : list event) : Prop :=
  exists rq,
    req_method rq = method /\ req_endpoint rq = endpoint /\ req_kwargs rq = kw
    /\ Forall (executor_event i rq) evs
    /\ match r with
       | Ok d => (1 <= budget /\ answered evs = [(i, rq, d)]
                  /\ exists retried,
                       http_attempts evs
                       = retried ++ [(i, rq, Responded 200 (Ok d))]
                       /\ Forall (fun x : nat * request * attempt_outcome =>
                                    transient x.2 = true) retried)
                 \/ (budget <= 0 /\ d = JNull /\ evs = [])
       | Raise _ => answered evs = []
       end.

(** The order body [place_order] builds for a market order. *)
Definition market_order (symbol : string) (side : OrderSide) (quantity : float)
    : order_data :=
  {| od_symbol := symbol; od_side := OrderSide_value side;
     od_type := OrderType_value MARKET; od_quantity := quantity;
     od_price := None |}.

(** Updates of a session object that touch nothing but the two order ids. *)
Definition order_ids_only (f : Session -> Session) : Prop :=
  forall s,
    session_id (f s) = session_id s /\ symbol (f s) = symbol s
    /\ account1_long (f s) = account1_long s /\ start_time (f s) = start_time s
    /\ planned_duration (f s) = planned_duration s
    /\ end_time (f s) = end_time s /\ closed (f s) = closed s.

(** What the session engine emits while it trades [size] of [sym]: order
    bodies are market orders for that symbol and size, and none of the
    scheduler's log records occurs. *)
Definition session_event (sym : string) (size : float) (ev : event) : Prop :=
  match ev with
  | EvHttp _ rq _ =>
      match req_kwargs rq with
      | JsonBody od => exists side, od = market_order sym side size
      | _ => True
      end
  | EvSleep _ => True
  | EvLog _ (LogCycleStart _) | EvLog _ (LogSlotFailed _ _)
  | EvLog _ (LogSlotCompleted _ _ _) | EvLog _ LogCycleCompleted => False
  | EvLog _ _ => True
  end.

(** [float(market_data['last_price'])] *)
Definition last_price_of (E : env) (market_data : json) : result float :=
  match subscript market_data "last_price" with
  | Ok v => py_float E v
  | Raise e => Raise e
  end.

(** The order pairs of a session: the long account buys and the short
    account sells to open; the sides are swapped to close. *)
Definition opening_orders (sym : string) (long1 : bool) (size : float)
    : list (nat * order_data) :=
  [ (0%nat, market_order sym (if long1 then BUY else SELL) size);
    (1%nat, market_order sym (if long1 then SELL else BUY) size) ].

Definition closing_orders (sym : string) (long1 : bool) (size : float)
    : list (nat * order_data) :=
  [ (0%nat, market_order sym (if long1 then SELL else BUY) size);
    (1%nat, market_order sym (if long1 then BUY else SELL) size) ].

(** The position sizes [random.uniform] returns for a configuration:
    [a + (b - a) * u] in binary64, for the bounds [a] and [b] of lines
    237-240 and a value [u] of [random.random()]. *)
Definition size_drawn (c : TradingConfig) (size : float) : Prop :=
  exists r : Z,
    size = (max_position_size c * 0.3
            + (max_position_size c - max_position_size c * 0.3)
              * (float_of_Z (r mod 2 ^ 53) / float_of_Z (2 ^ 53)))%float.

(** A run of the engine reached the end of its [try] block: the closing
    log line, which is its last statement, was emitted. *)
Definition settled (evs : list event) : Prop := pnl_reports evs <> [].

(** Every reference held in [self.sessions] names an allocated object. *)
Definition wf_engine (en : engine) : Prop :=
  Forall (fun r => (r < length (heap en))%nat) (sessions en).

(** Events that belong to the cleanup of account [i]: its requests carry
    no order body and are neither order placements nor market-data reads,
    and no other account is contacted. *)
Definition quiet_for (i : nat) (evs : list event) : Prop :=
  (forall sym size, Forall (session_event sym size) evs)
  /\ placed_orders evs = [] /\ market_documents evs = []
  /\ pnl_reports evs = []
  /\ decisive_orders evs = []
  /\ (forall a, a <> i -> listing_attempts a evs = [])
  /\ Forall (fun x : nat * request * attempt_outcome => x.1.1 = i) (http_attempts evs).

(** The scenario of the specification: one symbol, durations 300..301,
    the price moves from 2000 to 2010 across the session, every order is
    accepted.  With the random source of [stub_env] account 1 is long and
    the position size is the lower bound [max_position_size * 0.3], which
    is [0.05] for the double next above one sixth. *)
Definition scenario_transport (n account : nat) (rq : request) : attempt_outcome :=
  match n with
  | 0%nat => Responded 200 (Ok (JDict [("last_price", JInt 2000)]))
  | 5%nat => Responded 200 (Ok (JDict [("last_price", JStr "2010")]))
  | _ => Responded 200 (Ok (JDict [("id", JInt (Z.of_nat n))]))
  end.

Definition scenario_bot : bot_config := {|
  account_configs := two_accounts;
  trading_config := {|
    base_url := "https://api.lighter.xyz"; request_timeout := 30; max_retries := 3;
    min_session_duration := 300; max_session_duration := 301;
    min_daily_sessions := 2; max_daily_sessions := 2;
    max_position_size := 0.16666666666666669%float; symbols := ["ETH-USDC"] |} |}.

(** An exchange that quotes a price, rejects orders and cancellations with
    a JSON error document, and lists one open order per account. *)
Definition refusing_orders (n account : nat) (rq : request) : attempt_outcome :=
  if String.eqb (req_method rq) "GET" then
    if String.eqb (req_endpoint rq) "/private/orders/open"
    then Responded 200 (Ok (JDict [("orders", JList [JDict [("id", JStr "a1")]])]))
    else Responded 200 (Ok (JDict [("last_price", JInt 2000)]))
  else Responded 400 (Ok (JDict [("error", JStr "rejected")])).

(** The environment of [stub_env] in which another task calls [stop()]
    while the bot awaits its first HTTP attempt. *)
Definition stopping_env (tr : nat -> nat -> request -> attempt_outcome) : env := {|
  hmac_sha256_hex := hmac_sha256_hex (stub_env tr);
  float_of_str := float_of_str (stub_env tr);
  str_of_json := stub_str;
  transport := tr;
  time_ms := time_ms (stub_env tr);
  rand_bits := fun _ => 0;
  uuid4 := uuid4 (stub_env tr);
  stop_requested_at := fun n => Nat.eqb n 0
|}.

Definition initial_bot : bot := (initial_engine, initial_runtime).

(** Named runs of the model on the stubs. *)
Definition refused_session : result unit * bot :=
  execute_delta_neutral_session (stub_env refusing_orders) default_bot initial_bot.

Definition rejected_session : result unit * bot :=
  execute_delta_neutral_session (stub_env rejecting) default_bot initial_bot.

Definition scenario_session : result unit * bot :=
  execute_delta_neutral_session (stub_env scenario_transport) scenario_bot initial_bot.

Definition stopped_cycle : result unit * bot :=
  run_daily_cycle (stopping_env rejecting) scenario_bot initial_bot.

Definition stopped_slot : result unit * bot :=
  execute_delta_neutral_session (stopping_env rejecting) scenario_bot
    (initial_engine, set_running true initial_runtime).

(** ** Construction, shutdown and [main] *)

(** [TradingConfig.__post_init__], lines 52-54: only a missing symbol
    list is replaced. *)
Definition __post_init__ (symbols : option (list string)) : list string :=
  match symbols with
  | None => ["ETH-USDC"; "BTC-USDC"]
  | Some l => l
  end.

(** The constructor the dataclass generates, followed by
    [__post_init__]. *)
Definition TradingConfig_new (base_url : string)
    (request_timeout max_retries min_session_duration max_session_duration
       min_daily_sessions max_daily_sessions : Z)
    (max_position_size : float) (symbols : option (list string)) : TradingConfig :=
  {| base_url := base_url; request_timeout := request_timeout;
     max_retries := max_retries;
     min_session_duration := min_session_duration;
     max_session_duration := max_session_duration;
     min_daily_sessions := min_daily_sessions;
     max_daily_sessions := max_daily_sessions;
     max_position_size := max_position_size;
     symbols := __post_init__ symbols |}.

(** One [aiohttp.ClientSession] of [sessions_per_account]. *)
Record client_session := {
  client_timeout : Z;          (* ClientTimeout(total=...) *)
  client_closed : bool
}.

(** The log records of [__init__], [close] and [main]. *)
Inductive lifecycle_record :=
| LogInitialized
| LogShutdown
| LogBalance (name : string) (balance : json)
| LogBotError (e : exn).

(** What the process does, in order: the events of the bot's own trace,
    the creation and closing of HTTP client sessions, and the records
    logged outside the bot's trading methods. *)
Inductive process_event :=
| FromBot (ev : event)
| ClientCreated (timeout : Z)
| ClientClosed (index : nat)
| ProcessLog (lvl : level) (r : lifecycle_record).

(** A constructed [LighterTradingBot] besides its configuration: the
    engine and runtime of the trading methods, the client sessions, and
    the journal of the process.  ([session_task] is never read.) *)
Record process := {
  the_bot : bot;
  sessions_per_account : list client_session;
  journal : list process_event
}.

Definition record_event (ev : process_event) (p : process) : process :=
  {| the_bot := the_bot p; sessions_per_account := sessions_per_account p;
     journal := journal p ++ [ev] |}.

(** A method of the bot run from [main] or [close]: what it appends to
    the bot's trace is copied to the journal. *)
Definition call {A} (m : M bot A) : M process A := fun p =>
  let '(r, b') := m (the_bot p) in
  (r, {| the_bot := b'; sessions_per_account := sessions_per_account p;
         journal := journal p ++ (FromBot <$> events_since (the_bot p).2 b'.2) |}).

(** [LighterTradingBot.__init__], lines 69-86. *)
Definition __init__ (account_configs : list AccountConfig)
    (trading_config : TradingConfig) : result (bot_config * process) :=
  if negb (length account_configs =? 2)%nat then Raise ValueError
  else
    let clients :=
      (fun _ => {| client_timeout := request_timeout trading_config;
                   client_closed := false |}) <$> range 2 in
    Ok ({| account_configs := account_configs;
           trading_config := trading_config |},
        {| the_bot := (initial_engine, initial_runtime);
           sessions_per_account := clients;
           journal := (ClientCreated ∘ client_timeout <$> clients)
                      ++ [ProcessLog INFO LogInitialized] |}).

Definition close_client (s : client_session) : client_session :=
  {| client_timeout := client_timeout s; client_closed := true |}.

Section Lifecycle.
Context (E : env).
Local Open Scope py_scope.

(** [await session.close()] for the client at [index]. *)
Definition close_one (p : process) (index : nat) : process :=
  (call (on_runtime (await_point E))
     {| the_bot := the_bot p;
        sessions_per_account := alter close_client index (sessions_per_account p);
        journal := journal p ++ [ClientClosed index] |}).2.

(** [LighterTradingBot.close], lines 88-92. *)
Definition close (p : process) : process :=
  record_event (ProcessLog INFO LogShutdown)
    (foldl close_one p (seq 0 (length (sessions_per_account p)))).

(** Lines 387-389 of [main]:
    [for i, account in enumerate(account_configs)]. *)
Fixpoint check_balances (B : bot_config) (i : nat)
    (accounts : list AccountConfig) : M process unit :=
  match accounts with
  | [] => ret tt
  | account :: rest =>
      balance <- call (lift_rt (get_balance E B i)) ;;
      modify (record_event
                (ProcessLog INFO (LogBalance (account_name account) balance))) ;;;
      check_balances B (S i) rest
  end.

(** Lines 383-398 of [main], for the two values it builds first: the
    bot is constructed outside the [try]; the [try] checks the
    balances and runs the daily cycle; an exception is logged and
    raised again; [finally] closes the bot. *)
Definition bot_program (account_configs : list AccountConfig)
    (trading_config : TradingConfig) : result unit * option process :=
  match __init__ account_configs trading_config with
  | Raise e => (Raise e, None)
  | Ok (B, p) =>
      match (check_balances B 0 account_configs ;;;
             call (run_daily_cycle E B)) p with
      | (Ok _, p1) => (Ok tt, Some (close p1))
      | (Raise e, p1) =>
          (Raise e,
           Some (close (record_event (ProcessLog ERROR (LogBotError e)) p1)))
      end
  end.

Definition main : result unit * option process :=
  bot_program
    [ {| account_name := "Account1";
         api_key := "your_account1_api_key_here";
         secret_key := "your_account1_secret_key_here" |};
      {| account_name := "Account2";
         api_key := "your_account2_api_key_here";
         secret_key := "your_account2_secret_key_here" |} ]
    (TradingConfig_new "https://api.lighter.xyz" 30 3 300 2100 70 180
       0.1%float None).
End Lifecycle.

(** ** Further observations *)

(** The records logged outside the trading methods. *)
Definition process_logs (j : list process_event)
    : list (level * lifecycle_record) :=
  omap (fun ev => match ev with
                  | ProcessLog lvl r => Some (lvl, r)
                  | _ => None
                  end) j.

(** The balances [main] logs: account name and response body. *)
Definition balance_reports (j : list process_event) : list (string * json) :=
  omap (fun ev => match ev with
                  | ProcessLog INFO (LogBalance name balance) =>
                      Some (name, balance)
                  | _ => None
                  end) j.

(** What [close] adds to the journal before its log line: clients being
    closed, and [stop()] logging if it is called meanwhile. *)
Definition closing_event (ev : process_event) : Prop :=
  match ev with
  | ClientClosed _ | FromBot (EvLog INFO LogStopping) => True
  | _ => False
  end.

(** A request of [get_balance]. *)
Definition balance_request (x : nat * request * attempt_outcome) : Prop :=
  req_method x.1.2 = "GET" /\ req_endpoint x.1.2 = "/private/account/balance".

(** The part of the journal that comes from the bot's trace. *)
Definition bot_events (j : list process_event) : list event :=
  omap (fun ev => match ev with FromBot e => Some e | _ => None end) j.

(** What the [place_order] calls returned, with their account: the
    decoded body of the response with status 200 that ended the call. *)
Definition order_answers (evs : list event) : list (nat * json) :=
  omap (fun '(a, rq, d) => (fun _ => (a, d)) <$> order_of_request rq)
    (answered evs).

(** The later trace extends the earlier one. *)
Definition trace_grows (rt rt' : runtime) : Prop :=
  exists evs, trace rt' = trace rt ++ evs.

(** The outcome [close_all_orders] logs for each order: the order id,
    the account, and whether [cancel_order] returned. *)
Definition cancel_reports (evs : list event) : list (json * nat * bool) :=
  omap (fun ev => match ev with
                  | EvLog INFO (LogCancelled oid a) => Some (oid, a, true)
                  | EvLog ERROR (LogCancelFailed oid a _) => Some (oid, a, false)
                  | _ => None
                  end) evs.

(** The slots [run_daily_cycle] reports as completed: slot number,
    announced count of slots and the exact value of the announced wait
    in minutes; and the slots it reports as failed. *)
Definition slot_reports (evs : list event) : list (Z * Z * Q) :=
  omap (fun ev => match ev with
                  | EvLog INFO (LogSlotCompleted n total minutes) =>
                      Some (n, total, float_value minutes)
                  | _ => None
                  end) evs.

Definition slot_failures (evs : list event) : list (Z * exn) :=
  omap (fun ev => match ev with
                  | EvLog ERROR (LogSlotFailed n e) => Some (n, e)
                  | _ => None
                  end) evs.

(** [stop()] is called at one of the awaits numbered [a], ..., [b - 1]. *)
Definition stop_between (E : env) (a b : nat) : bool :=
  existsb (stop_requested_at E) (seq a (b - a)).

(** Between two states the flag [is_running] was written by [stop()]
    only: it is what it was, unless [stop()] was called at an await in
    between. *)
Definition flag_kept (E : env) (rt rt' : runtime) : Prop :=
  (n_awaits rt <= n_awaits rt')%nat
  /\ is_running rt'
     = is_running rt && negb (stop_between E (n_awaits rt) (n_awaits rt')).

(** A relation between an earlier and a later runtime that holds across
    each step of the model that is not a request: a log record, a sleep,
    a reading of the clock, of the random source or of [uuid4]. *)
Record frame_closed (E : env) (P : runtime -> runtime -> Prop) : Prop := {
  frame_refl : forall rt, P rt rt;
  frame_trans : forall a b c, P a b -> P b c -> P a c;
  frame_log : forall lvl r rt, P rt (log lvl r rt);
  frame_sleep : forall d rt, P rt (asyncio_sleep E d rt);
  frame_clock : forall rt, P rt (read_clock E rt).2;
  frame_draw : forall rt, P rt (draw E rt).2;
  frame_uuid : forall rt, P rt (fresh_uuid E rt).2
}.

(** A computation keeps [P] between the runtime it starts from and the
    one it ends in; [π] finds the runtime in the state. *)
Definition preserves {St A} (P : runtime -> runtime -> Prop)
    (π : St -> runtime) (m : M St A) : Prop :=
  forall s r s', m s = (r, s') -> P (π s) (π s').

(** [P] holds across every call of the request executor. *)
Definition requests_keep (E : env) (B : bot_config)
    (P : runtime -> runtime -> Prop) : Prop :=
  forall i m ep kw, preserves P id (_make_request E B i m ep kw).

(** No request was made between two states. *)
Definition nothing_sent (rt rt' : runtime) : Prop :=
  exists evs, trace rt' = trace rt ++ evs /\ http_attempts evs = [].

(** ** Further named runs of the model on the stubs *)

(** The scenario configuration with an empty symbol list. *)
Definition no_symbols_bot : bot_config := {|
  account_configs := two_accounts;
  trading_config := {|
    base_url := "https://api.lighter.xyz"; request_timeout := 30; max_retries := 3;
    min_session_duration := 300; max_session_duration := 301;
    min_daily_sessions := 2; max_daily_sessions := 2;
    max_position_size := 0.16666666666666669%float; symbols := [] |} |}.

Definition flaky_balance : result json * runtime :=
  _make_request (stub_env flaky_transport) default_bot
    0 "GET" "/private/account/balance" NoKwargs initial_runtime.

Definition scenario_cycle : result unit * bot :=
  run_daily_cycle (stub_env scenario_transport) scenario_bot initial_bot.

Definition listed_orders : result json * runtime :=
  get_open_orders (stub_env refusing_orders) default_bot
    0 (Some "ETH-USDC") initial_runtime.

Definition cancelled_orders : result unit * runtime :=
  close_all_orders (stub_env refusing_orders) default_bot
    0 "ETH-USDC" initial_runtime.

Definition rejected_program : result unit * option process :=
  bot_program (stub_env rejecting) two_accounts default_trading_config.

(** ** Orders on the wire *)

(** Every order request sent, with its account: the attempts of POSTs
    to [/private/orders] that carry an order body, whether they were
    answered or not and whether they were retried or not. *)
Definition order_sends (evs : list event) : list (nat * order_data) :=
  omap (fun '(a, rq, _) => pair a <$> order_of_request rq) (http_attempts evs).

(** The first [length reps] orders of [orders], each repeated as often
    as [reps] says. *)
Definition repeated (reps : list nat) (orders : list (nat * order_data))
    : list (nat * order_data) :=
  mjoin (zip_with replicate reps orders).

(** A number of attempts an order that was sent can have taken. *)
Definition retry_count (budget : Z) (n : nat) : Prop :=
  (1 <= n)%nat /\ Z.of_nat n <= budget.



(** * Proofs

    ** Runtime and traces *)

Section Runtime.
Context (E : env).

Lemma trace_emit ev rt : trace (emit ev rt) = trace rt ++ [ev].
Proof. reflexivity. Qed.

Lemma trace_log lvl r rt : trace (log lvl r rt) = trace rt ++ [EvLog lvl r].
Proof. reflexivity. Qed.

Lemma trace_await_point rt :
  trace (await_point E rt) = trace rt ++ stop_events E rt.
Proof.
  unfold await_point, stop_events.
  destruct (stop_requested_at E (n_awaits rt)); simpl; [done|].
  by rewrite app_nil_r.
Qed.

Lemma cursors_await_point rt :
  n_attempts (await_point E rt) = n_attempts rt
  /\ n_clock (await_point E rt) = n_clock rt
  /\ n_draws (await_point E rt) = n_draws rt
  /\ n_uuids (await_point E rt) = n_uuids rt.
Proof. unfold await_point. by destruct (stop_requested_at E (n_awaits rt)). Qed.

Lemma trace_asyncio_sleep d rt :
  trace (asyncio_sleep E d rt) = trace rt ++ EvSleep d :: stop_events E rt.
Proof.
  unfold asyncio_sleep. rewrite trace_await_point, trace_emit.
  by rewrite <- app_assoc.
Qed.

Lemma send_spec i rq rt :
  exists rt1,
    send E i rq rt = (transport E (n_attempts rt) i rq, rt1)
    /\ trace rt1 = trace rt
         ++ EvHttp i rq (transport E (n_attempts rt) i rq) :: stop_events E rt
    /\ n_attempts rt1 = S (n_attempts rt).
Proof.
  eexists. split; [reflexivity|]. split.
  - rewrite trace_await_point, trace_emit. simpl. by rewrite <- app_assoc.
  - by rewrite (proj1 (cursors_await_point _)).
Qed.
End Runtime.

Section Traces.
Context (E : env).

Lemma events_since_app rt rt' evs :
  trace rt' = trace rt ++ evs -> events_since rt rt' = evs.
Proof. intros H. unfold events_since. rewrite H. apply drop_app_length. Qed.

Lemma wire_app a b : wire (a ++ b) = wire a ++ wire b.
Proof. apply omap_app. Qed.
Lemma sleeps_app a b : sleeps (a ++ b) = sleeps a ++ sleeps b.
Proof. apply omap_app. Qed.
Lemma http_attempts_app a b :
  http_attempts (a ++ b) = http_attempts a ++ http_attempts b.
Proof. apply omap_app. Qed.
Lemma answered_app a b : answered (a ++ b) = answered a ++ answered b.
Proof. apply omap_app. Qed.

Lemma wire_stop_events rt : wire (stop_events E rt) = [].
Proof. unfold stop_events. by destruct (stop_requested_at E _). Qed.

Lemma sleeps_wire evs : sleeps (wire evs) = sleeps evs.
Proof.
  induction evs as [|[a rq o|d|l r] evs IH]; simpl; [done| | |done];
    unfold sleeps, wire in *; simpl; by rewrite ?IH.
Qed.

Lemma http_attempts_wire evs : http_attempts (wire evs) = http_attempts evs.
Proof.
  induction evs as [|[a rq o|d|l r] evs IH]; simpl; [done| | |done];
    unfold http_attempts, wire in *; simpl; by rewrite ?IH.
Qed.

Lemma answered_wire evs : answered (wire evs) = answered evs.
Proof.
  induction evs as [|[a rq o|d|l r] evs IH]; simpl; [done| | |done];
    unfold answered, wire in *; simpl; by rewrite ?IH.
Qed.

Lemma executor_event_stop i rq rt : Forall (executor_event i rq) (stop_events E rt).
Proof.
  unfold stop_events. destruct (stop_requested_at E _); repeat constructor.
Qed.
Lemma sleeps_retry_schedule i rq n idx a :
  sleeps (retry_schedule E i rq idx a n)
  = (fun z => inject_Z (2 ^ z)) <$> seqZ a (Z.of_nat n - 1).
Proof.
  revert idx a. induction n as [|n IH]; intros idx a; [done|].
  destruct n as [|n]; [done|].
  transitivity (inject_Z (2 ^ a)
                :: sleeps (retry_schedule E i rq (S idx) (a + 1) (S n)));
    [reflexivity|].
  rewrite IH. rewrite (seqZ_cons a) by lia. cbn [fmap list_fmap].
  f_equal. f_equal. f_equal; lia.
Qed.

Lemma http_attempts_retry_schedule i rq n idx a :
  http_attempts (retry_schedule E i rq idx a n)
  = (fun j => (i, rq, transport E (idx + j) i rq)) <$> seq 0 n.
Proof.
  revert idx a. induction n as [|n IH]; intros idx a; [done|].
  cbn [seq fmap list_fmap]. rewrite Nat.add_0_r.
  destruct n as [|n]; [done|].
  transitivity ((i, rq, transport E idx i rq)
                :: http_attempts (retry_schedule E i rq (S idx) (a + 1) (S n)));
    [reflexivity|].
  rewrite IH. f_equal.
  rewrite <- (fmap_S_seq 0), <- list_fmap_compose.
  apply list_fmap_ext. intros _ j _. simpl. do 2 f_equal. lia.
Qed.
End Traces.

Section Executor.
Context (E : env) (B : bot_config).
Let max := max_retries (trading_config B).

(** One iteration of the retry loop, by cases on what the attempt met. *)
Lemma attempt_loop_cons i rq a rest rt :
  let o := transport E (n_attempts rt) i rq in
  exists rt1,
    trace rt1 = trace rt ++ EvHttp i rq o :: stop_events E rt
    /\ n_attempts rt1 = S (n_attempts rt)
    /\ ((exists d, o = Responded 200 (Ok d)
          /\ attempt_loop E B i rq (a :: rest) rt = (Ok d, rt1))
        \/ (exists s d, o = Responded s (Ok d) /\ s <> 200
          /\ attempt_loop E B i rq (a :: rest) rt
             = (Raise (ApiError d), log ERROR (LogApiError s i d) rt1))
        \/ (exists e, outcome_error o = Some e /\ retryable e = false
          /\ attempt_loop E B i rq (a :: rest) rt = (Raise e, rt1))
        \/ (exists e, outcome_error o = Some e /\ retryable e = true
          /\ a = max - 1
          /\ attempt_loop E B i rq (a :: rest) rt
             = (Raise e, log WARNING (LogRequestFailed (a + 1) i e) rt1))
        \/ (exists e, outcome_error o = Some e /\ retryable e = true
          /\ a <> max - 1
          /\ attempt_loop E B i rq (a :: rest) rt
             = attempt_loop E B i rq rest
                 (asyncio_sleep E (inject_Z (2 ^ a))
                    (log WARNING (LogRequestFailed (a + 1) i e) rt1)))).
Proof.
  intros o. destruct (send_spec E i rq rt) as (rt1 & Hsend & Htr & Hn).
  exists rt1. split; [exact Htr|]. split; [exact Hn|].
  cbn [attempt_loop]. rewrite Hsend. fold o. unfold attempt_body.
  destruct o as [e | s [d | e]]; cbn [outcome_error].
  - destruct (retryable e) eqn:Hr.
    + destruct (a =? max_retries (trading_config B) - 1) eqn:Ha.
      * apply Z.eqb_eq in Ha. right; right; right; left. by exists e.
      * apply Z.eqb_neq in Ha. right; right; right; right. by exists e.
    + right; right; left. by exists e.
  - destruct (s =? 200) eqn:Hs.
    + apply Z.eqb_eq in Hs. subst s. left. by exists d.
    + apply Z.eqb_neq in Hs. right; left. by exists s, d.
  - destruct (retryable e) eqn:Hr.
    + destruct (a =? max_retries (trading_config B) - 1) eqn:Ha.
      * apply Z.eqb_eq in Ha. right; right; right; left. by exists e.
      * apply Z.eqb_neq in Ha. right; right; right; right. by exists e.
    + right; right; left. by exists e.
Qed.
End Executor.

Section ExecutorRuns.
Context (E : env) (B : bot_config).
Let max := max_retries (trading_config B).

(** The loop run to its end: [m] attempts are made when the first
    [m - 1] are transient failures and the [m]-th is either decisive or
    the last one allowed. *)
Lemma attempt_loop_run i rq (m : nat) : forall (n : nat) a rt,
  (1 <= m <= n)%nat ->
  a + Z.of_nat n = max ->
  (forall j, (j < m - 1)%nat ->
     transient (transport E (n_attempts rt + j) i rq) = true) ->
  (m = n \/ transient (transport E (n_attempts rt + (m - 1)) i rq) = false) ->
  exists rt' evs,
    attempt_loop E B i rq (seqZ a (Z.of_nat n)) rt
    = (final_result (transport E (n_attempts rt + (m - 1)) i rq), rt')
    /\ trace rt' = trace rt ++ evs
    /\ wire evs = retry_schedule E i rq (n_attempts rt) a m
    /\ n_attempts rt' = (n_attempts rt + m)%nat.
Proof.
  induction m as [|m IH]; intros n a rt Hm Han Htrans Hlast; [lia|].
  destruct n as [|n]; [lia|].
  rewrite seqZ_cons by lia.
  replace (Z.pred (Z.of_nat (S n))) with (Z.of_nat n) by lia.
  destruct (attempt_loop_cons E B i rq a (seqZ (Z.succ a) (Z.of_nat n)) rt)
    as (rt1 & Htr & Hn & Hcases).
  fold max in Hcases.
  assert (Hwire1 : wire (EvHttp i rq (transport E (n_attempts rt) i rq)
                           :: stop_events E rt)
                   = [EvHttp i rq (transport E (n_attempts rt) i rq)]).
  { change (?x :: ?l) with ([x] ++ l). rewrite wire_app, wire_stop_events. done. }
  destruct m as [|m].
  - (* the first attempt is the one the loop stops at *)
    replace (n_attempts rt + (1 - 1))%nat with (n_attempts rt) in * by lia.
    assert (Hdone : forall r rt2 evs2,
              attempt_loop E B i rq (a :: seqZ (Z.succ a) (Z.of_nat n)) rt = (r, rt2) ->
              r = final_result (transport E (n_attempts rt) i rq) ->
              trace rt2 = trace rt1 ++ evs2 -> wire evs2 = [] ->
              n_attempts rt2 = n_attempts rt1 ->
              exists rt' evs,
                attempt_loop E B i rq (a :: seqZ (Z.succ a) (Z.of_nat n)) rt
                = (final_result (transport E (n_attempts rt) i rq), rt')
                /\ trace rt' = trace rt ++ evs
                /\ wire evs = retry_schedule E i rq (n_attempts rt) a 1
                /\ n_attempts rt' = (n_attempts rt + 1)%nat).
    { intros r rt2 evs2 Hrun -> Htr2 Hw2 Hn2. eexists rt2, _.
      split; [exact Hrun|]. split.
      - rewrite Htr2, Htr, <- app_assoc. reflexivity.
      - split; [|lia]. rewrite wire_app, Hwire1, Hw2. reflexivity. }
    destruct Hcases as [(d & Ho & Hrun) | [(s & d & Ho & Hs & Hrun)
      | [(e & Ho & Hr & Hrun) | [(e & Ho & Hr & Ha & Hrun)
      | (e & Ho & Hr & Ha & Hrun)]]]].
    + apply (Hdone _ _ [] Hrun); [by rewrite Ho | by rewrite app_nil_r | done..].
    + eapply (Hdone _ _ [_] Hrun); [|reflexivity|done|done].
      rewrite Ho. cbn. by rewrite (proj2 (Z.eqb_neq s 200) Hs).
    + apply (Hdone _ _ [] Hrun); [| by rewrite app_nil_r | done..].
      destruct (transport E (n_attempts rt) i rq) as [?|? [?|?]];
        cbn in Ho |- *; congruence.
    + eapply (Hdone _ _ [_] Hrun); [|reflexivity|done|done].
      destruct (transport E (n_attempts rt) i rq) as [?|? [?|?]];
        cbn in Ho |- *; congruence.
    + exfalso. destruct Hlast as [Hmn | Hnt]; [lia|].
      unfold transient in Hnt. rewrite Ho in Hnt. congruence.
  - (* the first attempt is a transient failure and is retried *)
    assert (H0 : transient (transport E (n_attempts rt) i rq) = true).
    { specialize (Htrans 0%nat). rewrite Nat.add_0_r in Htrans.
      apply Htrans. lia. }
    unfold transient in H0.
    destruct Hcases as [(d & Ho & Hrun) | [(s & d & Ho & Hs & Hrun)
      | [(e & Ho & Hr & Hrun) | [(e & Ho & Hr & Ha & Hrun)
      | (e & Ho & Hr & Ha & Hrun)]]]].
    + rewrite Ho in H0. discriminate.
    + rewrite Ho in H0. discriminate.
    + rewrite Ho in H0. congruence.
    + lia.
    + set (rt2 := asyncio_sleep E (inject_Z (2 ^ a))
                    (log WARNING (LogRequestFailed (a + 1) i e) rt1)) in *.
      assert (Hn2 : n_attempts rt2 = S (n_attempts rt)).
      { unfold rt2, asyncio_sleep.
        rewrite (proj1 (cursors_await_point _ _)). exact Hn. }
      destruct (IH n (Z.succ a) rt2) as (rt' & evs & Hrun' & Htr' & Hw' & Hn').
      * lia.
      * lia.
      * intros j Hj. rewrite Hn2.
        replace (S (n_attempts rt) + j)%nat with (n_attempts rt + S j)%nat by lia.
        apply Htrans. lia.
      * destruct Hlast as [Hmn | Hnt]; [left; lia | right].
        rewrite Hn2.
        replace (S (n_attempts rt) + (S m - 1))%nat
          with (n_attempts rt + (S (S m) - 1))%nat by lia. exact Hnt.
      * exists rt'. eexists.
        split.
        { rewrite Hrun, Hrun', Hn2. do 2 f_equal. f_equal. lia. }
        split.
        { rewrite Htr'. unfold rt2. rewrite trace_asyncio_sleep, trace_log, Htr.
          rewrite <- !app_assoc. reflexivity. }
        split; [|lia].
        change (EvHttp i rq ?o :: ?l) with ([EvHttp i rq o] ++ l).
        change (EvSleep ?d :: ?l) with ([EvSleep d] ++ l).
        rewrite !wire_app, !wire_stop_events, Hw', Hn2.
        replace (Z.succ a) with (a + 1) by lia. reflexivity.
Qed.
End ExecutorRuns.

(** ** Every run of the retry loop *)

Section ExecutorGeneral.
Context (E : env) (B : bot_config).

Lemma answered_failed i rq o e :
  outcome_error o = Some e -> answered [EvHttp i rq o] = [].
Proof. by destruct o as [?|? [?|?]]. Qed.

Lemma answered_stop_events rt : answered (stop_events E rt) = [].
Proof. unfold stop_events. by destruct (stop_requested_at E _). Qed.

Lemma http_attempts_stop_events rt : http_attempts (stop_events E rt) = [].
Proof. unfold stop_events. by destruct (stop_requested_at E _). Qed.

(** Facts about every run of the retry loop, whatever the attempts
    meet: which events it emits, that an attempt followed by another
    was a transient failure, and which attempt produced the value. *)
Lemma attempt_loop_general i rq attempts : forall rt r rt',
  attempt_loop E B i rq attempts rt = (r, rt') ->
  exists evs,
    trace rt' = trace rt ++ evs
    /\ Forall (executor_event i rq) evs
    /\ (forall j x, http_attempts evs !! j = Some x ->
          (S j < length (http_attempts evs))%nat -> transient x.2 = true)
    /\ match r with
       | Ok d => answered evs = [(i, rq, d)] \/ (d = JNull /\ answered evs = [])
       | Raise _ => answered evs = []
       end
    /\ (attempts <> [] -> exists o rest, evs = EvHttp i rq o :: rest).
Proof.
  induction attempts as [|a rest IH]; intros rt r rt' Hrun.
  { cbn in Hrun. injection Hrun as <- <-. exists [].
    rewrite app_nil_r. repeat split; try done. by right. }
  destruct (attempt_loop_cons E B i rq a rest rt) as (rt1 & Htr & Hn & Hcases).
  set (o := transport E (n_attempts rt) i rq) in *.
  assert (Hstop : Forall (executor_event i rq) (EvHttp i rq o :: stop_events E rt)).
  { constructor; [done | apply executor_event_stop]. }
  assert (Hhttp1 : http_attempts (EvHttp i rq o :: stop_events E rt) = [(i, rq, o)]).
  { change (?x :: ?l) with ([x] ++ l).
    by rewrite http_attempts_app, http_attempts_stop_events. }
  assert (Hans1 : answered (EvHttp i rq o :: stop_events E rt)
                  = answered [EvHttp i rq o]).
  { change (?x :: ?l) with ([x] ++ l) at 1.
    by rewrite answered_app, answered_stop_events, app_nil_r. }
  assert (Hlast : forall extra,
            http_attempts extra = [] ->
            forall j x,
              http_attempts ((EvHttp i rq o :: stop_events E rt) ++ extra) !! j = Some x ->
              (S j < length (http_attempts ((EvHttp i rq o :: stop_events E rt) ++ extra)))%nat ->
              transient x.2 = true).
  { intros extra Hex j x _. rewrite http_attempts_app, Hhttp1, Hex. simpl. lia. }
  destruct Hcases as [(d & Ho & Hrun1) | [(s & d & Ho & Hs & Hrun1)
    | [(e & Ho & Hr & Hrun1) | [(e & Ho & Hr & Ha & Hrun1)
    | (e & Ho & Hr & Ha & Hrun1)]]]].
  - rewrite Hrun1 in Hrun. injection Hrun as <- <-.
    exists ((EvHttp i rq o :: stop_events E rt) ++ []).
    split; [by rewrite app_nil_r|]. split; [by rewrite app_nil_r|].
    split; [by apply Hlast|]. split; [|by eauto].
    left. rewrite app_nil_r, Hans1, Ho. reflexivity.
  - rewrite Hrun1 in Hrun. injection Hrun as <- <-.
    exists ((EvHttp i rq o :: stop_events E rt) ++ [EvLog ERROR (LogApiError s i d)]).
    split; [by rewrite trace_log, Htr, <- app_assoc|].
    split; [apply Forall_app; split; [done | by repeat constructor]|].
    split; [by apply Hlast|]. split; [|by eauto].
    rewrite answered_app, Hans1, Ho. cbn.
    by rewrite (proj2 (Z.eqb_neq s 200) Hs).
  - rewrite Hrun1 in Hrun. injection Hrun as <- <-.
    exists ((EvHttp i rq o :: stop_events E rt) ++ []).
    split; [by rewrite app_nil_r|]. split; [by rewrite app_nil_r|].
    split; [by apply Hlast|]. split; [|by eauto].
    rewrite app_nil_r, Hans1. by apply (answered_failed _ _ _ e).
  - rewrite Hrun1 in Hrun. injection Hrun as <- <-.
    exists ((EvHttp i rq o :: stop_events E rt)
            ++ [EvLog WARNING (LogRequestFailed (a + 1) i e)]).
    split; [by rewrite trace_log, Htr, <- app_assoc|].
    split; [apply Forall_app; split; [done | by repeat constructor]|].
    split; [by apply Hlast|]. split; [|by eauto].
    rewrite answered_app, Hans1. by rewrite (answered_failed _ _ _ e).
  - rewrite Hrun1 in Hrun.
    apply IH in Hrun as (evs & Htr' & Hall & Htrans & Hans & _).
    rewrite trace_asyncio_sleep, trace_log, Htr in Htr'.
    set (mid := [EvLog WARNING (LogRequestFailed (a + 1) i e)]
                ++ EvSleep (inject_Z (2 ^ a))
                   :: stop_events E (log WARNING (LogRequestFailed (a + 1) i e) rt1)).
    exists ((EvHttp i rq o :: stop_events E rt) ++ mid ++ evs).
    assert (Hmid_http : http_attempts mid = []).
    { unfold mid. change (EvSleep ?d :: ?l) with ([EvSleep d] ++ l).
      by rewrite !http_attempts_app, http_attempts_stop_events. }
    assert (Hmid_ans : answered mid = []).
    { unfold mid. change (EvSleep ?d :: ?l) with ([EvSleep d] ++ l).
      by rewrite !answered_app, answered_stop_events. }
    split.
    { rewrite Htr'. unfold mid. by rewrite <- !app_assoc. }
    split.
    { apply Forall_app; split; [done|]. apply Forall_app; split; [|done].
      unfold mid. apply Forall_app; split; [by repeat constructor|].
      constructor; [done | apply executor_event_stop]. }
    split.
    { intros j x. rewrite !http_attempts_app, Hhttp1, Hmid_http. cbn [app].
      destruct j as [|j]; cbn [lookup list_lookup length].
      - intros [= <-] _. cbn. unfold transient. by rewrite Ho.
      - intros Hx Hlen. apply (Htrans j x Hx). lia. }
    split; [|by eauto].
    rewrite !answered_app, Hans1, (answered_failed _ _ _ e Ho), Hmid_ans.
    exact Hans.
Qed.

(** A value returned by the loop over [range(max_retries)] is the body
    of an answered attempt, unless the range is empty. *)
Lemma attempt_loop_seq_ok i rq (n : nat) : forall a rt d rt',
  a + Z.of_nat n = max_retries (trading_config B) ->
  attempt_loop E B i rq (seqZ a (Z.of_nat n)) rt = (Ok d, rt') ->
  (n = 0%nat /\ d = JNull /\ rt' = rt)
  \/ exists evs, trace rt' = trace rt ++ evs /\ answered evs = [(i, rq, d)]
       /\ exists retried,
            http_attempts evs = retried ++ [(i, rq, Responded 200 (Ok d))]
            /\ Forall (fun x : nat * request * attempt_outcome =>
                         transient x.2 = true) retried.
Proof.
  induction n as [|n IH]; intros a rt d rt' Han Hrun.
  { cbn in Hrun. injection Hrun as <- <-. by left. }
  right. rewrite seqZ_cons in Hrun by lia.
  replace (Z.pred (Z.of_nat (S n))) with (Z.of_nat n) in Hrun by lia.
  destruct (attempt_loop_cons E B i rq a (seqZ (Z.succ a) (Z.of_nat n)) rt)
    as (rt1 & Htr & Hn & Hcases).
  destruct Hcases as [(d' & Ho & Hrun1) | [(s & d' & Ho & Hs & Hrun1)
    | [(e & Ho & Hr & Hrun1) | [(e & Ho & Hr & Ha & Hrun1)
    | (e & Ho & Hr & Ha & Hrun1)]]]];
    rewrite Hrun1 in Hrun; try discriminate.
  - injection Hrun as <- <-. eexists. split; [exact Htr|].
    change (?x :: ?l) with ([x] ++ l).
    rewrite answered_app, answered_stop_events, Ho. split; [done|].
    exists []. rewrite http_attempts_app, http_attempts_stop_events. done.
  - apply IH in Hrun
      as [(-> & _) | (evs & Htr' & Hans & retried & Hhttp & Hretried)];
      [lia | | lia].
    rewrite trace_asyncio_sleep, trace_log, Htr in Htr'.
    eexists. split; [rewrite Htr', <- !app_assoc; reflexivity|].
    change (EvHttp ?a ?b ?c :: ?l) with ([EvHttp a b c] ++ l).
    change (EvSleep ?d :: ?l) with ([EvSleep d] ++ l).
    rewrite !answered_app, !answered_stop_events, (answered_failed _ _ _ e Ho).
    split; [exact Hans|].
    exists ((i, rq, transport E (n_attempts rt) i rq) :: retried).
    rewrite !http_attempts_app, !http_attempts_stop_events, Hhttp.
    split; [done|]. constructor; [|done]. cbn. unfold transient. by rewrite Ho.
Qed.
End ExecutorGeneral.

(** ** [_make_request] *)

Section MakeRequest.
Context (E : env) (B : bot_config).
Let max := max_retries (trading_config B).

(** [_make_request] is the retry loop run on the request it builds. *)
Lemma make_request_loop i acct m ep kw rt :
  account_configs B !! i = Some acct ->
  exists rq rt1,
    _make_request E B i m ep kw rt = attempt_loop E B i rq (range max) rt1
    /\ trace rt1 = trace rt
    /\ n_attempts rt1 = n_attempts rt
    /\ req_method rq = m /\ req_endpoint rq = ep /\ req_kwargs rq = kw
    /\ req_url rq = base_url (trading_config B) +:+ ep
    /\ headers_ok E acct m ep (time_ms E (n_clock rt)) (req_headers rq).
Proof.
  intros Hacct. unfold _make_request, headers_ok. rewrite Hacct.
  destruct (String.prefix "/public" ep) eqn:Hpub; cbn [negb].
  - eexists _, rt. split; [reflexivity|]. cbn. repeat split; done.
  - cbn. eexists _, _. split; [reflexivity|]. cbn. repeat split; done.
Qed.

Lemma make_request_no_account i m ep kw rt :
  account_configs B !! i = None ->
  _make_request E B i m ep kw rt = (Raise IndexError, rt).
Proof. intros H. unfold _make_request. by rewrite H. Qed.

(** What every call of [_make_request] emits and returns. *)
Lemma make_request_general i m ep kw rt r rt' :
  _make_request E B i m ep kw rt = (r, rt') ->
  exists evs, trace rt' = trace rt ++ evs /\ call_events max i m ep kw r evs.
Proof.
  intros Hrun. destruct (account_configs B !! i) as [acct|] eqn:Hacct.
  - destruct (make_request_loop i acct m ep kw rt Hacct)
      as (rq & rt1 & Heq & Htr & _ & Hm & Hep & Hkw & _).
    rewrite Heq in Hrun.
    pose proof Hrun as Hrun0.
    apply attempt_loop_general in Hrun as (evs & Htr' & Hall & _ & Hans & _).
    exists evs. split; [by rewrite Htr', Htr|]. exists rq.
    do 4 (split; [done|]).
    destruct r as [d|e]; [|done].
    unfold range in Hrun0. destruct (Z_le_gt_dec max 0) as [Hle|Hgt].
    + rewrite seqZ_nil in Hrun0 by done. cbn in Hrun0.
      injection Hrun0 as <- <-. right. repeat split; try done.
      rewrite <- (app_nil_r (trace rt1)) in Htr' at 1.
      by apply app_inv_head in Htr'.
    + rewrite <- (Z2Nat.id max) in Hrun0 by lia.
      apply attempt_loop_seq_ok in Hrun0
        as [(Hz & _) | (evs' & Htr2 & Hans' & Hretried)];
        [lia | | fold max; lia].
      left. split; [lia|].
      rewrite Htr' in Htr2. apply app_inv_head in Htr2. by subst.
  - rewrite make_request_no_account in Hrun by done.
    injection Hrun as <- <-. exists []. split; [by rewrite app_nil_r|].
    by exists {| req_method := m; req_endpoint := ep; req_url := "";
                 req_headers := ∅; req_kwargs := kw |}.
Qed.

End MakeRequest.

Section ExecutorClaims.
Context (E : env) (B : bot_config).
Let max := max_retries (trading_config B).

Lemma http_attempts_executor i rq evs :
  Forall (executor_event i rq) evs ->
  Forall (fun x => x.1.1 = i /\ x.1.2 = rq) (http_attempts evs).
Proof.
  induction 1 as [|[a rq' o|d|l r] evs Hev _ IH]; [constructor| |done..].
  change (http_attempts (EvHttp a rq' o :: evs))
    with ((a, rq', o) :: http_attempts evs).
  constructor; [exact Hev | exact IH].
Qed.

(** The loop of [_make_request] run to the attempt it stops at. *)
Lemma make_request_run i acct m ep kw rt (k : nat) :
  account_configs B !! i = Some acct ->
  Z.of_nat k < max ->
  (forall j rq, (j < k)%nat ->
     transient (transport E (n_attempts rt + j) i rq) = true) ->
  (S k = Z.to_nat max
   \/ forall rq, transient (transport E (n_attempts rt + k) i rq) = false) ->
  exists rq rt' evs,
    _make_request E B i m ep kw rt
    = (final_result (transport E (n_attempts rt + k) i rq), rt')
    /\ events_since rt rt' = evs
    /\ wire evs = retry_schedule E i rq (n_attempts rt) 0 (S k).
Proof.
  intros Hacct Hk Htrans Hlast.
  destruct (make_request_loop E B i acct m ep kw rt Hacct)
    as (rq & rt1 & Heq & Htr & Hn & _).
  destruct (attempt_loop_run E B i rq (S k) (Z.to_nat max) 0 rt1)
    as (rt' & evs & Hrun & Htr' & Hw & _).
  - lia.
  - fold max. lia.
  - intros j Hj. rewrite Hn. apply Htrans. lia.
  - rewrite Hn. replace (S k - 1)%nat with k by lia.
    destruct Hlast as [?|?]; [by left | by right].
  - exists rq, rt', evs. rewrite Heq. unfold range. fold max.
    rewrite <- (Z2Nat.id max) at 1 by lia.
    rewrite Hrun, Hn. replace (S k - 1)%nat with k by lia.
    split; [done|]. split; [|by rewrite Hw, Hn].
    apply events_since_app. by rewrite Htr', Htr.
Qed.
End ExecutorClaims.

(** ** The request executor: claims *)

Section ExecutorTheorems.
Context (E : env) (B : bot_config).
Let max := max_retries (trading_config B).

(** X20.  With
    [1 <= max_retries]: against a transport whose first [k < max_retries]
    attempts fail transiently and whose next attempt is answered with
    status 200 and a decodable body, [_make_request] returns that body
    after [k + 1] attempts; against a transport on which every attempt
    fails transiently it makes exactly [max_retries] attempts, sleeps
    [2^n] seconds between attempt [n] and attempt [n + 1] (attempts
    numbered from 0) and at no other time, and raises the exception of
    its last attempt. *)
Theorem make_request_retries i acct m ep kw rt :
  account_configs B !! i = Some acct ->
  1 <= max ->
  let run := _make_request E B i m ep kw rt in
  let evs := events_since rt (snd run) in
  (forall (k : nat) d,
      Z.of_nat k < max ->
      (forall j rq, (j < k)%nat ->
         transient (transport E (n_attempts rt + j) i rq) = true) ->
      (forall rq, transport E (n_attempts rt + k) i rq = Responded 200 (Ok d)) ->
      fst run = Ok d /\ length (http_attempts evs) = S k)
  /\ ((forall j rq, transient (transport E (n_attempts rt + j) i rq) = true) ->
      exists rq e,
        wire evs = retry_schedule E i rq (n_attempts rt) 0 (Z.to_nat max)
        /\ length (http_attempts evs) = Z.to_nat max
        /\ sleeps evs = (fun n => inject_Z (2 ^ n)) <$> seqZ 0 (max - 1)
        /\ outcome_error
             (transport E (n_attempts rt + (Z.to_nat max - 1)) i rq) = Some e
        /\ fst run = Raise e).
Proof.
  intros Hacct Hmax run evs. split.
  - intros k d Hk Htrans Hok.
    destruct (make_request_run E B i acct m ep kw rt k Hacct Hk Htrans)
      as (rq & rt' & evs' & Hrun & Hev & Hw).
    { right. intros rq. by rewrite Hok. }
    subst run evs. rewrite Hrun. cbn [fst snd]. rewrite Hev, Hok. split; [done|].
    rewrite <- http_attempts_wire, Hw, http_attempts_retry_schedule.
    by rewrite length_fmap, length_seq.
  - intros Hall.
    destruct (make_request_run E B i acct m ep kw rt (Z.to_nat max - 1) Hacct)
      as (rq & rt' & evs' & Hrun & Hev & Hw).
    { lia. } { intros j rq _. apply Hall. } { left. lia. }
    replace (S (Z.to_nat max - 1)) with (Z.to_nat max) in Hw by lia.
    specialize (Hall (Z.to_nat max - 1)%nat rq). unfold transient in Hall.
    destruct (outcome_error (transport E (n_attempts rt + (Z.to_nat max - 1)) i rq))
      as [e|] eqn:He; [|discriminate].
    exists rq, e. subst run evs. rewrite Hrun. cbn [fst snd]. rewrite Hev.
    split; [exact Hw|]. split.
    { rewrite <- http_attempts_wire, Hw, http_attempts_retry_schedule.
      by rewrite length_fmap, length_seq. }
    split.
    { rewrite <- sleeps_wire, Hw, sleeps_retry_schedule.
      do 2 f_equal. lia. }
    split; [done|].
    destruct (transport E (n_attempts rt + (Z.to_nat max - 1)) i rq)
      as [?|? [?|?]]; cbn in He |- *; congruence.
Qed.

(** X21.  When the first
    [k < max_retries] attempts fail transiently and the next one is
    answered with a status other than 200 - so with any non-2xx status -
    and a body that [response.json()] decodes, [_make_request] raises the
    API error built from that body at once: that attempt is its last.  In
    every run, an attempt that is followed by another one ended in
    [aiohttp.ClientError] or [asyncio.TimeoutError], raised by the request
    or while the response body was decoded. *)
Theorem make_request_api_error_not_retried i acct m ep kw rt :
  account_configs B !! i = Some acct ->
  let run := _make_request E B i m ep kw rt in
  let evs := events_since rt (snd run) in
  (forall (k : nat) s d,
      Z.of_nat k < max ->
      (forall j rq, (j < k)%nat ->
         transient (transport E (n_attempts rt + j) i rq) = true) ->
      (forall rq, transport E (n_attempts rt + k) i rq = Responded s (Ok d)) ->
      s <> 200 ->
      fst run = Raise (ApiError d) /\ length (http_attempts evs) = S k)
  /\ (forall j a rq o,
        http_attempts evs !! j = Some (a, rq, o) ->
        (S j < length (http_attempts evs))%nat ->
        transient o = true).
Proof.
  intros Hacct run evs. split.
  - intros k s d Hk Htrans Hresp Hs.
    destruct (make_request_run E B i acct m ep kw rt k Hacct Hk Htrans)
      as (rq & rt' & evs' & Hrun & Hev & Hw).
    { right. intros rq. by rewrite Hresp. }
    subst run evs. rewrite Hrun. cbn [fst snd]. rewrite Hev, Hresp. split.
    + cbn. by rewrite (proj2 (Z.eqb_neq s 200) Hs).
    + rewrite <- http_attempts_wire, Hw, http_attempts_retry_schedule.
      by rewrite length_fmap, length_seq.
  - intros j a rq o Hj Hlen.
    destruct (make_request_loop E B i acct m ep kw rt Hacct)
      as (rq0 & rt1 & Heq & Htr & _).
    subst run evs. rewrite Heq in Hj, Hlen.
    destruct (attempt_loop E B i rq0 (range (max_retries (trading_config B))) rt1)
      as [r rt'] eqn:Hrun.
    apply attempt_loop_general in Hrun as (evs & Htr' & _ & Htrans & _).
    cbn [snd] in *. rewrite (events_since_app rt rt' evs) in Hj, Hlen
      by (by rewrite Htr', Htr).
    exact (Htrans j (a, rq, o) Hj Hlen).
Qed.

(** C6.  With a retry budget of at least one attempt [_make_request]
    sends at least one request for an account that is configured, and
    every request it sends for account [i] carries that account's
    [X-API-KEY]; when the path starts with [/public] it carries
    neither [X-NONCE] nor [X-SIGNATURE]; otherwise it carries the
    nonce and, as signature, the hex HMAC-SHA256 under the account's
    secret key of the text [nonce ++ method ++ path]. *)
Theorem make_request_headers i acct m ep kw rt :
  account_configs B !! i = Some acct ->
  let sent :=
    http_attempts (events_since rt (snd (_make_request E B i m ep kw rt))) in
  (1 <= max_retries (trading_config B) -> exists x rest, sent = x :: rest)
  /\ Forall (fun x : nat * request * attempt_outcome =>
               x.1.1 = i /\ req_method x.1.2 = m /\ req_endpoint x.1.2 = ep
               /\ headers_ok E acct m ep (time_ms E (n_clock rt))
                    (req_headers x.1.2))
       sent.
Proof.
  intros Hacct. cbn zeta.
  destruct (make_request_loop E B i acct m ep kw rt Hacct)
    as (rq & rt1 & Heq & Htr & _ & Hm & Hep & _ & _ & Hh).
  rewrite Heq.
  destruct (attempt_loop E B i rq (range (max_retries (trading_config B))) rt1)
    as [r rt'] eqn:Hrun.
  apply attempt_loop_general in Hrun as (evs & Htr' & Hall & _ & _ & Hfirst).
  cbn [snd]. rewrite (events_since_app rt rt' evs) by (by rewrite Htr', Htr).
  split.
  - intros Hmax.
    destruct Hfirst as (o & rest & ->).
    { unfold range. rewrite seqZ_cons by lia. done. }
    exists (i, rq, o), (http_attempts rest).
    change (EvHttp i rq o :: rest) with ([EvHttp i rq o] ++ rest).
    by rewrite http_attempts_app.
  - apply http_attempts_executor in Hall.
    eapply Forall_impl; [exact Hall|].
    intros [[a rq'] o] [Ha Hrq]. cbn in *. by subst.
Qed.
End ExecutorTheorems.

(** C1.  The code departs from the claim when the retry budget is
    empty: with [max_retries = 0] and a transport on which every attempt
    times out, the loop over [range(max_retries)] has no pass, so no
    attempt is made and [_make_request] falls off its end and returns
    [None] where the claim has it raise the transport error. *)
Lemma make_request_empty_budget_returns_none :
  let run := _make_request (stub_env always_timeout) (bot_with_retries 0)
               0 "GET" "/private/account/balance" NoKwargs initial_runtime in
  (forall n a rq, transient (always_timeout n a rq) = true)
  /\ fst run = Ok JNull
  /\ http_attempts (trace (snd run)) = []
  /\ (forall e, fst run <> Raise e).
Proof. vm_compute. repeat split; intros; discriminate. Qed.

Lemma make_request_retries_witness :
  (fst (_make_request (stub_env flaky_transport) default_bot
          0 "GET" "/private/account/balance" NoKwargs initial_runtime)
   = Ok (JDict [("balance", JStr "12.5")]))
  /\ (exists rq e,
        sleeps (events_since initial_runtime
                  (snd (_make_request (stub_env always_timeout) default_bot
                          1 "DELETE" "/private/orders/7" NoKwargs initial_runtime)))
        = [inject_Z 1; inject_Z 2]
        /\ outcome_error (always_timeout 2 1 rq) = Some e
        /\ fst (_make_request (stub_env always_timeout) default_bot
                  1 "DELETE" "/private/orders/7" NoKwargs initial_runtime)
           = Raise e).
Proof.
  split.
  - refine (proj1 (proj1 (make_request_retries (stub_env flaky_transport) default_bot
              0 _ "GET" "/private/account/balance" NoKwargs initial_runtime
              eq_refl _) 2%nat _ _ _ _)).
    + done.
    + done.
    + intros [|[|j]] rq Hj; [reflexivity | reflexivity | lia].
    + reflexivity.
  - destruct (proj2 (make_request_retries (stub_env always_timeout) default_bot
              1 _ "DELETE" "/private/orders/7" NoKwargs initial_runtime
              eq_refl ltac:(done))) as (rq & e & _ & _ & Hs & He & Hr).
    + reflexivity.
    + exists rq, e. split; [exact Hs | split; [exact He | exact Hr]].
Defined.

(** ** The random module and the events of gateway calls *)

Section Random.
Context (E : env).

Lemma random_randint_spec a b rt :
  (b < a /\ random_randint E a b rt = (Raise ValueError, rt))
  \/ (a <= b /\ exists n rt',
        random_randint E a b rt = (Ok n, rt') /\ a <= n <= b
        /\ trace rt' = trace rt /\ is_running rt' = is_running rt).
Proof.
  unfold random_randint. destruct (b <? a) eqn:Hba.
  - left. apply Z.ltb_lt in Hba. done.
  - right. apply Z.ltb_ge in Hba. split; [done|].
    eexists _, _. split; [reflexivity|]. split; [|done].
    pose proof (Z.mod_pos_bound (rand_bits E (n_draws rt)) (b - a + 1)). lia.
Qed.

Lemma random_uniform_spec a b rt :
  exists x rt',
    random_uniform E a b rt = (x, rt')
    /\ trace rt' = trace rt /\ is_running rt' = is_running rt
    /\ n_awaits rt' = n_awaits rt
    /\ exists r : Z,
         x = (a + (b - a) * (float_of_Z (r mod 2 ^ 53) / float_of_Z (2 ^ 53)))%float.
Proof.
  unfold random_uniform, random_random, draw. cbn.
  eexists _, _. split; [reflexivity|]. split_and!; try done. by eexists.
Qed.

Lemma random_choice_spec {A} (l : list A) rt :
  (l = [] /\ random_choice E l rt = (Raise IndexError, rt))
  \/ (exists x rt', random_choice E l rt = (Ok x, rt') /\ x ∈ l
        /\ trace rt' = trace rt /\ is_running rt' = is_running rt).
Proof.
  destruct l as [|y l]; [by left | right].
  eexists _, _. split; [reflexivity|]. split; [|done].
  set (k := Z.to_nat _). destruct (decide (k < length (y :: l))%nat) as [Hk|Hk].
  - apply list_elem_of_In, nth_In. exact Hk.
  - rewrite nth_overflow by lia. left.
Qed.
End Random.

Section CallEvents.
Context (E : env).

Lemma omap_cons_match {A B} (f : A -> option B) x l :
  omap f (x :: l) = match f x with Some y => y :: omap f l | None => omap f l end.
Proof. reflexivity. Qed.

Lemma pnl_reports_app a b : pnl_reports (a ++ b) = pnl_reports a ++ pnl_reports b.
Proof. apply omap_app. Qed.
Lemma announced_counts_app a b :
  announced_counts (a ++ b) = announced_counts a ++ announced_counts b.
Proof. apply omap_app. Qed.
Lemma order_bodies_app a b : order_bodies (a ++ b) = order_bodies a ++ order_bodies b.
Proof. unfold order_bodies. by rewrite http_attempts_app, omap_app. Qed.
Lemma placed_orders_app a b :
  placed_orders (a ++ b) = placed_orders a ++ placed_orders b.
Proof. unfold placed_orders. by rewrite answered_app, omap_app. Qed.
Lemma market_documents_app a b :
  market_documents (a ++ b) = market_documents a ++ market_documents b.
Proof. unfold market_documents. by rewrite answered_app, omap_app. Qed.
Lemma decisive_orders_app a b :
  decisive_orders (a ++ b) = decisive_orders a ++ decisive_orders b.
Proof. unfold decisive_orders. by rewrite http_attempts_app, omap_app. Qed.
Lemma listing_attempts_app i a b :
  listing_attempts i (a ++ b) = listing_attempts i a ++ listing_attempts i b.
Proof. unfold listing_attempts. by rewrite http_attempts_app, omap_app. Qed.

Lemma executor_event_quiet i rq evs :
  Forall (executor_event i rq) evs ->
  pnl_reports evs = [] /\ announced_counts evs = [].
Proof.
  induction 1 as [|ev evs Hev _ [IH1 IH2]]; [done|].
  change (ev :: evs) with ([ev] ++ evs).
  rewrite pnl_reports_app, announced_counts_app, IH1, IH2.
  destruct ev as [a rq' o|d|[] []]; done.
Qed.

Lemma executor_event_bodies i rq evs :
  Forall (executor_event i rq) evs ->
  Forall (fun od => req_kwargs rq = JsonBody od) (order_bodies evs).
Proof.
  intros H. apply http_attempts_executor in H. unfold order_bodies.
  induction H as [|[[a rq'] o] l [_ Hrq] _ IH]; [constructor|].
  cbn in Hrq. subst rq'. rewrite omap_cons_match. cbn beta iota zeta.
  destruct (req_kwargs rq) eqn:Hk; [exact IH| |exact IH].
  constructor; [done|]. exact IH.
Qed.

Lemma executor_event_listing i rq evs a :
  Forall (executor_event i rq) evs ->
  a <> i -> listing_attempts a evs = [].
Proof.
  intros H Ha. apply http_attempts_executor in H. unfold listing_attempts.
  induction H as [|[[a' rq'] o] l [Hi _] _ IH]; [done|].
  cbn in Hi. subst a'. rewrite omap_cons_match. cbn beta iota zeta.
  rewrite (proj2 (Nat.eqb_neq i a)) by done. cbn. exact IH.
Qed.

Lemma executor_event_no_order i rq evs :
  Forall (executor_event i rq) evs ->
  order_of_request rq = None -> decisive_orders evs = [].
Proof.
  intros H Hrq. apply http_attempts_executor in H. unfold decisive_orders.
  induction H as [|[[a rq'] o] l [_ Hx] _ IH]; [done|].
  cbn in Hx. subst rq'. rewrite omap_cons_match. cbn beta iota zeta.
  rewrite Hrq. by destruct (transient o).
Qed.

Lemma decisive_orders_retried i rq d retried :
  Forall (fun x : nat * request * attempt_outcome => transient x.2 = true) retried ->
  omap (fun '(a, rq0, o) =>
          if transient o then None else pair a <$> order_of_request rq0)
    (retried ++ [(i, rq, Responded 200 (Ok d))])
  = omap (fun x => x) [pair i <$> order_of_request rq].
Proof.
  intros H. rewrite omap_app.
  replace (omap _ retried) with (@nil (nat * order_data)).
  - reflexivity.
  - induction H as [|[[a rq0] o] l Hx _ IH]; [done|].
    rewrite omap_cons_match. cbn in Hx. cbn beta iota zeta. by rewrite Hx.
Qed.

(** An order request. *)
Lemma call_events_order b i od r evs :
  call_events b i "POST" "/private/orders" (JsonBody od) r evs ->
  Forall (eq od) (order_bodies evs)
  /\ market_documents evs = []
  /\ pnl_reports evs = []
  /\ match r with
     | Ok d => 1 <= b ->
               placed_orders evs = [(i, od)] /\ decisive_orders evs = [(i, od)]
     | Raise _ => placed_orders evs = []
     end.
Proof.
  intros (rq & Hm & Hep & Hkw & Hall & Hans).
  split.
  { apply executor_event_bodies in Hall. rewrite Hkw in Hall.
    eapply Forall_impl; [exact Hall|]. by intros ? [= ->]. }
  assert (Hone : forall d, answered evs = [(i, rq, d)] ->
                   market_documents evs = [] /\ placed_orders evs = [(i, od)]).
  { intros d Hd. unfold market_documents, placed_orders, order_of_request.
    rewrite Hd. cbn. by rewrite Hm, Hep, Hkw. }
  assert (Hnone : answered evs = [] ->
                   market_documents evs = [] /\ placed_orders evs = []).
  { intros Hd. unfold market_documents, placed_orders. by rewrite Hd. }
  split; [|split; [apply (executor_event_quiet _ _ _ Hall)|]].
  - destruct r as [d|e]; [destruct Hans as [(_ & Hd & _)|(_ & _ & ->)]|];
      [apply (Hone d Hd) | by apply Hnone | apply (Hnone Hans)].
  - destruct r as [d|e].
    + intros Hd.
      destruct Hans as [(_ & Ha & retried & Hhttp & Hretried)|[? _]]; [|lia].
      split; [apply (Hone d Ha)|].
      unfold decisive_orders. rewrite Hhttp.
      rewrite (decisive_orders_retried _ _ _ _ Hretried).
      unfold order_of_request. by rewrite Hm, Hep, Hkw.
    + apply (Hnone Hans).
Qed.

Lemma markets_prefix sym :
  String.prefix "/public/markets/" ("/public/markets/" +:+ sym) = true.
Proof. by destruct sym. Qed.

(** A market-data request. *)
Lemma call_events_market b sym r evs :
  call_events b 0 "GET" ("/public/markets/" +:+ sym) NoKwargs r evs ->
  order_bodies evs = []
  /\ placed_orders evs = []
  /\ decisive_orders evs = []
  /\ pnl_reports evs = []
  /\ match r with
     | Ok d => (1 <= b /\ market_documents evs = [d])
               \/ (b <= 0 /\ d = JNull /\ evs = [])
     | Raise _ => market_documents evs = []
     end.
Proof.
  intros (rq & Hm & Hep & Hkw & Hall & Hans).
  split.
  { apply executor_event_bodies in Hall. rewrite Hkw in Hall.
    destruct (order_bodies evs) as [|od l]; [done|].
    by apply Forall_cons_1 in Hall as [? _]. }
  assert (Hone : forall d, answered evs = [(0%nat, rq, d)] ->
                   market_documents evs = [d] /\ placed_orders evs = []).
  { intros d Hd. unfold market_documents, placed_orders, order_of_request.
    rewrite Hd. rewrite !omap_cons_match. cbn beta iota zeta.
    rewrite Hm, Hep, Hkw, markets_prefix. done. }
  assert (Hnone : answered evs = [] ->
                   market_documents evs = [] /\ placed_orders evs = []).
  { intros Hd. unfold market_documents, placed_orders. by rewrite Hd. }
  split; [|split; [|split; [apply (executor_event_quiet _ _ _ Hall)|]]].
  - destruct r as [d|e]; [destruct Hans as [(_ & Hd & _)|(_ & _ & ->)]|];
      [apply (Hone d Hd) | by apply Hnone | apply (Hnone Hans)].
  - apply (executor_event_no_order _ _ _ Hall).
    unfold order_of_request. by rewrite Hm.
  - destruct r as [d|e].
    + destruct Hans as [(Hb & Ha & _)|(? & ? & ?)]; [left | by right].
      split; [done | apply (Hone d Ha)].
    + apply (Hnone Hans).
Qed.
End CallEvents.

(** ** Monadic steps and order pairs *)

Section Monad.
Context {St : Type}.

Lemma bind_inv {A C} (m : M St A) (k : A -> M St C) s r s' :
  bind m k s = (r, s') ->
  (exists a s1, m s = (Ok a, s1) /\ k a s1 = (r, s'))
  \/ (exists e, m s = (Raise e, s') /\ r = Raise e).
Proof.
  unfold bind. destruct (m s) as [[a|e] s1]; intros H.
  - left. by exists a, s1.
  - right. injection H as <- <-. by exists e.
Qed.

Lemma bind_lift_result {A C} (r0 : result A) (k : A -> M St C) s :
  bind (lift_result r0) k s
  = match r0 with Ok a => k a s | Raise e => (Raise e, s) end.
Proof. by destruct r0. Qed.
End Monad.

Section Gateway.
Context (E : env) (B : bot_config).
Let max := max_retries (trading_config B).

Lemma lift_rt_inv {A} (m : M runtime A) s r s' :
  lift_rt m s = (r, s') -> exists rt', m (snd s) = (r, rt') /\ s' = (fst s, rt').
Proof.
  unfold lift_rt. destruct (m (snd s)) as [r0 rt']. intros [= <- <-]. by exists rt'.
Qed.

Lemma session_event_call b i m ep kw r evs sym size :
  call_events b i m ep kw r evs ->
  (forall od, kw = JsonBody od -> exists side, od = market_order sym side size) ->
  Forall (session_event sym size) evs.
Proof.
  intros (rq & _ & _ & Hkw & Hall & _) Hod.
  eapply Forall_impl; [exact Hall|].
  intros [a rq' o|d|lvl rec]; cbn.
  - intros [_ ->]. rewrite Hkw. destruct kw; [done| |done]. by apply Hod.
  - done.
  - by destruct lvl, rec.
Qed.

(** Two orders placed one after the other, as in both branches of the
    opening and of the closing [if account1_long]. *)
Lemma place_two {C} (g : json -> json -> C) sym side1 side2 size s res s' :
  bind (lift_rt (place_order E B 0 sym side1 MARKET size None)) (fun o1 =>
    bind (lift_rt (place_order E B 1 sym side2 MARKET size None)) (fun o2 =>
      ret (g o1 o2))) s = (res, s') ->
  exists evs,
    trace (snd s') = trace (snd s) ++ evs
    /\ fst s' = fst s
    /\ Forall (session_event sym size) evs
    /\ pnl_reports evs = []
    /\ market_documents evs = []
    /\ match res with
       | Ok v => exists o1 o2, v = g o1 o2
           /\ (1 <= max ->
               placed_orders evs
               = [(0%nat, market_order sym side1 size);
                  (1%nat, market_order sym side2 size)]
               /\ decisive_orders evs = placed_orders evs)
       | Raise _ => True
       end.
Proof.
  intros H.
  apply bind_inv in H as [(o1 & s1 & H1 & H) | (e & H1 & ->)];
    apply lift_rt_inv in H1 as (rt1 & H1 & ->);
    apply make_request_general in H1 as (evs1 & Htr1 & Hc1);
    pose proof (session_event_call _ _ _ _ _ _ _ sym size Hc1) as Hs1;
    apply call_events_order in Hc1 as (_ & Hm1 & Hp1 & Ho1).
  2:{ exists evs1. repeat split; try done. apply Hs1. intros od [= <-]. by eexists. }
  apply bind_inv in H as [(o2 & s2 & H2 & H) | (e & H2 & ->)];
    apply lift_rt_inv in H2 as (rt2 & H2 & ->);
    apply make_request_general in H2 as (evs2 & Htr2 & Hc2);
    pose proof (session_event_call _ _ _ _ _ _ _ sym size Hc2) as Hs2;
    apply call_events_order in Hc2 as (_ & Hm2 & Hp2 & Ho2);
    cbn [fst snd] in *;
    (assert (Hall : Forall (session_event sym size) (evs1 ++ evs2));
     [apply Forall_app; split; [apply Hs1 | apply Hs2];
        intros od [= <-]; by eexists|]).
  2:{ exists (evs1 ++ evs2). rewrite Htr2, Htr1, <- app_assoc.
      rewrite pnl_reports_app, market_documents_app, Hm1, Hm2, Hp1, Hp2. done. }
  injection H as <- <-. exists (evs1 ++ evs2). cbn [fst snd].
  rewrite Htr2, Htr1, <- app_assoc.
  rewrite pnl_reports_app, market_documents_app, Hm1, Hm2, Hp1, Hp2.
  repeat split; try done. exists o1, o2. split; [done|]. intros Hb.
  destruct (Ho1 Hb) as [Hpl1 Hd1], (Ho2 Hb) as [Hpl2 Hd2].
  rewrite placed_orders_app, decisive_orders_app, Hpl1, Hpl2, Hd1, Hd2. done.
Qed.
End Gateway.

(** ** The phases of a session *)

Section EngineUpdates.
Lemma update_session_id r en : update_session r id en = en.
Proof.
  destruct en as [h ss a]. unfold update_session. cbn. f_equal.
  by apply list_alter_id.
Qed.

Lemma update_session_compose r f g en :
  update_session r g (update_session r f en) = update_session r (g ∘ f) en.
Proof.
  unfold update_session. cbn. f_equal. apply list_alter_alter_eq.
Qed.

Lemma order_ids_only_id : order_ids_only id.
Proof. by intros s. Qed.

Lemma order_ids_only_compose f g :
  order_ids_only f -> order_ids_only g -> order_ids_only (g ∘ f).
Proof.
  intros Hf Hg s. specialize (Hf s). specialize (Hg (f s)). cbn.
  destruct Hf as (? & ? & ? & ? & ? & ? & ?), Hg as (? & ? & ? & ? & ? & ? & ?).
  repeat split; congruence.
Qed.

Lemma order_ids_only_set1 v : order_ids_only (set_account1_order_id v).
Proof. by intros s. Qed.

Lemma order_ids_only_set2 v : order_ids_only (set_account2_order_id v).
Proof. by intros s. Qed.
End EngineUpdates.

Section Phases.
Context (E : env) (B : bot_config).
Let max := max_retries (trading_config B).
Let cfg := trading_config B.

Lemma bind_on_engine {C} f (k : unit -> M bot C) s :
  bind (on_engine f) k s = k tt (f (fst s), snd s).
Proof. reflexivity. Qed.

Lemma bind_on_runtime {C} f (k : unit -> M bot C) s :
  bind (on_runtime f) k s = k tt (fst s, f (snd s)).
Proof. reflexivity. Qed.

Lemma size_drawn_some : exists size, size_drawn cfg size.
Proof. eexists. by exists 0. Qed.

Lemma get_market_data_run sym s r s1 :
  lift_rt (get_market_data E B sym) s = (r, s1) ->
  exists evs,
    fst s1 = fst s
    /\ trace (snd s1) = trace (snd s) ++ evs
    /\ (forall size, Forall (session_event sym size) evs)
    /\ placed_orders evs = [] /\ decisive_orders evs = []
    /\ pnl_reports evs = []
    /\ match r with
       | Ok d => (1 <= max /\ market_documents evs = [d])
                 \/ (max <= 0 /\ d = JNull /\ evs = [])
       | Raise _ => market_documents evs = []
       end.
Proof.
  intros H. apply lift_rt_inv in H as (rt1 & H & ->).
  apply make_request_general in H as (evs & Htr & Hc).
  exists evs. split; [done|]. split; [done|].
  split; [intros size; by apply (session_event_call _ _ _ _ _ _ _ sym size Hc)|].
  apply call_events_market in Hc as (_ & Hpl & Hdc & Hpn & Hmd). done.
Qed.

Lemma session_event_log sym size lvl rec :
  match rec with
  | LogCycleStart _ | LogSlotFailed _ _ | LogSlotCompleted _ _ _
  | LogCycleCompleted => False
  | _ => True
  end ->
  Forall (session_event sym size) [EvLog lvl rec].
Proof. intros H. constructor; [|constructor]. by destruct rec. Qed.

(** The opening phase. *)
Lemma open_positions_spec r sid sym long s res s' :
  open_positions E B r sid sym long s = (res, s') ->
  exists evs f size,
    trace (snd s') = trace (snd s) ++ evs
    /\ fst s' = update_session r f (fst s) /\ order_ids_only f
    /\ size_drawn cfg size
    /\ Forall (session_event sym size) evs
    /\ pnl_reports evs = []
    /\ match res with
       | Ok v => snd v = size /\ 1 <= max
                 /\ placed_orders evs = opening_orders sym long size
                 /\ decisive_orders evs = opening_orders sym long size
                 /\ exists md, market_documents evs = [md]
                      /\ last_price_of E md = Ok (fst v)
       | Raise _ => True
       end.
Proof.
  intros H. unfold open_positions in H.
  destruct size_drawn_some as [size0 Hsize0].
  (* market data *)
  apply bind_inv in H as [(md & s1 & H1 & H) | (e & H1 & ->)];
    apply get_market_data_run in H1
      as (evs1 & Hen1 & Htr1 & Hs1 & Hpl1 & Hdc1 & Hpn1 & Hmd1).
  2:{ exists evs1, id, size0.
      rewrite update_session_id.
      split_and!; auto using order_ids_only_id. }
  rewrite bind_lift_result in H.
  destruct (subscript md "last_price") as [lp|e] eqn:Hlp.
  2:{ injection H as <- <-. exists evs1, id, size0.
      rewrite update_session_id.
      split_and!; auto using order_ids_only_id. }
  rewrite bind_lift_result in H.
  destruct (py_float E lp) as [price|e] eqn:Hprice.
  2:{ injection H as <- <-. exists evs1, id, size0.
      rewrite update_session_id.
      split_and!; auto using order_ids_only_id. }
  destruct Hmd1 as [[Hmax Hmd1] | (_ & -> & _)]; [|discriminate].
  (* position size *)
  unfold bind at 1 in H. unfold uniform_size in H.
  destruct (random_uniform_spec E (max_position_size (trading_config B) * 0.3)%float
              (max_position_size (trading_config B)) (snd s1))
    as (size & rt2 & Hu & Htr2 & _ & _ & Hrange).
  rewrite Hu in H.
  assert (Hsize : size_drawn cfg size) by exact Hrange.
  (* the opening pair *)
  apply bind_inv in H as [(orders & s3 & H3 & H) | (e & H3 & ->)].
  2:{ destruct long; apply place_two in H3
        as (evs3 & Htr3 & Hen3 & Hs3 & Hpn3 & _); cbn [fst snd] in *;
      (exists (evs1 ++ evs3), id, size; rewrite update_session_id;
       split_and!; auto using order_ids_only_id;
       [ by rewrite Htr3, Htr2, Htr1, <- app_assoc
       | congruence
       | apply Forall_app; auto
       | by rewrite pnl_reports_app, Hpn1, Hpn3 ]). }
  assert (Hpair : exists evs3,
            trace (snd s3) = trace (snd s1) ++ evs3 /\ fst s3 = fst s
            /\ Forall (session_event sym size) evs3 /\ pnl_reports evs3 = []
            /\ market_documents evs3 = []
            /\ placed_orders evs3 = opening_orders sym long size
            /\ decisive_orders evs3 = opening_orders sym long size).
  { destruct long; apply place_two in H3
      as (evs3 & Htr3 & Hen3 & Hs3 & Hpn3 & Hmd3 & (o1 & o2 & _ & Hpl3));
      cbn [fst snd] in *; exists evs3;
      destruct (Hpl3 Hmax) as [Hpl3a Hpl3b];
      (split_and!; [by rewrite Htr3, Htr2 | congruence | done | done | done
                   | done | by rewrite Hpl3b]). }
  destruct Hpair as (evs3 & Htr3 & Hen3 & Hs3 & Hpn3 & Hmd3 & Hpl3 & Hdc3).
  assert (Hall : Forall (session_event sym size) (evs1 ++ evs3))
    by (apply Forall_app; auto).
  assert (Hpn : pnl_reports (evs1 ++ evs3) = [])
    by (by rewrite pnl_reports_app, Hpn1, Hpn3).
  assert (Htr : trace (snd s3) = trace (snd s) ++ evs1 ++ evs3)
    by (by rewrite Htr3, Htr1, <- app_assoc).
  (* the ids *)
  rewrite bind_lift_result in H.
  destruct (dict_get orders.1 "id" JNull) as [id1|e] eqn:Hid1.
  2:{ injection H as <- <-. exists (evs1 ++ evs3), id, size.
      rewrite update_session_id. split_and!; auto using order_ids_only_id. }
  rewrite bind_on_engine, bind_lift_result in H. cbn [fst snd] in H.
  destruct (dict_get orders.2 "id" JNull) as [id2|e] eqn:Hid2.
  2:{ injection H as <- <-. exists (evs1 ++ evs3), (set_account1_order_id id1), size.
      cbn [fst snd]. rewrite Hen3.
      split_and!; auto using order_ids_only_set1. }
  rewrite bind_on_engine, bind_lift_result in H. cbn [fst snd] in H.
  rewrite Hen3, update_session_compose in H.
  assert (Hf : order_ids_only (set_account2_order_id id2 ∘ set_account1_order_id id1))
    by auto using order_ids_only_compose, order_ids_only_set1, order_ids_only_set2.
  destruct (subscript orders.1 "id") as [shown1|e] eqn:Hsh1.
  2:{ injection H as <- <-. eexists (evs1 ++ evs3), _, size.
      cbn [fst snd]. split_and!; eauto. }
  rewrite bind_lift_result in H.
  destruct (subscript orders.2 "id") as [shown2|e] eqn:Hsh2.
  2:{ injection H as <- <-. eexists (evs1 ++ evs3), _, size.
      cbn [fst snd]. split_and!; eauto. }
  rewrite bind_on_runtime in H. cbn [fst snd] in H.
  injection H as <- <-. cbn [fst snd].
  eexists ((evs1 ++ evs3) ++ [EvLog INFO (LogOpened sid shown1 shown2 size price)]),
    _, size.
  split_and!; eauto.
  - by rewrite trace_log, Htr, <- app_assoc.
  - apply Forall_app. split; [done|]. by apply session_event_log.
  - by rewrite pnl_reports_app, Hpn.
  - rewrite !placed_orders_app, Hpl1, Hpl3. done.
  - rewrite !decisive_orders_app, Hdc1, Hdc3. done.
  - exists md. rewrite !market_documents_app, Hmd1, Hmd3.
    split; [done|]. unfold last_price_of. by rewrite Hlp.
Qed.
End Phases.

Section Phases2.
Context (E : env) (B : bot_config).
Let max := max_retries (trading_config B).
Let cfg := trading_config B.

Lemma session_event_stop sym size rt :
  Forall (session_event sym size) (stop_events E rt).
Proof.
  unfold stop_events. destruct (stop_requested_at E _); repeat constructor.
Qed.

Lemma pnl_reports_stop rt : pnl_reports (stop_events E rt) = [].
Proof. unfold stop_events. by destruct (stop_requested_at E _). Qed.

Lemma placed_orders_stop rt : placed_orders (stop_events E rt) = [].
Proof. unfold stop_events. by destruct (stop_requested_at E _). Qed.

Lemma decisive_orders_stop rt : decisive_orders (stop_events E rt) = [].
Proof. unfold stop_events. by destruct (stop_requested_at E _). Qed.

Lemma market_documents_stop rt : market_documents (stop_events E rt) = [].
Proof. unfold stop_events. by destruct (stop_requested_at E _). Qed.

(** The closing phase. *)
Lemma close_positions_spec sym long size s res s' :
  close_positions E B sym long size s = (res, s') ->
  exists evs,
    trace (snd s') = trace (snd s) ++ evs
    /\ fst s' = fst s
    /\ Forall (session_event sym size) evs
    /\ pnl_reports evs = []
    /\ market_documents evs = []
    /\ match res with
       | Ok _ => 1 <= max ->
                 placed_orders evs = closing_orders sym long size
                 /\ decisive_orders evs = closing_orders sym long size
       | Raise _ => True
       end.
Proof.
  intros H. unfold close_positions in H.
  destruct long;
    apply (place_two E B (fun _ _ => tt)) in H
      as (evs & Htr & Hen & Hs & Hpn & Hmd & Hres);
    exists evs; (split_and!; try done);
    destruct res as [[]|e]; try done;
    destruct Hres as (_ & _ & _ & Hpl); intros Hb;
    destruct (Hpl Hb) as [Hpla Hplb]; (split; [done | by rewrite Hplb]).
Qed.

(** The settling phase. *)
Lemma settle_spec r sid sym long dur price size s res s' :
  settle E B r sid sym long dur price size s = (res, s') ->
  exists evs t,
    trace (snd s') = trace (snd s) ++ evs
    /\ fst s' = update_session r (set_closed true ∘ set_end_time t) (fst s)
    /\ (forall sz, Forall (session_event sym sz) evs)
    /\ placed_orders evs = [] /\ decisive_orders evs = []
    /\ match res with
       | Ok _ => exists md close,
           market_documents evs = [md] /\ last_price_of E md = Ok close
           /\ (price =? 0)%float = false
           /\ pnl_reports evs = [session_pnl long size price close]
       | Raise _ => pnl_reports evs = []
       end.
Proof.
  intros H. unfold settle in H.
  unfold bind at 1 in H. unfold lift_rt at 1 in H. cbn [read_clock] in H.
  rewrite !bind_on_engine in H. cbn [fst snd] in H.
  rewrite update_session_compose in H.
  set (t := time_ms E (n_clock (snd s))) in *.
  apply bind_inv in H as [(md & s1 & H1 & H) | (e & H1 & ->)];
    apply get_market_data_run in H1
      as (evs1 & Hen1 & Htr1 & Hs1 & Hpl1 & Hdc1 & Hpn1 & Hmd1);
    cbn [fst snd] in *.
  2:{ by exists evs1, t. }
  rewrite bind_lift_result in H.
  destruct (subscript md "last_price") as [lp|e] eqn:Hlp.
  2:{ injection H as <- <-. by exists evs1, t. }
  rewrite bind_lift_result in H.
  destruct (py_float E lp) as [close|e] eqn:Hclose.
  2:{ injection H as <- <-. by exists evs1, t. }
  destruct Hmd1 as [[Hmax Hmd1] | (_ & -> & _)]; [|discriminate].
  unfold bind at 1 in H.
  destruct (price =? 0)%float eqn:Hz.
  { cbn in H. injection H as <- <-. by exists evs1, t. }
  cbn [ret] in H.
  destruct (session_pnl long size price close) as [[a1 a2] tot] eqn:Hpnl.
  unfold on_runtime in H. injection H as <- <-. cbn [fst snd].
  exists (evs1 ++ [EvLog INFO (LogClosed sid a1 a2 tot dur)]), t.
  split_and!.
  - by rewrite trace_log, Htr1, <- app_assoc.
  - done.
  - intros sz. apply Forall_app. split; [done|]. by apply session_event_log.
  - by rewrite placed_orders_app, Hpl1.
  - by rewrite decisive_orders_app, Hdc1.
  - exists md, close. rewrite market_documents_app, pnl_reports_app, Hmd1, Hpn1.
    split_and!; try done.
    + unfold last_price_of. by rewrite Hlp.
    + by rewrite Hpnl.
Qed.

(** The whole [try] block: either it fails before the session object is
    marked closed, or all four orders were placed and the object was
    marked, after which the block settles or fails. *)
Lemma session_body_spec r sid sym long dur s res s' :
  session_body E B r sid sym long dur s = (res, s') ->
  exists evs size,
    trace (snd s') = trace (snd s) ++ evs
    /\ size_drawn cfg size
    /\ Forall (session_event sym size) evs
    /\ ((exists f e, order_ids_only f
           /\ fst s' = update_session r f (fst s)
           /\ res = Raise e /\ pnl_reports evs = [])
        \/ (exists f t, order_ids_only f
           /\ fst s' = update_session r (set_closed true ∘ set_end_time t ∘ f) (fst s)
           /\ placed_orders evs
              = opening_orders sym long size ++ closing_orders sym long size
           /\ decisive_orders evs = placed_orders evs
           /\ match res with
              | Ok _ => exists md1 md2 open close,
                  market_documents evs = [md1; md2]
                  /\ last_price_of E md1 = Ok open
                  /\ last_price_of E md2 = Ok close
                  /\ (open =? 0)%float = false
                  /\ pnl_reports evs = [session_pnl long size open close]
              | Raise _ => pnl_reports evs = []
              end)).
Proof.
  intros H. unfold session_body in H.
  apply bind_inv in H as [(opened & s1 & H1 & H) | (e & H1 & ->)];
    apply open_positions_spec in H1
      as (evs1 & f & size & Htr1 & Hen1 & Hf & Hsize & Hs1 & Hpn1 & Hres1).
  2:{ exists evs1, size. split_and!; try done. left. by exists f, e. }
  destruct Hres1 as (Hsz & Hmax & Hpl1 & Hdc1 & md1 & Hmd1 & Hopen).
  rewrite bind_on_runtime in H. cbn [fst snd] in H.
  set (s2 := (s1.1, asyncio_sleep E (inject_Z dur) s1.2)) in *.
  assert (Htr2 : trace (snd s2) = trace (snd s) ++ evs1
                   ++ EvSleep (inject_Z dur) :: stop_events E s1.2).
  { unfold s2. cbn [snd]. by rewrite trace_asyncio_sleep, Htr1, <- app_assoc. }
  set (evs2 := EvSleep (inject_Z dur) :: stop_events E s1.2) in *.
  assert (Hs2 : Forall (session_event sym size) evs2).
  { constructor; [done | apply session_event_stop]. }
  assert (Hq2 : pnl_reports evs2 = [] /\ placed_orders evs2 = []
                /\ market_documents evs2 = [] /\ decisive_orders evs2 = []).
  { unfold evs2. change (?x :: ?l) with ([x] ++ l).
    rewrite pnl_reports_app, placed_orders_app, market_documents_app,
      decisive_orders_app.
    by rewrite pnl_reports_stop, placed_orders_stop, market_documents_stop,
      decisive_orders_stop. }
  destruct Hq2 as (Hpn2 & Hpl2 & Hmd2 & Hdc2).
  rewrite Hsz in H.
  apply bind_inv in H as [([] & s3 & H3 & H) | (e & H3 & ->)];
    apply close_positions_spec in H3
      as (evs3 & Htr3 & Hen3 & Hs3 & Hpn3 & Hmd3 & Hpl3).
  2:{ exists (evs1 ++ evs2 ++ evs3), size. split_and!; try done.
      - by rewrite Htr3, Htr2, <- !app_assoc.
      - by repeat (apply Forall_app; split).
      - left. exists f, e. split_and!; try done.
        + by rewrite Hen3.
        + by rewrite !pnl_reports_app, Hpn1, Hpn2, Hpn3. }
  apply settle_spec in H
    as (evs4 & t & Htr4 & Hen4 & Hs4 & Hpl4 & Hdc4 & Hres4).
  destruct (Hpl3 Hmax) as [Hpl3a Hdc3].
  exists (evs1 ++ evs2 ++ evs3 ++ evs4), size. split_and!; try done.
  - by rewrite Htr4, Htr3, Htr2, <- !app_assoc.
  - by repeat (apply Forall_app; split).
  - right. exists f, t. split_and!; try done.
    + rewrite Hen4, Hen3. unfold s2. cbn [fst]. rewrite Hen1.
      by rewrite update_session_compose.
    + rewrite !placed_orders_app, Hpl1, Hpl2, Hpl3a, Hpl4.
      by rewrite app_nil_r.
    + rewrite !placed_orders_app, !decisive_orders_app.
      by rewrite Hpl1, Hpl2, Hpl3a, Hpl4, Hdc1, Hdc2, Hdc3, Hdc4.
    + destruct res as [[]|e].
      * destruct Hres4 as (md2 & close & Hmd4 & Hclose & Hz & Hpn4).
        exists md1, md2, opened.1, close.
        rewrite !market_documents_app, !pnl_reports_app.
        rewrite Hmd1, Hmd2, Hmd3, Hmd4, Hpn1, Hpn2, Hpn3, Hpn4. done.
      * rewrite !pnl_reports_app. by rewrite Hpn1, Hpn2, Hpn3, Hres4.
Qed.
End Phases2.

(** ** Cleanup *)

Section Cleanup.
Context (E : env) (B : bot_config).
Let max := max_retries (trading_config B).

Lemma quiet_for_nil i : quiet_for i [].
Proof. repeat split; try done; constructor. Qed.

Lemma quiet_for_app i a b : quiet_for i a -> quiet_for i b -> quiet_for i (a ++ b).
Proof.
  intros (Ha1 & Ha2 & Ha3 & Ha4 & Ha7 & Ha5 & Ha6)
    (Hb1 & Hb2 & Hb3 & Hb4 & Hb7 & Hb5 & Hb6).
  split_and!.
  - intros sym size. apply Forall_app. auto.
  - by rewrite placed_orders_app, Ha2, Hb2.
  - by rewrite market_documents_app, Ha3, Hb3.
  - by rewrite pnl_reports_app, Ha4, Hb4.
  - by rewrite decisive_orders_app, Ha7, Hb7.
  - intros j Hne. by rewrite listing_attempts_app, Ha5, Hb5.
  - rewrite http_attempts_app. apply Forall_app. auto.
Qed.

Lemma quiet_for_log i lvl rec :
  match rec with
  | LogCancelled _ _ | LogCancelFailed _ _ _ | LogCleanupFailed _
  | LogSessionFailed _ _ => True
  | _ => False
  end ->
  quiet_for i [EvLog lvl rec].
Proof.
  intros H. split_and!.
  - intros sym size. constructor; [|constructor]. by destruct rec.
  - reflexivity.
  - reflexivity.
  - by destruct lvl, rec.
  - reflexivity.
  - reflexivity.
  - constructor.
Qed.

Lemma call_events_quiet b i m ep kw r evs :
  call_events b i m ep kw r evs ->
  String.eqb m "POST" = false ->
  String.eqb m "GET" && String.prefix "/public/markets/" ep = false ->
  (forall od, kw <> JsonBody od) ->
  quiet_for i evs.
Proof.
  intros Hc Hpost Hget Hkw.
  pose proof Hc as (rq & Hm & Hep & Hk & Hall & Hans).
  split_and!.
  - intros sym size. apply (session_event_call _ _ _ _ _ _ _ sym size Hc).
    intros od ->. by destruct (Hkw od).
  - unfold placed_orders, order_of_request.
    destruct r as [d|e];
      [destruct Hans as [(_ & -> & _)|(_ & _ & ->)]|rewrite Hans]; try done.
    cbn. by rewrite Hm, Hpost.
  - unfold market_documents.
    destruct r as [d|e];
      [destruct Hans as [(_ & -> & _)|(_ & _ & ->)]|rewrite Hans]; try done.
    cbn. by rewrite Hm, Hep, Hget.
  - apply (executor_event_quiet _ _ _ Hall).
  - apply (executor_event_no_order _ _ _ Hall).
    unfold order_of_request. by rewrite Hm, Hpost.
  - intros j Hj. by apply (executor_event_listing i rq).
  - apply http_attempts_executor in Hall.
    eapply Forall_impl; [exact Hall|]. by intros ? [? _].
Qed.

Lemma make_request_quiet i m ep kw rt r rt' :
  _make_request E B i m ep kw rt = (r, rt') ->
  String.eqb m "POST" = false ->
  String.eqb m "GET" && String.prefix "/public/markets/" ep = false ->
  (forall od, kw <> JsonBody od) ->
  exists evs, trace rt' = trace rt ++ evs /\ quiet_for i evs.
Proof.
  intros H ? ? ?. apply make_request_general in H as (evs & Htr & Hc).
  exists evs. split; [done|]. by apply (call_events_quiet _ _ _ _ _ _ _ Hc).
Qed.

Lemma private_orders_not_market x :
  String.prefix "/public/markets/" ("/private/orders/" +:+ x) = false.
Proof. reflexivity. Qed.

Lemma get_open_orders_quiet i sym rt r rt' :
  get_open_orders E B i sym rt = (r, rt') ->
  exists evs, trace rt' = trace rt ++ evs /\ quiet_for i evs.
Proof.
  unfold get_open_orders. intros H.
  apply bind_inv in H as [(resp & rt1 & H1 & H) | (e & H1 & ->)];
    apply make_request_quiet in H1 as (evs & Htr & Hq); try done.
  - unfold lift_result in H. injection H as _ <-. by exists evs.
  - by exists evs.
Qed.

Lemma cancel_each_quiet i orders : forall rt r rt',
  cancel_each E B i orders rt = (r, rt') ->
  exists evs, trace rt' = trace rt ++ evs /\ quiet_for i evs.
Proof.
  induction orders as [|order rest IH]; intros rt r rt' H; cbn in H.
  { injection H as <- <-. exists []. rewrite app_nil_r. auto using quiet_for_nil. }
  destruct (subscript order "id") as [oid|e].
  2:{ injection H as <- <-. exists []. rewrite app_nil_r. auto using quiet_for_nil. }
  destruct (cancel_order E B i oid rt) as [[d|e] rt1] eqn:Hc;
    unfold cancel_order in Hc;
    apply make_request_quiet in Hc as (evs1 & Htr1 & Hq1); try done;
    apply IH in H as (evs2 & Htr2 & Hq2);
    rewrite trace_log, Htr1, <- !app_assoc in Htr2;
    (eexists; split; [exact Htr2|]);
    repeat apply quiet_for_app; try done; by apply quiet_for_log.
Qed.


Lemma close_all_orders_quiet i sym rt r rt' :
  close_all_orders E B i sym rt = (r, rt') ->
  exists evs, trace rt' = trace rt ++ evs /\ quiet_for i evs.
Proof.
  unfold close_all_orders. intros H.
  apply bind_inv in H as [(oo & rt1 & H1 & H) | (e & H1 & ->)];
    apply get_open_orders_quiet in H1 as (evs1 & Htr1 & Hq1).
  2:{ by exists evs1. }
  rewrite bind_lift_result in H.
  destruct (iterate oo) as [orders|e].
  2:{ injection H as <- <-. by exists evs1. }
  apply cancel_each_quiet in H as (evs2 & Htr2 & Hq2).
  exists (evs1 ++ evs2). split; [by rewrite Htr2, Htr1, <- app_assoc|].
  by apply quiet_for_app.
Qed.

End Cleanup.

(** ** [execute_delta_neutral_session] *)

Section Execute.
Context (E : env) (B : bot_config).
Let max := max_retries (trading_config B).
Let cfg := trading_config B.

Lemma cleanup_cases sym rt :
  (exists rt1, close_all_orders E B 0 sym rt = (Ok tt, rt1)
     /\ cleanup E B sym rt
        = match close_all_orders E B 1 sym rt1 with
          | (Ok _, rt2) => rt2
          | (Raise ce, rt2) => log ERROR (LogCleanupFailed ce) rt2
          end)
  \/ (exists e rt1, close_all_orders E B 0 sym rt = (Raise e, rt1)
     /\ cleanup E B sym rt = log ERROR (LogCleanupFailed e) rt1).
Proof.
  unfold cleanup, bind.
  destruct (close_all_orders E B 0 sym rt) as [[[]|e] rt1].
  - left. by exists rt1.
  - right. by exists e, rt1.
Qed.

Lemma cleanup_quiet sym rt :
  exists evs,
    trace (cleanup E B sym rt) = trace rt ++ evs
    /\ (forall sym' size, Forall (session_event sym' size) evs)
    /\ placed_orders evs = [] /\ market_documents evs = []
    /\ pnl_reports evs = [] /\ decisive_orders evs = [].
Proof.
  assert (Hlog : forall e rt', exists evs,
            trace (log ERROR (LogCleanupFailed e) rt') = trace rt' ++ evs
            /\ quiet_for 0 evs /\ quiet_for 1 evs).
  { intros e rt'. exists [EvLog ERROR (LogCleanupFailed e)].
    split; [done|]. split; by apply quiet_for_log. }
  assert (Hfin : forall i evs, quiet_for i evs ->
            (forall sym' size, Forall (session_event sym' size) evs)
            /\ placed_orders evs = [] /\ market_documents evs = []
            /\ pnl_reports evs = [] /\ decisive_orders evs = []).
  { intros i evs (? & ? & ? & ? & ? & _). done. }
  assert (Hcomb : forall i j a b, quiet_for i a -> quiet_for j b ->
            (forall sym' size, Forall (session_event sym' size) (a ++ b))
            /\ placed_orders (a ++ b) = [] /\ market_documents (a ++ b) = []
            /\ pnl_reports (a ++ b) = [] /\ decisive_orders (a ++ b) = []).
  { intros i j a b (Ha1 & Ha2 & Ha3 & Ha4 & Ha5 & _) (Hb1 & Hb2 & Hb3 & Hb4 & Hb5 & _).
    rewrite placed_orders_app, market_documents_app, pnl_reports_app,
      decisive_orders_app.
    rewrite Ha2, Ha3, Ha4, Ha5, Hb2, Hb3, Hb4, Hb5. split_and!; try done.
    intros. apply Forall_app. auto. }
  destruct (cleanup_cases sym rt) as [(rt1 & H0 & ->) | (e & rt1 & H0 & ->)];
    apply close_all_orders_quiet in H0 as (evs0 & Htr0 & Hq0).
  - destruct (close_all_orders E B 1 sym rt1) as [[[]|e] rt2] eqn:H1;
      apply close_all_orders_quiet in H1 as (evs1 & Htr1 & Hq1).
    + exists (evs0 ++ evs1). split; [by rewrite Htr1, Htr0, <- app_assoc|].
      by apply (Hcomb 0%nat 1%nat).
    + destruct (Hlog e rt2) as (evs2 & Htr2 & _ & Hq2).
      exists (evs0 ++ evs1 ++ evs2).
      split; [by rewrite Htr2, Htr1, Htr0, <- !app_assoc|].
      apply (Hcomb 0%nat 1%nat); [done|]. by apply quiet_for_app.
  - destruct (Hlog e rt1) as (evs2 & Htr2 & Hq2 & _).
    exists (evs0 ++ evs2). split; [by rewrite Htr2, Htr0, <- !app_assoc|].
    by apply (Hcomb 0%nat 0%nat).
Qed.

Lemma choose_parameters_spec rt :
  (exists e rt', choose_parameters E B rt = (Raise e, rt')
     /\ trace rt' = trace rt /\ is_running rt' = is_running rt
     /\ (symbols cfg = []
         \/ max_session_duration cfg < min_session_duration cfg))
  \/ (exists sym long dur rt',
        choose_parameters E B rt = (Ok (sym, long, dur), rt')
        /\ sym ∈ symbols cfg
        /\ min_session_duration cfg <= dur <= max_session_duration cfg
        /\ trace rt' = trace rt /\ is_running rt' = is_running rt).
Proof.
  unfold choose_parameters, bind.
  destruct (random_choice_spec E (symbols (trading_config B)) rt)
    as [[Hnil ->] | (sym & rt1 & -> & Hsym & Htr1 & Hr1)];
    [left; eexists _, _; split_and!; try done; by left|].
  destruct (random_choice_spec E [true; false] rt1)
    as [[? _] | (long & rt2 & -> & _ & Htr2 & Hr2)]; [done|].
  destruct (random_randint_spec E (min_session_duration (trading_config B))
              (max_session_duration (trading_config B)) rt2)
    as [[Hlt ->] | (_ & dur & rt3 & -> & Hdur & Htr3 & Hr3)].
  - left. exists ValueError, rt2. split; [done|].
    split; [congruence|]. split; [congruence|]. by right.
  - right. exists sym, long, dur, rt3. split; [done|]. split; [exact Hsym|].
    split; [exact Hdur|]. split; congruence.
Qed.

(** [execute_delta_neutral_session] from an idle engine: it raises
    before creating a session, or it registers a session, runs the
    [try] block on it, runs the handler if the block failed, and clears
    the active slot. *)
Lemma execute_spec s res s' :
  active_session s.1 = None ->
  execute_delta_neutral_session E B s = (res, s') ->
  (exists e, res = Raise e /\ s'.1 = s.1 /\ trace s'.2 = trace s.2
     /\ is_running s'.2 = is_running s.2
     /\ (symbols cfg = []
         \/ max_session_duration cfg < min_session_duration cfg))
  \/ (res = Ok tt /\ exists sess rt4 bres sb,
        symbol sess ∈ symbols cfg
        /\ min_session_duration cfg <= planned_duration sess
           <= max_session_duration cfg
        /\ closed sess = false /\ end_time sess = None
        /\ trace rt4 = trace s.2
             ++ [EvLog INFO (LogSessionStart (session_id sess) (symbol sess)
                               (account1_long sess) (planned_duration sess))]
        /\ session_body E B (length (heap s.1)) (session_id sess) (symbol sess)
             (account1_long sess) (planned_duration sess)
             ({| heap := heap s.1 ++ [sess];
                 sessions := sessions s.1 ++ [length (heap s.1)];
                 active_session := Some (length (heap s.1)) |}, rt4)
           = (bres, sb)
        /\ s'.1 = set_active None sb.1
        /\ s'.2 = match bres with
                  | Ok _ => sb.2
                  | Raise e =>
                      cleanup E B (symbol sess)
                        (log ERROR (LogSessionFailed (session_id sess) e) sb.2)
                  end).
Proof.
  intros Hidle H. unfold execute_delta_neutral_session in H. rewrite Hidle in H.
  destruct (choose_parameters_spec s.2)
    as [(e & rt1 & Hc & Htr & Hr & Hwhy)
       | (sym & long & dur & rt1 & Hc & Hsym & Hdur & Htr & Hr)];
    rewrite Hc in H.
  { injection H as <- <-. left. by exists e. }
  right. cbn [fresh_uuid read_clock register_session] in H.
  match type of H with
  | match session_body _ _ _ ?sid _ _ _ (?en1, ?rt4) with _ => _ end = _ =>
      destruct (session_body E B (length (heap s.1)) sid sym long dur (en1, rt4))
        as [bres sb] eqn:Hbody
  end.
  match type of Hbody with
  | session_body _ _ _ ?sid _ _ _ (_, ?rt4) = _ =>
      set (sess := {| session_id := sid; symbol := sym; account1_long := long;
                      start_time := time_ms E (n_clock rt1);
                      planned_duration := dur; end_time := None;
                      account1_order_id := JNull; account2_order_id := JNull;
                      closed := false |}) in *;
      assert (Hres : res = Ok tt /\ s'.1 = set_active None sb.1
                /\ s'.2 = match bres with
                          | Ok _ => sb.2
                          | Raise e =>
                              cleanup E B sym
                                (log ERROR (LogSessionFailed sid e) sb.2)
                          end)
        by (destruct bres; by injection H as <- <-);
      destruct Hres as (-> & Hen & Hrt);
      split; [done|]; exists sess, rt4, bres, sb
  end.
  split_and!; try done; [apply Hdur | apply Hdur |].
  cbn. by rewrite Htr.
Qed.
End Execute.

Section Outcome.
Context (E : env) (B : bot_config).
Let max := max_retries (trading_config B).
Let cfg := trading_config B.

Lemma registered_update en sess0 F :
  set_active None
    (update_session (length (heap en)) F
       {| heap := heap en ++ [sess0];
          sessions := sessions en ++ [length (heap en)];
          active_session := Some (length (heap en)) |})
  = {| heap := heap en ++ [F sess0];
       sessions := sessions en ++ [length (heap en)];
       active_session := None |}.
Proof.
  unfold set_active, update_session. cbn. f_equal.
  rewrite <- (Nat.add_0_r (length (heap en))) at 1. by rewrite alter_app_r.
Qed.

Lemma session_event_failed sym size sid e :
  Forall (session_event sym size) [EvLog ERROR (LogSessionFailed sid e)].
Proof. by repeat constructor. Qed.

Lemma session_event_start sym size sid s l d :
  Forall (session_event sym size) [EvLog INFO (LogSessionStart sid s l d)].
Proof. by repeat constructor. Qed.

(** Every run of [execute_delta_neutral_session] from an idle engine,
    in terms of what it leaves in the heap and in the trace. *)
Lemma execute_outcome s res s' :
  active_session s.1 = None ->
  execute_delta_neutral_session E B s = (res, s') ->
  (exists e, res = Raise e /\ s'.1 = s.1 /\ trace s'.2 = trace s.2
     /\ is_running s'.2 = is_running s.2
     /\ (symbols cfg = []
         \/ max_session_duration cfg < min_session_duration cfg))
  \/ (res = Ok tt /\ exists sess evs size,
        trace s'.2 = trace s.2 ++ evs
        /\ s'.1 = {| heap := heap s.1 ++ [sess];
                     sessions := sessions s.1 ++ [length (heap s.1)];
                     active_session := None |}
        /\ symbol sess ∈ symbols cfg
        /\ min_session_duration cfg <= planned_duration sess
           <= max_session_duration cfg
        /\ size_drawn cfg size
        /\ Forall (session_event (symbol sess) size) evs
        /\ (pnl_reports evs = [] ->
            exists rtf pre,
              trace rtf = trace s.2 ++ pre
              /\ s'.2 = cleanup E B (symbol sess) rtf)
        /\ ((closed sess = false /\ end_time sess = None /\ pnl_reports evs = [])
            \/ (closed sess = true /\ is_Some (end_time sess)
                /\ placed_orders evs
                   = opening_orders (symbol sess) (account1_long sess) size
                     ++ closing_orders (symbol sess) (account1_long sess) size
                /\ decisive_orders evs = placed_orders evs
                /\ (pnl_reports evs = []
                    \/ exists md1 md2 open close,
                         market_documents evs = [md1; md2]
                         /\ last_price_of E md1 = Ok open
                         /\ last_price_of E md2 = Ok close
                         /\ (open =? 0)%float = false
                         /\ pnl_reports evs
                            = [session_pnl (account1_long sess) size open close])))).
Proof.
  intros Hidle H.
  apply execute_spec in H
    as [Hraise | (-> & sess0 & rt4 & bres & sb & Hsym & Hdur & Hcl & Het
                   & Htr4 & Hbody & Hen & Hrt)]; [by left | right | done].
  split; [done|].
  apply session_body_spec in Hbody as (evsb & size & Htrb & Hsize & Hsb & Hcases).
  cbn [fst snd] in Htrb.
  set (start := EvLog INFO (LogSessionStart (session_id sess0) (symbol sess0)
                              (account1_long sess0) (planned_duration sess0))) in *.
  (* the events after the [try] block *)
  assert (Hafter : exists evsc,
            trace s'.2 = trace s.2 ++ [start] ++ evsb ++ evsc
            /\ Forall (session_event (symbol sess0) size) evsc
            /\ placed_orders evsc = [] /\ market_documents evsc = []
            /\ pnl_reports evsc = [] /\ decisive_orders evsc = []
            /\ (forall v, bres = Ok v -> evsc = [])
            /\ (forall e, bres = Raise e ->
                  exists rtf pre,
                    trace rtf = trace s.2 ++ pre
                    /\ s'.2 = cleanup E B (symbol sess0) rtf)).
  { destruct bres as [v|e].
    - exists []. rewrite Hrt, Htrb, Htr4, app_nil_r, <- !app_assoc.
      split_and!; try done.
    - destruct (cleanup_quiet E B (symbol sess0)
                  (log ERROR (LogSessionFailed (session_id sess0) e) sb.2))
        as (evsc & Htrc & Hsc & Hplc & Hmdc & Hpnc & Hdcc).
      exists ([EvLog ERROR (LogSessionFailed (session_id sess0) e)] ++ evsc).
      rewrite Hrt, Htrc, trace_log, Htrb, Htr4, <- !app_assoc.
      rewrite placed_orders_app, market_documents_app, pnl_reports_app,
        decisive_orders_app.
      rewrite Hplc, Hmdc, Hpnc, Hdcc. split_and!; try done.
      + apply Forall_app. split; [apply session_event_failed | apply Hsc].
      + intros e' [= <-]. eexists _, _. split; [|reflexivity].
        rewrite trace_log, Htrb, Htr4, <- !app_assoc. reflexivity. }
  destruct Hafter as (evsc & Htr & Hsc & Hplc & Hmdc & Hpnc & Hdcc & Hok & Hfail).
  assert (Hall : Forall (session_event (symbol sess0) size)
                   ([start] ++ evsb ++ evsc)).
  { repeat (apply Forall_app; split); try done. apply session_event_start. }
  destruct Hcases as [(f & e & Hf & Hsb1 & -> & Hpnb)
                     | (f & t & Hf & Hsb1 & Hplb & Hdcb & Hresb)];
    rewrite Hsb1 in Hen; cbn [fst] in Hen; rewrite registered_update in Hen.
  - (* failed before the object was marked *)
    destruct (Hf sess0) as (_ & Hfsym & Hflong & _ & Hfdur & Hfet & Hfcl).
    exists (f sess0), ([start] ++ evsb ++ evsc), size.
    rewrite Hfsym, Hfdur. split_and!; try done; [apply Hdur | apply Hdur | |].
    { intros _. by apply (Hfail e). }
    left. rewrite Hfcl, Hfet, !pnl_reports_app, Hpnb, Hpnc. done.
  - (* all four orders placed, object marked *)
    destruct (Hf sess0) as (_ & Hfsym & Hflong & _ & Hfdur & Hfet & Hfcl).
    exists ((set_closed true ∘ set_end_time t ∘ f) sess0),
      ([start] ++ evsb ++ evsc), size.
    cbn [compose set_closed set_end_time symbol planned_duration closed
           end_time account1_long].
    rewrite Hfsym, Hfdur, Hflong.
    split_and!; try done; [apply Hdur | apply Hdur | |].
    { intros Hnone. destruct bres as [v|e]; [|by apply (Hfail e)].
      destruct Hresb as (? & ? & ? & ? & _ & _ & _ & _ & Hpn).
      rewrite !pnl_reports_app, Hpn in Hnone. done. }
    right. split; [done|]. split; [by eexists|]. split; [|split].
    + rewrite !placed_orders_app, Hplb, Hplc. by rewrite app_nil_r.
    + rewrite !placed_orders_app, !decisive_orders_app, Hdcb, Hdcc, Hplc. done.
    + destruct bres as [v|e].
      * right. destruct Hresb as (md1 & md2 & open & close & Hmd & Ho & Hc & Hz & Hpn).
        exists md1, md2, open, close.
        rewrite !market_documents_app, !pnl_reports_app, Hmd, Hpn, Hmdc, Hpnc.
        done.
      * left. by rewrite !pnl_reports_app, Hresb, Hpnc.
Qed.
End Outcome.

(** ** The session engine: claims *)

Section EngineTheorems.
Context (E : env) (B : bot_config).
Let max := max_retries (trading_config B).
Let cfg := trading_config B.

Lemma history_registered h ss sess :
  Forall (fun r => (r < length h)%nat) ss ->
  history {| heap := h ++ [sess]; sessions := ss ++ [length h];
             active_session := None |}
  = omap (fun r => h !! r) ss ++ [sess].
Proof.
  intros Hwf. unfold history. cbn. rewrite omap_app. f_equal.
  - induction Hwf as [|r ss Hr _ IH]; [done|].
    cbn. rewrite lookup_app_l by done. by rewrite IH.
  - cbn. by rewrite list_lookup_middle.
Qed.

Lemma order_bodies_session sym size evs :
  Forall (session_event sym size) evs ->
  Forall (fun od => exists side, od = market_order sym side size) (order_bodies evs).
Proof.
  unfold order_bodies, http_attempts.
  induction 1 as [|[a rq o|d|l r] evs Hev _ IH]; [constructor| |done..].
  cbn in Hev |- *. destruct (req_kwargs rq); [done| |done].
  by constructor.
Qed.

(** C7.  When a session is active, [execute_delta_neutral_session]
    returns at once: the engine is unchanged and the only effect is the
    warning it logs, so no request is made.  When none is active, the
    active slot is [None] again when the function is left, however the
    session went. *)
Theorem single_active_session (s : bot) :
  match active_session s.1 with
  | Some _ =>
      execute_delta_neutral_session E B s
      = (Ok tt, (s.1, log WARNING LogSessionActive s.2))
  | None =>
      active_session (execute_delta_neutral_session E B s).2.1 = None
  end.
Proof.
  destruct (active_session s.1) as [r|] eqn:Hact.
  - unfold execute_delta_neutral_session. by rewrite Hact.
  - destruct (execute_delta_neutral_session E B s) as [res s'] eqn:H.
    cbn [fst snd].
    apply execute_outcome in H
      as [(e & _ & Hen & _) | (_ & sess & evs & size & _ & Hen & _)];
      [| |done]; by rewrite Hen.
Qed.

(** C5 (amended: the session is appended when it is created).  A run of
    [execute_delta_neutral_session] from an idle engine that creates a
    session appends it to the history whatever its outcome.  [closed =
    true] and [end_time] are set on that object together, after both
    closing orders were placed: a session that settles has
    [closed = true], and a session that failed before its closing
    orders returned stays in the history with [closed = false] and no
    [end_time]. *)
Theorem session_history s res s' :
  wf_engine s.1 ->
  active_session s.1 = None ->
  execute_delta_neutral_session E B s = (res, s') ->
  let evs := events_since s.2 s'.2 in
  (exists e, res = Raise e /\ history s'.1 = history s.1)
  \/ (exists sess,
        history s'.1 = history s.1 ++ [sess]
        /\ wf_engine s'.1
        /\ (closed sess = true <-> is_Some (end_time sess))
        /\ (settled evs -> closed sess = true)
        /\ (closed sess = true ->
            exists size,
              placed_orders evs
              = opening_orders (symbol sess) (account1_long sess) size
                ++ closing_orders (symbol sess) (account1_long sess) size)
        /\ (closed sess = false -> end_time sess = None /\ ~ settled evs)).
Proof.
  intros Hwf Hidle H evs.
  apply execute_outcome in H
    as [(e & -> & -> & _) | (-> & sess & evs' & size & Htr & -> & _ & _ & _ & _ & _ & Hc)];
    [left; by exists e | right | done].
  subst evs. rewrite (events_since_app _ _ _ Htr). exists sess.
  split; [by apply history_registered|]. split.
  { unfold wf_engine. cbn [heap sessions]. rewrite length_app. cbn [length].
    apply Forall_app. split.
    - eapply Forall_impl; [exact Hwf|]. intros r Hr. cbn beta in Hr |- *. lia.
    - constructor; [lia | constructor]. }
  unfold settled.
  destruct Hc as [(Hcl & Het & Hpn) | (Hcl & Het & Hpl & _)].
  - rewrite Hcl, Het, Hpn. split_and!; try done.
    intros _. split; [done|]. by intros Hne.
  - rewrite Hcl. split_and!; try done.
    intros _. by exists size.
Qed.
End EngineTheorems.

Section EngineTheorems2.
Context (E : env) (B : bot_config).
Let max := max_retries (trading_config B).
Let cfg := trading_config B.



(** C10.  For every session that settles, the profit figures in the
    closing log line are computed in binary64 arithmetic from the open
    price and the closing price, which are what [float()] made of the
    [last_price] of the two market-data documents, and from the size
    of the orders: with [pct = (close - open) / open], the figure of
    the long account is [size * pct], that of the short account is
    [- size * pct], and the total is their sum, each operation
    rounded as Python rounds it.  The open price is not zero.  With
    open price 2000, closing price 2010, account 1 long and size 0.05
    the figures are the doubles 0.00025 and -0.00025, and the total is
    0. *)
Theorem settled_session_pnl :
  (forall s res s',
      active_session s.1 = None ->
      execute_delta_neutral_session E B s = (res, s') ->
      settled (events_since s.2 s'.2) ->
      exists sess size md1 md2 open close,
        heap s'.1 = heap s.1 ++ [sess]
        /\ Forall (fun od => od_quantity od = size)
             (order_bodies (events_since s.2 s'.2))
        /\ market_documents (events_since s.2 s'.2) = [md1; md2]
        /\ last_price_of E md1 = Ok open /\ last_price_of E md2 = Ok close
        /\ (open =? 0)%float = false
        /\ let pct := ((close - open) / open)%float in
           let of_long := (size * pct)%float in
           let of_short := (- size * pct)%float in
           pnl_reports (events_since s.2 s'.2)
           = [ if account1_long sess
               then (of_long, of_short, (of_long + of_short)%float)
               else (of_short, of_long, (of_short + of_long)%float) ])
  /\ session_pnl true 0.05%float 2000%float 2010%float
     = (0.00025%float, (-0.00025)%float, 0%float).
Proof.
  split; [|by vm_compute].
  intros s res s' Hidle H Hset.
  apply execute_outcome in H
    as [(e & _ & _ & Htr & _)
       | (_ & sess & evs & size & Htr & Hen & Hsym & _ & _ & Hall & _ & Hc)];
    [| |done].
  { rewrite (events_since_app _ _ [] ) in Hset by (by rewrite app_nil_r).
    by destruct Hset. }
  rewrite (events_since_app _ _ _ Htr) in Hset |- *.
  destruct Hc as [(_ & _ & Hpn) | (_ & _ & Hpl & _ & [Hpn | Hpn])];
    [done | done |].
  destruct Hpn as (md1 & md2 & open & close & Hmd & Ho & Hc & Hz & Hpn).
  exists sess, size, md1, md2, open, close.
  split_and!; try done.
  - by rewrite Hen.
  - apply order_bodies_session in Hall.
    eapply Forall_impl; [exact Hall|]. by intros od [side ->].
  - cbn zeta. rewrite Hpn. unfold session_pnl. by destruct (account1_long sess).
Qed.
End EngineTheorems2.

(** ** The daily scheduler *)

Section Scheduler.
Context (E : env) (B : bot_config).
Let cfg := trading_config B.

Lemma is_running_await_point rt :
  is_running rt = false -> is_running (await_point E rt) = false.
Proof. unfold await_point. by destruct (stop_requested_at E _). Qed.

Lemma cycle_loop_stopped daily min_delay slots s :
  is_running s.2 = false -> cycle_loop E B daily min_delay slots s = s.
Proof. intros H. destruct slots; [done|]. cbn. by rewrite H. Qed.

Lemma execute_trace s res s' :
  execute_delta_neutral_session E B s = (res, s') ->
  exists evs, trace s'.2 = trace s.2 ++ evs.
Proof.
  intros H. destruct (active_session s.1) as [r|] eqn:Hact.
  - unfold execute_delta_neutral_session in H. rewrite Hact in H.
    injection H as <- <-. by eexists.
  - apply execute_outcome in H
      as [(e & _ & _ & Htr & _) | (_ & sess & evs & size & Htr & _)]; [| |done].
    + exists []. by rewrite app_nil_r.
    + by exists evs.
Qed.

(** One slot of the loop, from a state in which the flag is set. *)
Lemma cycle_loop_slot daily min_delay n rest s r s1 :
  is_running s.2 = true ->
  execute_delta_neutral_session E B s = (r, s1) ->
  exists delay rt3 logs,
    cycle_loop E B daily min_delay (n :: rest) s
    = cycle_loop E B daily min_delay rest
        (s1.1, asyncio_sleep E (float_value delay) rt3)
    /\ trace rt3 = trace s1.2 ++ logs
    /\ wire logs = []
    /\ is_running rt3 = is_running s1.2
    /\ n_awaits rt3 = n_awaits s1.2.
Proof.
  intros Hrun H. cbn [cycle_loop]. rewrite Hrun, H. cbn [negb].
  set (rt1 := match r with
              | Ok _ => s1.2
              | Raise e => log ERROR (LogSlotFailed (n + 1) e) s1.2
              end).
  destruct (random_uniform_spec E (min_delay * 0.7)%float
              (min_delay * 1.3)%float rt1)
    as (delay & rt2 & Hu & Htr2 & Hr2 & Haw2 & _).
  rewrite Hu.
  exists delay,
    (log INFO (LogSlotCompleted (n + 1) daily (delay / 60)%float) rt2),
    (match r with Ok _ => [] | Raise e => [EvLog ERROR (LogSlotFailed (n + 1) e)] end
     ++ [EvLog INFO (LogSlotCompleted (n + 1) daily (delay / 60)%float)]).
  split; [done|]. split_and!.
  - rewrite trace_log, Htr2. unfold rt1. destruct r; [done|].
    by rewrite trace_log, <- app_assoc.
  - by destruct r.
  - cbn. rewrite Hr2. unfold rt1. by destruct r.
  - cbn. rewrite Haw2. unfold rt1. by destruct r.
Qed.

Lemma cycle_loop_trace daily min_delay slots : forall s,
  exists evs, trace (cycle_loop E B daily min_delay slots s).2 = trace s.2 ++ evs.
Proof.
  induction slots as [|n rest IH]; intros s.
  { exists []. by rewrite app_nil_r. }
  destruct (is_running s.2) eqn:Hrun.
  2:{ rewrite cycle_loop_stopped by done. exists []. by rewrite app_nil_r. }
  destruct (execute_delta_neutral_session E B s) as [r s1] eqn:H.
  destruct (cycle_loop_slot daily min_delay n rest s r s1 Hrun H)
    as (delay & rt3 & logs & -> & Htr3 & _).
  destruct (IH (s1.1, asyncio_sleep E (float_value delay) rt3)) as (evs & ->).
  apply execute_trace in H as (evs1 & Htr1).
  cbn [snd]. rewrite trace_asyncio_sleep, Htr3, Htr1.
  eexists. rewrite <- !app_assoc. reflexivity.
Qed.

End Scheduler.

(** ** The theorems at concrete runs *)

(** C2.  The code departs from the claim when the body of an error
    response does not decode: [response.json()] is awaited before the
    status is tested, so against a gateway answering 502 with an HTML
    page it raises a [ClientError], the attempt is retried until the
    budget is spent, and what is raised is not an API error. *)
Lemma undecodable_error_is_retried :
  let run := _make_request (stub_env bad_gateway) default_bot
               1 "POST" "/private/orders"
               (JsonBody (market_order "ETH-USDC" BUY 0.05%float)) initial_runtime in
  (forall n a rq, exists body, bad_gateway n a rq = Responded 502 body)
  /\ length (http_attempts (trace (snd run))) = 3%nat
  /\ sleeps (trace (snd run)) = [inject_Z 1; inject_Z 2]
  /\ fst run = Raise (ClientError "ContentTypeError: text/html")
  /\ (forall data, fst run <> Raise (ApiError data)).
Proof.
  vm_compute. split_and!; try reflexivity.
  - intros. by eexists.
  - intros data [=].
Qed.

Lemma make_request_api_error_not_retried_witness :
  account_configs default_bot !! 1%nat
  = Some {| account_name := "Account2"; api_key := "key2"; secret_key := "secret2" |}
  /\ fst (_make_request (stub_env rejecting) default_bot
            1 "DELETE" "/private/orders/7" NoKwargs initial_runtime)
     = Raise (ApiError (JDict [("error", JStr "insufficient margin")]))
  /\ length (http_attempts
               (events_since initial_runtime
                  (snd (_make_request (stub_env rejecting) default_bot
                          1 "DELETE" "/private/orders/7" NoKwargs initial_runtime))))
     = 1%nat.
Proof.
  split; [reflexivity|].
  refine (proj1 (make_request_api_error_not_retried (stub_env rejecting) default_bot
            1 _ "DELETE" "/private/orders/7" NoKwargs initial_runtime eq_refl)
            0%nat 400 _ _ _ _ _).
  - done.
  - intros j rq Hj. lia.
  - reflexivity.
  - done.
Defined.

Lemma make_request_headers_witness :
  account_configs default_bot !! 0%nat
  = Some {| account_name := "Account1"; api_key := "key1"; secret_key := "secret1" |}
  /\ (exists x rest,
        http_attempts (events_since initial_runtime flaky_balance.2) = x :: rest)
  /\ Forall (fun x : nat * request * attempt_outcome =>
               x.1.1 = 0%nat /\ req_method x.1.2 = "GET"
               /\ req_endpoint x.1.2 = "/private/account/balance"
               /\ headers_ok (stub_env flaky_transport)
                    {| account_name := "Account1"; api_key := "key1";
                       secret_key := "secret1" |}
                    "GET" "/private/account/balance"
                    (time_ms (stub_env flaky_transport) 0) (req_headers x.1.2))
       (http_attempts (events_since initial_runtime flaky_balance.2)).
Proof.
  split; [reflexivity|].
  destruct (make_request_headers (stub_env flaky_transport) default_bot
              0 _ "GET" "/private/account/balance" NoKwargs initial_runtime eq_refl)
    as [Hsome Hall].
  split; [apply Hsome; cbn; lia | exact Hall].
Defined.



(** C5, as stated, fails: a session whose first request is rejected never
    settles, yet it is in the history, with [closed = false] and no
    [end_time]. *)
Lemma failed_session_in_history :
  ~ settled (trace rejected_session.2.2)
  /\ exists sess,
       history rejected_session.2.1 = [sess]
       /\ closed sess = false /\ end_time sess = None.
Proof.
  split.
  - vm_compute. intros H. by apply H.
  - eexists. vm_compute. split_and!; reflexivity.
Qed.

Lemma session_history_witness :
  (wf_engine initial_bot.1
   /\ active_session initial_bot.1 = None
   /\ execute_delta_neutral_session (stub_env scenario_transport) scenario_bot
        initial_bot = (scenario_session.1, scenario_session.2))
  /\ exists sess,
       history scenario_session.2.1 = history initial_bot.1 ++ [sess]
       /\ closed sess = true /\ is_Some (end_time sess).
Proof.
  assert (Hwf : wf_engine initial_bot.1) by constructor.
  assert (Hex : execute_delta_neutral_session (stub_env scenario_transport)
                  scenario_bot initial_bot
                = (scenario_session.1, scenario_session.2)).
  { unfold scenario_session. apply surjective_pairing. }
  split; [exact (conj Hwf (conj eq_refl Hex))|].
  assert (Hset : settled (events_since initial_bot.2 scenario_session.2.2)).
  { vm_compute. discriminate. }
  destruct (session_history (stub_env scenario_transport) scenario_bot
              initial_bot _ _ Hwf eq_refl Hex)
    as [(e & He & _) | (sess & Hh & _ & Hiff & Hcl & _)].
  - exfalso. revert He. vm_compute. discriminate.
  - exists sess. split; [exact Hh|]. split; [exact (Hcl Hset)|].
    apply Hiff. exact (Hcl Hset).
Defined.

Lemma settled_session_pnl_witness :
  (active_session initial_bot.1 = None
   /\ execute_delta_neutral_session (stub_env scenario_transport) scenario_bot
        initial_bot = (scenario_session.1, scenario_session.2)
   /\ settled (events_since initial_bot.2 scenario_session.2.2))
  /\ (exists sess size open close,
        heap scenario_session.2.1 = heap initial_bot.1 ++ [sess]
        /\ Forall (fun od => od_quantity od = size)
             (order_bodies (events_since initial_bot.2 scenario_session.2.2))
        /\ (open =? 0)%float = false
        /\ pnl_reports (events_since initial_bot.2 scenario_session.2.2)
           = [ if account1_long sess
               then ((size * ((close - open) / open))%float,
                     (- size * ((close - open) / open))%float,
                     (size * ((close - open) / open)
                      + - size * ((close - open) / open))%float)
               else ((- size * ((close - open) / open))%float,
                     (size * ((close - open) / open))%float,
                     (- size * ((close - open) / open)
                      + size * ((close - open) / open))%float) ])
  /\ od_quantity <$> order_bodies (trace scenario_session.2.2)
     = [0.05%float; 0.05%float; 0.05%float; 0.05%float]
  /\ pnl_reports (trace scenario_session.2.2)
     = [(0.00025%float, (-0.00025)%float, 0%float)].
Proof.
  assert (Hex : execute_delta_neutral_session (stub_env scenario_transport)
                  scenario_bot initial_bot
                = (scenario_session.1, scenario_session.2)).
  { unfold scenario_session. apply surjective_pairing. }
  assert (Hset : settled (events_since initial_bot.2 scenario_session.2.2)).
  { vm_compute. discriminate. }
  split; [exact (conj eq_refl (conj Hex Hset))|].
  split; [|split; vm_compute; reflexivity].
  destruct (proj1 (settled_session_pnl (stub_env scenario_transport) scenario_bot)
              initial_bot _ _ eq_refl Hex Hset)
    as (sess & size & md1 & md2 & open & close
        & Hheap & Hq & _ & _ & _ & Hz & Hpn).
  exists sess, size, open, close.
  exact (conj Hheap (conj Hq (conj Hz Hpn))).
Defined.


(** * Further properties of the code

    ** The request executor, every run *)

Section ExecutorEveryRun.
Context (E : env) (B : bot_config).
Let max := max_retries (trading_config B).

(** Among [n >= 1] attempts, the one the loop stops at: the first that
    is not a transient failure, or the last one. *)
Lemma first_decisive (f : nat -> bool) (n : nat) :
  (1 <= n)%nat ->
  exists k, (k < n)%nat /\ (forall j, (j < k)%nat -> f j = true)
            /\ (S k = n \/ f k = false).
Proof.
  induction n as [|n IH]; [lia|]. intros _.
  destruct n as [|n].
  { exists 0%nat. split; [lia|]. split; [intros; lia | by left]. }
  destruct IH as (k & Hk & Hbefore & Hstop); [lia|].
  destruct (f k) eqn:Hfk.
  - destruct Hstop as [Hlast|Hf]; [|congruence].
    exists (S k). split; [lia|]. split; [|left; lia].
    intros j Hj. destruct (decide (j = k)) as [->|]; [done|].
    apply Hbefore. lia.
  - exists k. split; [lia|]. split; [done | by right].
Qed.

(** The request of a call does not depend on the keyword arguments,
    except for the field that carries them. *)
Lemma make_request_loop_kwargs i acct m ep rt :
  account_configs B !! i = Some acct ->
  exists h rt1,
    trace rt1 = trace rt
    /\ forall kw,
         _make_request E B i m ep kw rt
         = attempt_loop E B i
             {| req_method := m; req_endpoint := ep;
                req_url := base_url (trading_config B) +:+ ep;
                req_headers := h; req_kwargs := kw |}
             (range max) rt1.
Proof.
  intros Hacct. unfold _make_request. rewrite Hacct.
  destruct (String.prefix "/public" ep); cbn [negb].
  - eexists _, rt. split; [done|]. intros kw. reflexivity.
  - cbn. eexists _, _. split; [|intros kw; reflexivity]. done.
Qed.

(** X1.  Every run of [_make_request] for a known account and a
    budget of at least one attempt: it makes [k + 1 <= max_retries]
    attempts, each but the last a transient failure followed by a
    sleep of [2^n] seconds after attempt [n]; it stops at the first
    attempt that is not a transient failure, or at the last one
    allowed, and what it returns or raises is decided by that
    attempt alone. *)
Theorem make_request_every_run i acct m ep kw rt :
  account_configs B !! i = Some acct ->
  1 <= max ->
  let run := _make_request E B i m ep kw rt in
  let evs := events_since rt run.2 in
  exists rq (k : nat),
    Z.of_nat k < max
    /\ wire evs = retry_schedule E i rq (n_attempts rt) 0 (S k)
    /\ length (http_attempts evs) = S k
    /\ sleeps evs = (fun n => inject_Z (2 ^ n)) <$> seqZ 0 (Z.of_nat k)
    /\ (forall j, (j < k)%nat ->
          transient (transport E (n_attempts rt + j) i rq) = true)
    /\ (Z.of_nat (S k) = max
        \/ transient (transport E (n_attempts rt + k) i rq) = false)
    /\ run.1 = final_result (transport E (n_attempts rt + k) i rq).
Proof.
  intros Hacct Hmax run evs.
  destruct (make_request_loop E B i acct m ep kw rt Hacct)
    as (rq & rt1 & Heq & Htr & Hn & _).
  destruct (first_decisive
              (fun j => transient (transport E (n_attempts rt + j) i rq))
              (Z.to_nat max)) as (k & Hk & Hbefore & Hstop); [lia|].
  destruct (attempt_loop_run E B i rq (S k) (Z.to_nat max) 0 rt1)
    as (rt' & evs' & Hrun & Htr' & Hw & _).
  - lia.
  - fold max. lia.
  - intros j Hj. rewrite Hn. apply Hbefore. lia.
  - rewrite Hn. replace (S k - 1)%nat with k by lia.
    destruct Hstop as [?|?]; [left; lia | by right].
  - exists rq, k. subst run evs. rewrite Heq. unfold range. fold max.
    replace (seqZ 0 max) with (seqZ 0 (Z.of_nat (Z.to_nat max)))
      by (f_equal; lia).
    rewrite Hrun, Hn. replace (S k - 1)%nat with k by lia. cbn [fst snd].
    rewrite (events_since_app rt rt' evs') by (by rewrite Htr', Htr).
    rewrite Hn in Hw. split; [lia|]. split; [exact Hw|]. split.
    { rewrite <- http_attempts_wire, Hw, http_attempts_retry_schedule.
      by rewrite length_fmap, length_seq. }
    split.
    { rewrite <- sleeps_wire, Hw, sleeps_retry_schedule.
      do 2 f_equal. lia. }
    split; [exact Hbefore|]. split; [|done].
    destruct Hstop as [?|?]; [left; lia | by right].
Qed.

(** X2.  The headers of a request, its signature included, do not
    depend on the keyword arguments of the call: two calls for the
    same account, method and path that start from the same state send
    the same headers whatever order body or query parameters they
    carry, and each request carries the keyword arguments of its
    call. *)
Theorem signature_ignores_body i m ep kw1 kw2 rt x y :
  x ∈ http_attempts (events_since rt (_make_request E B i m ep kw1 rt).2) ->
  y ∈ http_attempts (events_since rt (_make_request E B i m ep kw2 rt).2) ->
  req_headers x.1.2 = req_headers y.1.2
  /\ req_kwargs x.1.2 = kw1 /\ req_kwargs y.1.2 = kw2.
Proof.
  intros Hx Hy.
  destruct (account_configs B !! i) as [acct|] eqn:Hacct.
  2:{ rewrite make_request_no_account in Hx by done. cbn in Hx.
      rewrite (events_since_app rt rt []) in Hx by (by rewrite app_nil_r).
      by apply elem_of_nil in Hx. }
  destruct (make_request_loop_kwargs i acct m ep rt Hacct)
    as (h & rt1 & Htr & Heq).
  assert (Hsent : forall kw z,
            z ∈ http_attempts (events_since rt (_make_request E B i m ep kw rt).2) ->
            z.1.2 = {| req_method := m; req_endpoint := ep;
                       req_url := base_url (trading_config B) +:+ ep;
                       req_headers := h; req_kwargs := kw |}).
  { intros kw z Hz. rewrite Heq in Hz.
    destruct (attempt_loop E B i _ (range max) rt1) as [r rt'] eqn:Hrun.
    apply attempt_loop_general in Hrun as (evs & Htr' & Hall & _).
    cbn [snd] in Hz.
    rewrite (events_since_app rt rt' evs) in Hz by (by rewrite Htr', Htr).
    apply http_attempts_executor in Hall.
    rewrite Forall_forall in Hall. by apply Hall in Hz as [_ ?]. }
  rewrite (Hsent kw1 x Hx), (Hsent kw2 y Hy). done.
Qed.
End ExecutorEveryRun.

(** ** Relations kept by every step of the bot *)

Section Frames.
Context (E : env) (B : bot_config) (P : runtime -> runtime -> Prop).
Hypothesis HP : frame_closed E P.
Hypothesis HR : requests_keep E B P.

Lemma Prefl rt : P rt rt.
Proof. apply HP. Qed.

Lemma Ptrans a b c : P a b -> P b c -> P a c.
Proof. apply HP. Qed.

Lemma Plog lvl r rt : P rt (log lvl r rt).
Proof. apply (frame_log E P HP). Qed.

Lemma Psleep d rt : P rt (asyncio_sleep E d rt).
Proof. apply (frame_sleep E P HP). Qed.

Lemma Pthen_log a b lvl r : P a b -> P a (log lvl r b).
Proof. intros H. eapply Ptrans; [exact H | apply Plog]. Qed.

Lemma preserves_run {St A} (π : St -> runtime) (m : M St A) s r s' :
  preserves P π m -> m s = (r, s') -> P (π s) (π s').
Proof. intros Hm. apply Hm. Qed.

(** *** The monad *)

Lemma preserves_ret {St A} (π : St -> runtime) (a : A) :
  preserves P π (ret a).
Proof. intros s r s' [= <- <-]. apply Prefl. Qed.

Lemma preserves_raise {St A} (π : St -> runtime) e :
  preserves P π (raise e : M St A).
Proof. intros s r s' [= <- <-]. apply Prefl. Qed.

Lemma preserves_lift_result {St A} (π : St -> runtime) (r0 : result A) :
  preserves P π (lift_result r0).
Proof. intros s r s' [= <- <-]. apply Prefl. Qed.

Lemma preserves_bind {St A C} (π : St -> runtime) (m : M St A)
    (k : A -> M St C) :
  preserves P π m -> (forall a, preserves P π (k a)) ->
  preserves P π (bind m k).
Proof.
  intros Hm Hk s r s' H. unfold bind in H.
  destruct (m s) as [[a|e] s1] eqn:Hms.
  - eapply Ptrans; [eapply Hm; eauto | eapply Hk; eauto].
  - injection H as <- <-. eapply Hm; eauto.
Qed.

Lemma preserves_lift_rt {A} (m : M runtime A) :
  preserves P id m -> preserves P snd (lift_rt m).
Proof.
  intros Hm s r s' H. unfold lift_rt in H.
  destruct (m s.2) as [r1 rt1] eqn:Hms. injection H as <- <-.
  apply (Hm _ _ _ Hms).
Qed.

Lemma preserves_on_engine f : preserves P snd (on_engine f).
Proof. intros s r s' [= <- <-]. apply Prefl. Qed.

Lemma preserves_on_runtime f :
  (forall rt, P rt (f rt)) -> preserves P snd (on_runtime f).
Proof. intros Hf s r s' [= <- <-]. apply Hf. Qed.

(** *** The random module *)

Lemma preserves_random_choice {A} (l : list A) :
  preserves P id (random_choice E l).
Proof.
  intros rt r rt' H. unfold random_choice in H. destruct l as [|x l].
  - injection H as <- <-. apply Prefl.
  - cbn in H. injection H as <- <-. apply (frame_draw E P HP).
Qed.

Lemma preserves_random_randint a b :
  preserves P id (random_randint E a b).
Proof.
  intros rt r rt' H. unfold random_randint in H. destruct (b <? a).
  - injection H as <- <-. apply Prefl.
  - cbn in H. injection H as <- <-. apply (frame_draw E P HP).
Qed.

Lemma P_random_uniform a b rt : P rt (random_uniform E a b rt).2.
Proof. apply (frame_draw E P HP). Qed.

(** *** The request executor and the gateway *)

Lemma preserves_make_request i m ep kw :
  preserves P id (_make_request E B i m ep kw).
Proof. apply HR. Qed.

Lemma preserves_get_open_orders i sym :
  preserves P id (get_open_orders E B i sym).
Proof.
  apply preserves_bind; [apply preserves_make_request|].
  intros a. apply preserves_lift_result.
Qed.

Lemma preserves_cancel_each i orders :
  preserves P id (cancel_each E B i orders).
Proof.
  induction orders as [|o rest IH]; intros rt r rt' H.
  { injection H as <- <-. apply Prefl. }
  cbn [cancel_each] in H.
  destruct (subscript o "id") as [oid|e].
  2:{ injection H as <- <-. apply Prefl. }
  destruct (cancel_order E B i oid rt) as [[v|e] rt1] eqn:Hc;
    apply preserves_make_request in Hc; apply IH in H;
    (eapply Ptrans; [|exact H]); by apply Pthen_log.
Qed.

Lemma preserves_close_all_orders i sym :
  preserves P id (close_all_orders E B i sym).
Proof.
  apply preserves_bind; [apply preserves_get_open_orders|].
  intros a. apply preserves_bind; [apply preserves_lift_result|].
  intros b. apply preserves_cancel_each.
Qed.

Lemma P_cleanup sym rt : P rt (cleanup E B sym rt).
Proof.
  unfold cleanup.
  destruct ((bind (close_all_orders E B 0 sym)
               (fun _ => close_all_orders E B 1 sym)) rt) as [[v|e] rt1] eqn:H;
    eapply preserves_bind in H;
    try (apply preserves_close_all_orders);
    try (intros; apply preserves_close_all_orders).
  - exact H.
  - by apply Pthen_log.
Qed.

(** *** The session engine *)

Lemma preserves_place_pair sym s1 s2 size :
  preserves P snd
    (bind (lift_rt (place_order E B 0 sym s1 MARKET size None))
       (fun order1 =>
          bind (lift_rt (place_order E B 1 sym s2 MARKET size None))
            (fun order2 => ret (order1, order2)))).
Proof.
  apply preserves_bind;
    [apply preserves_lift_rt, preserves_make_request|].
  intros o1. apply preserves_bind;
    [apply preserves_lift_rt, preserves_make_request|].
  intros o2. apply preserves_ret.
Qed.

Lemma preserves_uniform_size : preserves P snd (uniform_size E B).
Proof.
  intros s x s' H. unfold uniform_size in H.
  pose proof (P_random_uniform
                (max_position_size (trading_config B) * 0.3)%float
                (max_position_size (trading_config B)) s.2) as Hu.
  destruct (random_uniform E _ _ s.2) as [u rt1].
  injection H as <- <-. exact Hu.
Qed.

Lemma preserves_open_positions r sid sym long :
  preserves P snd (open_positions E B r sid sym long).
Proof.
  unfold open_positions.
  apply preserves_bind;
    [apply preserves_lift_rt, preserves_make_request|]. intros md.
  apply preserves_bind; [apply preserves_lift_result|]. intros lp.
  apply preserves_bind; [apply preserves_lift_result|]. intros price.
  apply preserves_bind; [apply preserves_uniform_size|].
  intros size.
  apply preserves_bind.
  { destruct long; apply preserves_place_pair. }
  intros orders.
  apply preserves_bind; [apply preserves_lift_result|]. intros id1.
  apply preserves_bind; [apply preserves_on_engine|]. intros _.
  apply preserves_bind; [apply preserves_lift_result|]. intros id2.
  apply preserves_bind; [apply preserves_on_engine|]. intros _.
  apply preserves_bind; [apply preserves_lift_result|]. intros sh1.
  apply preserves_bind; [apply preserves_lift_result|]. intros sh2.
  apply preserves_bind;
    [apply preserves_on_runtime; intros; apply Plog|]. intros _.
  apply preserves_ret.
Qed.

Lemma preserves_close_positions sym long size :
  preserves P snd (close_positions E B sym long size).
Proof.
  unfold close_positions.
  destruct long;
    (apply preserves_bind;
       [apply preserves_lift_rt, preserves_make_request|]; intros _;
     apply preserves_bind;
       [apply preserves_lift_rt, preserves_make_request|]; intros _;
     apply preserves_ret).
Qed.

Lemma preserves_settle r sid sym long dur price size :
  preserves P snd (settle E B r sid sym long dur price size).
Proof.
  unfold settle.
  apply preserves_bind.
  { apply preserves_lift_rt. intros rt x rt' H. cbn in H.
    injection H as <- <-. apply (frame_clock E P HP). }
  intros now.
  apply preserves_bind; [apply preserves_on_engine|]. intros _.
  apply preserves_bind; [apply preserves_on_engine|]. intros _.
  apply preserves_bind;
    [apply preserves_lift_rt, preserves_make_request|]. intros md.
  apply preserves_bind; [apply preserves_lift_result|]. intros lp.
  apply preserves_bind; [apply preserves_lift_result|]. intros close.
  apply preserves_bind.
  { destruct (price =? 0)%float;
      [apply preserves_raise | apply preserves_ret]. }
  intros _.
  destruct (session_pnl long size price close) as [[a1 a2] tot].
  apply preserves_on_runtime. intros; apply Plog.
Qed.

Lemma preserves_session_body r sid sym long dur :
  preserves P snd (session_body E B r sid sym long dur).
Proof.
  unfold session_body.
  apply preserves_bind; [apply preserves_open_positions|]. intros opened.
  apply preserves_bind;
    [apply preserves_on_runtime; intros; apply Psleep|]. intros _.
  apply preserves_bind; [apply preserves_close_positions|]. intros _.
  apply preserves_settle.
Qed.

Lemma preserves_choose_parameters :
  preserves P id (choose_parameters E B).
Proof.
  unfold choose_parameters.
  apply preserves_bind; [apply preserves_random_choice|]. intros sym.
  apply preserves_bind; [apply preserves_random_choice|]. intros long.
  apply preserves_bind; [apply preserves_random_randint|]. intros dur.
  apply preserves_ret.
Qed.

Lemma preserves_execute :
  preserves P snd (execute_delta_neutral_session E B).
Proof.
  intros s r s' H. unfold execute_delta_neutral_session in H.
  destruct (active_session s.1).
  { injection H as <- <-. apply Plog. }
  destruct (choose_parameters E B s.2) as [[[[sym long] dur]|e] rt1] eqn:Hc;
    apply preserves_choose_parameters in Hc; unfold id in Hc.
  2:{ by injection H as <- <-. }
  cbn [fresh_uuid read_clock register_session] in H.
  match type of H with
  | context [session_body E B ?r ?sid ?sy ?lo ?du ?st] =>
      destruct (session_body E B r sid sy lo du st) as [[v|e] sb] eqn:Hb;
      apply preserves_session_body in Hb; cbn [snd] in Hb
  end.
  - injection H as <- <-. cbn [snd].
    eapply Ptrans; [exact Hc|]. eapply Ptrans; [|exact Hb].
    apply Pthen_log.
    eapply Ptrans; [apply (frame_uuid E P HP)|].
    apply (frame_clock E P HP).
  - injection H as <- <-. cbn [snd].
    eapply Ptrans; [exact Hc|]. eapply Ptrans; [|apply P_cleanup].
    apply Pthen_log. eapply Ptrans; [|exact Hb].
    apply Pthen_log.
    eapply Ptrans; [apply (frame_uuid E P HP)|].
    apply (frame_clock E P HP).
Qed.

(** *** The scheduler *)

Lemma P_cycle_loop daily min_delay slots : forall s,
  P s.2 (cycle_loop E B daily min_delay slots s).2.
Proof.
  induction slots as [|n rest IH]; intros s; [apply Prefl|].
  cbn [cycle_loop]. destruct (is_running s.2); cbn [negb]; [|apply Prefl].
  destruct (execute_delta_neutral_session E B s) as [r s1] eqn:Hx.
  apply preserves_execute in Hx.
  match goal with
  | |- context [random_uniform E ?a ?b ?rt] =>
      pose proof (P_random_uniform a b rt) as Hu;
      destruct (random_uniform E a b rt) as [delay rt2]
  end.
  cbn [snd] in Hu.
  eapply Ptrans; [|apply IH]. cbn [snd].
  eapply Ptrans; [exact Hx|].
  eapply Ptrans; [|apply Psleep]. apply Pthen_log.
  eapply Ptrans; [|exact Hu].
  destruct r; [apply Prefl | apply Plog].
Qed.
End Frames.

(** Relations that hold across an attempt hold across the executor. *)
Section FrameOfSend.
Context (E : env) (B : bot_config) (P : runtime -> runtime -> Prop).
Hypothesis HP : frame_closed E P.
Hypothesis HS : forall i rq rt, P rt (send E i rq rt).2.

Lemma preserves_attempt_loop i rq attempts :
  preserves P id (attempt_loop E B i rq attempts).
Proof.
  induction attempts as [|a rest IH]; intros rt r rt' H.
  { injection H as <- <-. apply (Prefl E P HP). }
  cbn [attempt_loop] in H.
  pose proof (HS i rq rt) as Hsend.
  destruct (send E i rq rt) as [o rt1]. cbn [snd] in Hsend.
  unfold id in *. unfold attempt_body in H.
  destruct o as [e | st [d | e]].
  - destruct (retryable e).
    + destruct (a =? _).
      * injection H as <- <-. by apply (Pthen_log E P HP).
      * apply IH in H. eapply (Ptrans E P HP); [|exact H].
        eapply (Ptrans E P HP);
          [by apply (Pthen_log E P HP) | apply (Psleep E P HP)].
    + by injection H as <- <-.
  - destruct (st =? 200).
    + by injection H as <- <-.
    + cbn in H. injection H as <- <-. by apply (Pthen_log E P HP).
  - destruct (retryable e).
    + destruct (a =? _).
      * injection H as <- <-. by apply (Pthen_log E P HP).
      * apply IH in H. eapply (Ptrans E P HP); [|exact H].
        eapply (Ptrans E P HP);
          [by apply (Pthen_log E P HP) | apply (Psleep E P HP)].
    + by injection H as <- <-.
Qed.

Lemma requests_keep_of_send : requests_keep E B P.
Proof.
  intros i m ep kw rt r rt' H. unfold _make_request in H.
  destruct (account_configs B !! i) as [acct|].
  2:{ injection H as <- <-. apply (Prefl E P HP). }
  destruct (String.prefix "/public" ep); cbn [negb] in H.
  - by apply preserves_attempt_loop in H.
  - cbn in H. apply preserves_attempt_loop in H.
    eapply (Ptrans E P HP); [|exact H]. apply (frame_clock E P HP).
Qed.
End FrameOfSend.

(** Preservation along a computation written with the monad's
    operations, by the structure of the term. *)
Ltac preserves_tac HP HR :=
  repeat (intros;
    first
      [ exact HP
      | exact HR
      | eapply preserves_ret
      | eapply preserves_raise
      | eapply preserves_lift_result
      | eapply preserves_on_engine
      | eapply preserves_uniform_size
      | eapply preserves_place_pair
      | eapply preserves_close_positions
      | eapply preserves_settle
      | eapply preserves_open_positions
      | eapply preserves_bind
      | eapply preserves_lift_rt
      | eapply preserves_make_request
      | (eapply preserves_on_runtime; intros;
         first [eapply (Plog _ _ HP) | eapply (Psleep _ _ HP)])
      | match goal with
        | |- preserves _ _ (if ?b then _ else _) => destruct b
        end ]).

(** ** The running flag and the reports of the scheduler *)

Section Flag.
Context (E : env).

Lemma stop_between_refl a : stop_between E a a = false.
Proof. unfold stop_between. by rewrite Nat.sub_diag. Qed.

Lemma stop_between_split a b c :
  (a <= b <= c)%nat ->
  stop_between E a c = stop_between E a b || stop_between E b c.
Proof.
  intros H. unfold stop_between.
  replace (c - a)%nat with ((b - a) + (c - b))%nat by lia.
  rewrite seq_app, existsb_app. by replace (a + (b - a))%nat with b by lia.
Qed.

Lemma stop_between_S a : stop_between E a (S a) = stop_requested_at E a.
Proof.
  unfold stop_between. replace (S a - a)%nat with 1%nat by lia.
  cbn. apply orb_false_r.
Qed.

Lemma stop_between_none a b :
  (forall n, (a <= n)%nat -> stop_requested_at E n = false) ->
  stop_between E a b = false.
Proof.
  intros H. unfold stop_between.
  generalize (b - a)%nat as len. intros len. revert a H.
  induction len as [|len IH]; intros a H; [done|].
  cbn. rewrite H by lia. apply IH. intros n Hn. apply H. lia.
Qed.

Lemma flag_kept_refl rt : flag_kept E rt rt.
Proof.
  split; [lia|]. by rewrite stop_between_refl, andb_true_r.
Qed.

Lemma flag_kept_trans a b c :
  flag_kept E a b -> flag_kept E b c -> flag_kept E a c.
Proof.
  intros [H1 H2] [H3 H4]. split; [lia|].
  rewrite H4, H2, (stop_between_split (n_awaits a) (n_awaits b) (n_awaits c))
    by lia.
  by rewrite negb_orb, andb_assoc.
Qed.

Lemma n_awaits_await_point rt :
  n_awaits (await_point E rt) = S (n_awaits rt).
Proof. unfold await_point. by destruct (stop_requested_at E _). Qed.

Lemma is_running_after_await rt :
  is_running (await_point E rt)
  = is_running rt && negb (stop_requested_at E (n_awaits rt)).
Proof.
  unfold await_point. destruct (stop_requested_at E _); cbn.
  - by rewrite andb_false_r.
  - by rewrite andb_true_r.
Qed.

Lemma flag_kept_await rt : flag_kept E rt (await_point E rt).
Proof.
  unfold flag_kept.
  rewrite n_awaits_await_point, is_running_after_await, stop_between_S.
  split; [lia | done].
Qed.

Lemma flag_kept_closed : frame_closed E (flag_kept E).
Proof.
  split.
  - apply flag_kept_refl.
  - apply flag_kept_trans.
  - intros lvl r rt. apply (flag_kept_refl rt).
  - intros d rt. unfold asyncio_sleep.
    match goal with
    | |- flag_kept E rt (await_point E ?x) =>
        apply (flag_kept_trans rt x); [apply (flag_kept_refl rt)|];
        apply flag_kept_await
    end.
  - intros rt. apply (flag_kept_refl rt).
  - intros rt. apply (flag_kept_refl rt).
  - intros rt. apply (flag_kept_refl rt).
Qed.

Lemma flag_kept_requests B : requests_keep E B (flag_kept E).
Proof.
  apply requests_keep_of_send; [apply flag_kept_closed|].
  intros i rq rt. unfold send. cbn [snd].
  match goal with
  | |- flag_kept E rt (await_point E ?x) =>
      apply (flag_kept_trans rt x); [apply (flag_kept_refl rt)|];
      apply flag_kept_await
  end.
Qed.

(** Without a call of [stop()] the flag is what it was. *)
Lemma flag_kept_quiet rt rt' :
  flag_kept E rt rt' ->
  (forall n, (n_awaits rt <= n)%nat -> stop_requested_at E n = false) ->
  is_running rt' = is_running rt
  /\ (forall n, (n_awaits rt' <= n)%nat -> stop_requested_at E n = false).
Proof.
  intros [Hle Hflag] Hnone. split.
  - by rewrite Hflag, stop_between_none, andb_true_r.
  - intros n Hn. apply Hnone. lia.
Qed.
End Flag.

Section SlotReports.
Context (E : env).

Lemma slot_reports_app a b :
  slot_reports (a ++ b) = slot_reports a ++ slot_reports b.
Proof. apply omap_app. Qed.

Lemma slot_failures_app a b :
  slot_failures (a ++ b) = slot_failures a ++ slot_failures b.
Proof. apply omap_app. Qed.

Lemma slot_reports_stop rt : slot_reports (stop_events E rt) = [].
Proof. unfold stop_events. by destruct (stop_requested_at E _). Qed.

Lemma slot_failures_stop rt : slot_failures (stop_events E rt) = [].
Proof. unfold stop_events. by destruct (stop_requested_at E _). Qed.

Lemma announced_counts_stop rt : announced_counts (stop_events E rt) = [].
Proof. unfold stop_events. by destruct (stop_requested_at E _). Qed.

Lemma sleeps_stop rt : sleeps (stop_events E rt) = [].
Proof. unfold stop_events. by destruct (stop_requested_at E _). Qed.

Lemma http_attempts_stop rt : http_attempts (stop_events E rt) = [].
Proof. unfold stop_events. by destruct (stop_requested_at E _). Qed.

(** The session engine logs none of the scheduler's records. *)
Lemma session_event_no_slots sym size evs :
  Forall (session_event sym size) evs ->
  slot_reports evs = [] /\ slot_failures evs = []
  /\ announced_counts evs = [].
Proof.
  induction 1 as [|ev evs Hev _ (IH1 & IH2 & IH3)]; [done|].
  destruct ev as [a rq o|d|lvl r]; [done|done|].
  destruct lvl, r; try done.
Qed.
End SlotReports.

(** ** Runs of [run_daily_cycle] *)

Section SchedulerRuns.
Context (E : env) (B : bot_config).
Let cfg := trading_config B.

(** [run_daily_cycle] up to its loop. *)
Lemma run_daily_cycle_cases s :
  (max_daily_sessions cfg < min_daily_sessions cfg
   /\ run_daily_cycle E B s = (Raise ValueError, (s.1, set_running true s.2)))
  \/ (exists n rt1,
        min_daily_sessions cfg <= n <= max_daily_sessions cfg
        /\ trace rt1 = trace s.2 /\ is_running rt1 = true
        /\ n_awaits rt1 = n_awaits s.2
        /\ run_daily_cycle E B s
           = if n =? 0
             then (Raise ZeroDivisionError,
                   (s.1, log INFO (LogCycleStart n) rt1))
             else
               let final :=
                 cycle_loop E B n (int_truediv 86400 n) (range n)
                   (s.1, log INFO (LogCycleStart n) rt1) in
               (Ok tt, (final.1, log INFO LogCycleCompleted final.2))).
Proof.
  unfold run_daily_cycle, random_randint.
  destruct (max_daily_sessions (trading_config B)
            <? min_daily_sessions (trading_config B)) eqn:Hlt.
  - left. apply Z.ltb_lt in Hlt. done.
  - right. apply Z.ltb_ge in Hlt. cbn [draw].
    eexists _, _. split; [|split; [|split; [|split; [|reflexivity]]]].
    + pose proof (Z.mod_pos_bound (rand_bits E (n_draws (set_running true s.2)))
                    (max_daily_sessions (trading_config B)
                     - min_daily_sessions (trading_config B) + 1)).
      unfold cfg. lia.
    + done.
    + done.
    + done.
Qed.

Lemma cycle_loop_step daily min_delay n rest s s1 r :
  is_running s.2 = true ->
  execute_delta_neutral_session E B s = (r, s1) ->
  cycle_loop E B daily min_delay (n :: rest) s
  = let rt1 := match r with
               | Ok _ => s1.2
               | Raise e => log ERROR (LogSlotFailed (n + 1) e) s1.2
               end in
    let '(delay, rt2) :=
      random_uniform E (min_delay * 0.7)%float (min_delay * 1.3)%float rt1 in
    cycle_loop E B daily min_delay rest
      (s1.1, asyncio_sleep E (float_value delay)
               (log INFO (LogSlotCompleted (n + 1) daily (delay / 60)%float) rt2)).
Proof. intros Hr Hx. cbn [cycle_loop]. rewrite Hr, Hx. reflexivity. Qed.

(** Without symbols no session can be created. *)
Lemma execute_no_symbols s :
  symbols cfg = [] -> active_session s.1 = None ->
  execute_delta_neutral_session E B s = (Raise IndexError, s).
Proof.
  intros Hs Ha. unfold execute_delta_neutral_session. rewrite Ha.
  unfold choose_parameters, bind, random_choice. fold cfg. rewrite Hs.
  by destruct s.
Qed.

Lemma cycle_loop_no_symbols daily min_delay slots : forall s,
  symbols cfg = [] -> active_session s.1 = None ->
  exists evs,
    trace (cycle_loop E B daily min_delay slots s).2 = trace s.2 ++ evs
    /\ (cycle_loop E B daily min_delay slots s).1 = s.1
    /\ http_attempts evs = []
    /\ Forall (fun x : Z * exn => x.2 = IndexError) (slot_failures evs)
    /\ (fun x : Z * Z * Q => x.1.1) <$> slot_reports evs
       = (fun x : Z * exn => x.1) <$> slot_failures evs
    /\ length (sleeps evs) = length (slot_failures evs).
Proof.
  induction slots as [|n rest IH]; intros s Hs Ha.
  { exists []. by rewrite app_nil_r. }
  destruct (is_running s.2) eqn:Hrun.
  2:{ rewrite cycle_loop_stopped by done. exists []. by rewrite app_nil_r. }
  rewrite (cycle_loop_step daily min_delay n rest s s (Raise IndexError) Hrun)
    by (by apply execute_no_symbols).
  cbn zeta.
  set (rt1 := log ERROR (LogSlotFailed (n + 1) IndexError) s.2).
  destruct (random_uniform_spec E (min_delay * 0.7)%float (min_delay * 1.3)%float rt1)
    as (delay & rt2 & Hu & Htr2 & _). rewrite Hu.
  set (rt3 := log INFO (LogSlotCompleted (n + 1) daily (delay / 60)%float) rt2).
  destruct (IH (s.1, asyncio_sleep E (float_value delay) rt3) Hs Ha)
    as (evs & Htr & Hen & Hhttp & Hfail & Hnum & Hsl).
  cbn [fst snd] in *.
  exists ([EvLog ERROR (LogSlotFailed (n + 1) IndexError);
           EvLog INFO (LogSlotCompleted (n + 1) daily (delay / 60)%float);
           EvSleep (float_value delay)] ++ stop_events E rt3 ++ evs).
  split_and!.
  - rewrite Htr, trace_asyncio_sleep. unfold rt3. rewrite trace_log, Htr2.
    unfold rt1. rewrite trace_log, <- !app_assoc. done.
  - done.
  - rewrite !http_attempts_app, http_attempts_stop, Hhttp. done.
  - rewrite !slot_failures_app, slot_failures_stop. cbn.
    constructor; [done | exact Hfail].
  - rewrite !slot_reports_app, !slot_failures_app, slot_reports_stop,
      slot_failures_stop. cbn. by rewrite Hnum.
  - rewrite !sleeps_app, !slot_failures_app, slot_failures_stop,
      sleeps_stop. cbn. by rewrite Hsl.
Qed.

(** A slot that meets no call of [stop()], under a valid
    configuration. *)
Lemma cycle_loop_uninterrupted daily min_delay (len : nat) : forall a s,
  valid_config cfg ->
  active_session s.1 = None -> is_running s.2 = true ->
  (forall n, (n_awaits s.2 <= n)%nat -> stop_requested_at E n = false) ->
  exists evs,
    trace (cycle_loop E B daily min_delay (seqZ a (Z.of_nat len)) s).2
    = trace s.2 ++ evs
    /\ active_session (cycle_loop E B daily min_delay (seqZ a (Z.of_nat len)) s).1
       = None
    /\ is_running (cycle_loop E B daily min_delay (seqZ a (Z.of_nat len)) s).2
       = true
    /\ length (sessions (cycle_loop E B daily min_delay
                           (seqZ a (Z.of_nat len)) s).1)
       = (length (sessions s.1) + len)%nat
    /\ (fun x : Z * Z * Q => x.1) <$> slot_reports evs
       = (fun k => (k + 1, daily)) <$> seqZ a (Z.of_nat len)
    /\ slot_failures evs = [] /\ announced_counts evs = []
    /\ Forall (fun x : Z * Z * Q =>
                 exists delay : float,
                   x.2 = float_value (delay / 60)%float
                   /\ float_value delay ∈ sleeps evs) (slot_reports evs).
Proof.
  induction len as [|len IH]; intros a s Hvalid Hidle Hrun Hnone.
  { exists []. rewrite app_nil_r. cbn. split_and!; try done; lia. }
  rewrite seqZ_cons by lia.
  replace (Z.pred (Z.of_nat (S len))) with (Z.of_nat len) by lia.
  destruct (execute_delta_neutral_session E B s) as [r s1] eqn:Hx.
  pose proof Hx as Hfr.
  apply (preserves_execute E B _ (flag_kept_closed E) (flag_kept_requests E B))
    in Hfr.
  apply flag_kept_quiet in Hfr as [Hrun1 Hnone1]; [|done].
  pose proof Hx as Hout.
  destruct Hvalid as (Hdur & Hdaily & Hsyms).
  apply execute_outcome in Hout
    as [(e & _ & _ & _ & _ & [Hnil | Hlt])
       | (-> & sess & evs1 & size & Htr1 & Hen1 & _ & _ & _ & Hall & _)];
    [done | unfold cfg in *; lia | | done].
  rewrite (cycle_loop_step daily min_delay a _ s s1 (Ok tt) Hrun Hx).
  cbn zeta.
  destruct (random_uniform_spec E (min_delay * 0.7)%float (min_delay * 1.3)%float s1.2)
    as (delay & rt2 & Hu & Htr2 & Hr2 & Hrange).
  pose proof (P_random_uniform E (flag_kept E) (flag_kept_closed E)
                (min_delay * 0.7)%float (min_delay * 1.3)%float s1.2) as Hfu.
  rewrite Hu in Hfu |- *. cbn [snd] in Hfu.
  set (rt3 := log INFO (LogSlotCompleted (a + 1) daily (delay / 60)%float) rt2) in *.
  assert (Hf3 : flag_kept E s1.2 (asyncio_sleep E (float_value delay) rt3)).
  { eapply flag_kept_trans; [exact Hfu|].
    eapply flag_kept_trans;
      [apply (Plog E (flag_kept E) (flag_kept_closed E))|].
    apply (Psleep E (flag_kept E) (flag_kept_closed E)). }
  apply flag_kept_quiet in Hf3 as [Hrun3 Hnone3]; [|done].
  destruct (IH (Z.succ a) (s1.1, asyncio_sleep E (float_value delay) rt3))
    as (evs2 & Htr & Hact & Hfin & Hlen & Hnum & Hfail & Hann & Hdel).
  { done. } { by rewrite Hen1. }
  { cbn [snd]. congruence. } { exact Hnone3. }
  cbn [fst snd] in *.
  apply session_event_no_slots in Hall as (Hsr1 & Hsf1 & Han1).
  exists (evs1 ++ [EvLog INFO (LogSlotCompleted (a + 1) daily (delay / 60)%float);
                   EvSleep (float_value delay)] ++ stop_events E rt3 ++ evs2).
  split_and!.
  - rewrite Htr, trace_asyncio_sleep. unfold rt3.
    rewrite trace_log, Htr2, Htr1, <- !app_assoc. done.
  - done.
  - done.
  - rewrite Hlen, Hen1. cbn [sessions]. rewrite length_app. cbn. lia.
  - rewrite !slot_reports_app, slot_reports_stop, Hsr1. cbn.
    rewrite Hnum. done.
  - rewrite !slot_failures_app, slot_failures_stop, Hsf1, Hfail. done.
  - rewrite !announced_counts_app, announced_counts_stop, Han1, Hann. done.
  - rewrite !slot_reports_app, slot_reports_stop, Hsr1. cbn.
    constructor.
    + exists delay. split; [done|].
      rewrite sleeps_app. apply elem_of_app. right.
      change (float_value delay
              ∈ float_value delay :: sleeps (stop_events E rt3 ++ evs2)). left.
    + eapply Forall_impl; [exact Hdel|].
      intros x (d & Hx2 & Hin). exists d. split; [done|].
      rewrite sleeps_app. apply elem_of_app. right.
      change (float_value d
              ∈ float_value delay :: sleeps (stop_events E rt3 ++ evs2)). right.
      rewrite sleeps_app. apply elem_of_app. by right.
Qed.
End SchedulerRuns.

(** ** The daily cycle *)

Section SchedulerExtras.
Context (E : env) (B : bot_config).
Let cfg := trading_config B.

(** X3.  Of the runs in which the task is not cancelled:
    [run_daily_cycle] raises an [Exception] only before its first
    slot, [ValueError] when the bounds of the daily session count are
    inverted, [ZeroDivisionError] when the count it drew is 0.  In
    both cases the engine is untouched and [is_running] is left set.
    Otherwise it returns normally, having announced a count other
    than 0 first and logged the end of the cycle last, whatever the
    exchange answered in the slots. *)
Theorem run_daily_cycle_outcome s :
  let run := run_daily_cycle E B s in
  let evs := events_since s.2 run.2.2 in
  match run.1 with
  | Ok _ =>
      exists n rest,
        min_daily_sessions cfg <= n <= max_daily_sessions cfg /\ n <> 0
        /\ evs = EvLog INFO (LogCycleStart n)
                 :: rest ++ [EvLog INFO LogCycleCompleted]
  | Raise e =>
      run.2.1 = s.1 /\ is_running run.2.2 = true
      /\ ((e = ValueError
           /\ max_daily_sessions cfg < min_daily_sessions cfg /\ evs = [])
          \/ (e = ZeroDivisionError
              /\ min_daily_sessions cfg <= 0 <= max_daily_sessions cfg
              /\ evs = [EvLog INFO (LogCycleStart 0)]))
  end.
Proof.
  intros run evs. subst run evs.
  destruct (run_daily_cycle_cases E B s)
    as [[Hlt ->] | (n & rt1 & Hn & Htr1 & Hr1 & _ & ->)].
  - cbn [fst snd]. split; [done|]. split; [done|]. left.
    split; [done|]. split; [done|].
    apply events_since_app. by rewrite app_nil_r.
  - destruct (n =? 0) eqn:Hz.
    + apply Z.eqb_eq in Hz. subst n. cbn [fst snd].
      split; [done|]. split; [done|]. right.
      split; [done|]. split; [done|].
      apply events_since_app. by rewrite trace_log, Htr1.
    + apply Z.eqb_neq in Hz. cbn [fst snd].
      destruct (cycle_loop_trace E B n (int_truediv 86400 n) (range n)
                  (s.1, log INFO (LogCycleStart n) rt1)) as (evs & Htr).
      exists n, evs. split; [done|]. split; [done|].
      apply events_since_app. rewrite trace_log, Htr. cbn [snd].
      rewrite trace_log, Htr1, <- !app_assoc. done.
Qed.

(** X4.  [run_daily_cycle] sets [is_running] and never clears it:
    when it is left, by a return or by an exception, the flag is
    false exactly if [stop()] was called at one of the awaits of the
    cycle. *)
Theorem run_daily_cycle_flag s :
  let s' := (run_daily_cycle E B s).2 in
  (n_awaits s.2 <= n_awaits s'.2)%nat
  /\ is_running s'.2
     = negb (stop_between E (n_awaits s.2) (n_awaits s'.2)).
Proof.
  cbn zeta.
  destruct (run_daily_cycle_cases E B s)
    as [[Hlt ->] | (n & rt1 & Hn & Htr1 & Hr1 & Haw & ->)].
  - cbn [snd].
    change (n_awaits (set_running true s.2)) with (n_awaits s.2).
    change (is_running (set_running true s.2)) with true.
    rewrite stop_between_refl. split; [lia | done].
  - destruct (n =? 0).
    + cbn [snd].
      change (n_awaits (log INFO (LogCycleStart n) rt1)) with (n_awaits rt1).
      change (is_running (log INFO (LogCycleStart n) rt1))
        with (is_running rt1).
      rewrite Haw, Hr1, stop_between_refl. split; [lia | done].
    + cbn [snd].
      pose proof (P_cycle_loop E B (flag_kept E) (flag_kept_closed E)
                    (flag_kept_requests E B)
                    n (int_truediv 86400 n) (range n)
                    (s.1, log INFO (LogCycleStart n) rt1)) as [Hle Hflag].
      cbn [snd] in Hle, Hflag.
      change (n_awaits (log INFO (LogCycleStart n) rt1))
        with (n_awaits rt1) in Hle, Hflag.
      change (is_running (log INFO (LogCycleStart n) rt1))
        with (is_running rt1) in Hflag.
      rewrite Haw in Hle, Hflag. rewrite Hr1 in Hflag.
      split; [exact Hle | exact Hflag].
Qed.

(** A whole cycle that meets no call of [stop()]. *)
Lemma uninterrupted_run s res s' :
  valid_config cfg ->
  1 <= min_daily_sessions cfg ->
  active_session s.1 = None ->
  (forall n, (n_awaits s.2 <= n)%nat -> stop_requested_at E n = false) ->
  run_daily_cycle E B s = (res, s') ->
  exists n evs,
    min_daily_sessions cfg <= n <= max_daily_sessions cfg
    /\ res = Ok tt
    /\ events_since s.2 s'.2
       = EvLog INFO (LogCycleStart n) :: evs ++ [EvLog INFO LogCycleCompleted]
    /\ active_session s'.1 = None /\ is_running s'.2 = true
    /\ length (sessions s'.1) = (length (sessions s.1) + Z.to_nat n)%nat
    /\ (fun x : Z * Z * Q => x.1) <$> slot_reports evs
       = (fun k => (k + 1, n)) <$> range n
    /\ slot_failures evs = [] /\ announced_counts evs = []
    /\ Forall (fun x : Z * Z * Q =>
                 exists delay : float,
                   x.2 = float_value (delay / 60)%float
                   /\ float_value delay ∈ sleeps evs) (slot_reports evs).
Proof.
  intros Hvalid Hmin Hidle Hnone Hrun.
  destruct (run_daily_cycle_cases E B s)
    as [[Hlt _] | (n & rt1 & Hn & Htr1 & Hr1 & Haw & Heq)].
  { destruct Hvalid as (_ & Hd & _). fold cfg in Hlt. lia. }
  rewrite Heq in Hrun. clear Heq.
  destruct (n =? 0) eqn:Hz; [apply Z.eqb_eq in Hz; unfold cfg in *; lia|].
  cbn zeta in Hrun. injection Hrun as <- <-.
  assert (Hn1 : 1 <= n) by (unfold cfg in *; lia).
  assert (Hnone' : forall k,
            (n_awaits (log INFO (LogCycleStart n) rt1) <= k)%nat ->
            stop_requested_at E k = false).
  { intros k Hk. apply Hnone. cbn in Hk. lia. }
  destruct (cycle_loop_uninterrupted E B n (int_truediv 86400 n)
              (Z.to_nat n) 0 (s.1, log INFO (LogCycleStart n) rt1)
              Hvalid Hidle Hr1 Hnone')
    as (evs & Htr & Hact & Hfin & Hlen & Hnum & Hfail & Hann & Hdel).
  rewrite Z2Nat.id in * by lia. fold (range n) in *.
  cbn [fst snd] in *.
  exists n, evs. split; [exact Hn|]. split_and!; try done.
  apply events_since_app. rewrite trace_log, Htr.
  rewrite trace_log, Htr1, <- !app_assoc. done.
Qed.

(** X5.  A daily cycle during which [stop()] is never called, under a
    valid configuration with at least one session a day: it returns
    normally after exactly the number of slots [n] it announced.  The
    slots are reported as completed in order, numbered 1 to [n], none
    is reported as failed, every report is followed by a sleep of the
    delay drawn for the slot, of which the report announces the
    sixtieth part as computed in binary64, [n] sessions are added to
    the history, and [is_running] is still set at the end. *)
Theorem uninterrupted_cycle s res s' :
  valid_config cfg ->
  1 <= min_daily_sessions cfg ->
  active_session s.1 = None ->
  (forall n, (n_awaits s.2 <= n)%nat -> stop_requested_at E n = false) ->
  run_daily_cycle E B s = (res, s') ->
  let evs := events_since s.2 s'.2 in
  exists n,
    min_daily_sessions cfg <= n <= max_daily_sessions cfg
    /\ res = Ok tt
    /\ announced_counts evs = [n]
    /\ (fun x : Z * Z * Q => x.1) <$> slot_reports evs
       = (fun k => (k + 1, n)) <$> range n
    /\ slot_failures evs = []
    /\ Forall (fun x : Z * Z * Q =>
                 exists delay : float,
                   x.2 = float_value (delay / 60)%float
                   /\ float_value delay ∈ sleeps evs) (slot_reports evs)
    /\ length (sessions s'.1) = (length (sessions s.1) + Z.to_nat n)%nat
    /\ active_session s'.1 = None
    /\ is_running s'.2 = true.
Proof.
  intros Hvalid Hmin Hidle Hnone Hrun evs. subst evs.
  destruct (uninterrupted_run s res s' Hvalid Hmin Hidle Hnone Hrun)
    as (n & evs & Hn & Hres & -> & Hact & Hfin & Hlen & Hnum & Hfail & Hann
        & Hdel).
  assert (Hsr : slot_reports (EvLog INFO (LogCycleStart n)
                              :: evs ++ [EvLog INFO LogCycleCompleted])
                = slot_reports evs).
  { change (?x :: ?l) with ([x] ++ l).
    rewrite !slot_reports_app. cbn. by rewrite app_nil_r. }
  assert (Hsf : slot_failures (EvLog INFO (LogCycleStart n)
                               :: evs ++ [EvLog INFO LogCycleCompleted])
                = slot_failures evs).
  { change (?x :: ?l) with ([x] ++ l).
    rewrite !slot_failures_app. cbn. by rewrite app_nil_r. }
  assert (Hsl : sleeps (EvLog INFO (LogCycleStart n)
                        :: evs ++ [EvLog INFO LogCycleCompleted])
                = sleeps evs).
  { change (?x :: ?l) with ([x] ++ l).
    rewrite !sleeps_app. cbn. by rewrite app_nil_r. }
  exists n. rewrite Hsr, Hsf, Hsl.
  split; [exact Hn|]. split; [done|]. split.
  { change (?x :: ?l) with ([x] ++ l).
    rewrite !announced_counts_app, Hann. done. }
  split_and!; done.
Qed.

(** X7.  With an empty symbol list the cycle trades nothing: it makes
    no HTTP request and leaves the engine as it was, every slot it
    runs is reported as failed with [IndexError], and is reported as
    completed and waited for all the same. *)
Theorem cycle_without_symbols s :
  symbols cfg = [] ->
  active_session s.1 = None ->
  let run := run_daily_cycle E B s in
  let evs := events_since s.2 run.2.2 in
  run.2.1 = s.1
  /\ http_attempts evs = []
  /\ Forall (fun x : Z * exn => x.2 = IndexError) (slot_failures evs)
  /\ (fun x : Z * Z * Q => x.1.1) <$> slot_reports evs
     = (fun x : Z * exn => x.1) <$> slot_failures evs
  /\ length (sleeps evs) = length (slot_failures evs).
Proof.
  intros Hsyms Hidle run evs. subst run evs.
  destruct (run_daily_cycle_cases E B s)
    as [[Hlt ->] | (n & rt1 & Hn & Htr1 & Hr1 & _ & ->)].
  { cbn [fst snd].
    rewrite (events_since_app s.2 (set_running true s.2) [])
      by (by rewrite app_nil_r).
    done. }
  destruct (n =? 0).
  { cbn [fst snd].
    rewrite (events_since_app s.2 _ [EvLog INFO (LogCycleStart n)])
      by (by rewrite trace_log, Htr1).
    done. }
  cbn zeta. cbn [fst snd].
  destruct (cycle_loop_no_symbols E B n (int_truediv 86400 n)
              (range n) (s.1, log INFO (LogCycleStart n) rt1) Hsyms Hidle)
    as (evs & Htr & Hen & Hhttp & Hfail & Hnum & Hsl).
  cbn [fst snd] in *.
  rewrite (events_since_app s.2 _
             ([EvLog INFO (LogCycleStart n)] ++ evs
              ++ [EvLog INFO LogCycleCompleted])).
  2:{ rewrite trace_log, Htr, trace_log, Htr1, <- !app_assoc. done. }
  split; [done|].
  rewrite !http_attempts_app, !slot_failures_app, !slot_reports_app,
    !sleeps_app, Hhttp.
  cbn. rewrite !app_nil_r. done.
Qed.
End SchedulerExtras.

(** ** [get_open_orders] and [close_all_orders] *)

Section GatewayExtras.
Context (E : env) (B : bot_config).
Let max := max_retries (trading_config B).

Lemma cancel_reports_app a b :
  cancel_reports (a ++ b) = cancel_reports a ++ cancel_reports b.
Proof. apply omap_app. Qed.

(** The executor logs none of the cancellation records. *)
Lemma executor_event_no_reports i rq evs :
  Forall (executor_event i rq) evs -> cancel_reports evs = [].
Proof.
  induction 1 as [|ev evs Hev _ IH]; [done|].
  destruct ev as [a rq' o|d|lvl r]; [done|done|].
  destruct lvl, r; try done.
Qed.

(** The requests of one gateway call. *)
Lemma call_events_requests b i m ep kw r evs :
  call_events b i m ep kw r evs ->
  Forall (fun x : nat * request * attempt_outcome =>
            x.1.1 = i /\ req_method x.1.2 = m /\ req_endpoint x.1.2 = ep
            /\ req_kwargs x.1.2 = kw) (http_attempts evs)
  /\ cancel_reports evs = [].
Proof.
  intros (rq & Hm & Hep & Hkw & Hall & _). split.
  - apply http_attempts_executor in Hall.
    eapply Forall_impl; [exact Hall|].
    intros [[a rq'] o] [Ha Hrq]. cbn in *. by subst.
  - by apply (executor_event_no_reports i rq).
Qed.

(** X8.  [get_open_orders] sends GET requests to
    [/private/orders/open] for the account, with the symbol as query
    parameter unless it is missing or empty.  What it returns is the
    [orders] entry of the one answered response, or the empty list
    when the response has no such entry; when the answered body is not
    a JSON object it raises [AttributeError]. *)
Theorem get_open_orders_result i sym rt r rt' :
  get_open_orders E B i sym rt = (r, rt') ->
  let evs := events_since rt rt' in
  Forall (fun x : nat * request * attempt_outcome =>
            x.1.1 = i /\ req_method x.1.2 = "GET"
            /\ req_endpoint x.1.2 = "/private/orders/open"
            /\ req_kwargs x.1.2
               = QueryParams
                   match sym with
                   | Some s => if String.eqb s "" then [] else [("symbol", s)]
                   | None => []
                   end) (http_attempts evs)
  /\ match r with
     | Ok v =>
         exists rq kv,
           answered evs = [(i, rq, JDict kv)]
           /\ v = default (JList []) (assoc "orders" kv)
     | Raise e =>
         answered evs = []
         \/ (e = AttributeError
             /\ exists rq d, answered evs = [(i, rq, d)]
                  /\ forall kv, d <> JDict kv)
     end.
Proof.
  intros H evs. subst evs. unfold get_open_orders in H.
  apply bind_inv in H as [(resp & rt1 & H1 & H) | (e & H1 & ->)];
    apply make_request_general in H1 as (evs & Htr & Hc);
    pose proof (call_events_requests _ _ _ _ _ _ _ Hc) as [Hreq _].
  - injection H as <- <-. rewrite (events_since_app _ _ _ Htr).
    split; [exact Hreq|].
    destruct Hc as (rq & _ & _ & _ & _ & Hans).
    destruct resp as [| | | | | |kv]; cbn [dict_get];
      try (destruct Hans as [(_ & Hans & _) | (_ & _ & ->)];
           [right; split; [done|]; eexists rq, _; split; [exact Hans | done]
           | by left]).
    destruct Hans as [(_ & Hans & _) | (_ & [=] & _)].
    exists rq, kv. split; [done|]. by destruct (assoc "orders" kv).
  - rewrite (events_since_app _ _ _ Htr). split; [exact Hreq|].
    destruct Hc as (rq & _ & _ & _ & _ & Hans). by left.
Qed.

(** The loop of [close_all_orders] over order records that have an
    [id], followed by nothing or by a record without one. *)
Lemma cancel_each_reports i good ids rest :
  Forall2 (fun o v => subscript o "id" = Ok v) good ids ->
  match rest with
  | [] => True
  | bad :: _ => exists e, subscript bad "id" = Raise e
  end ->
  forall rt r rt',
    cancel_each E B i (good ++ rest) rt = (r, rt') ->
    exists evs,
      trace rt' = trace rt ++ evs
      /\ match rest with
         | [] => r = Ok tt
         | bad :: _ => forall e, subscript bad "id" = Raise e -> r = Raise e
         end
      /\ (fun x : json * nat * bool => x.1) <$> cancel_reports evs
         = (fun v => (v, i)) <$> ids
      /\ Forall (fun x : nat * request * attempt_outcome =>
                   x.1.1 = i /\ req_method x.1.2 = "DELETE"
                   /\ exists v, v ∈ ids
                        /\ req_endpoint x.1.2
                           = "/private/orders/" +:+ str_of_json E v)
           (http_attempts evs).
Proof.
  intros Hids Hstop.
  induction Hids as [|o v good ids Ho _ IH]; intros rt r rt' H.
  - cbn [app] in H. exists []. rewrite app_nil_r.
    destruct rest as [|bad tl].
    + injection H as <- <-. by repeat split.
    + destruct Hstop as (e & He). cbn [cancel_each] in H. rewrite He in H.
      injection H as <- <-. split; [done|]. split; [|by split].
      intros e' He'. congruence.
  - cbn [app cancel_each] in H. rewrite Ho in H.
    destruct (cancel_order E B i v rt) as [r1 rt1] eqn:Hc.
    unfold cancel_order in Hc.
    apply make_request_general in Hc as (evs1 & Htr1 & Hc).
    apply call_events_requests in Hc as [Hreq1 Hrep1].
    set (ev := match r1 with
               | Ok _ => EvLog INFO (LogCancelled v i)
               | Raise e => EvLog ERROR (LogCancelFailed v i e)
               end).
    assert (Hnext : exists rtl,
              trace rtl = trace rt1 ++ [ev]
              /\ cancel_each E B i (good ++ rest) rtl = (r, rt')).
    { destruct r1 as [d|e]; eexists; (split; [|exact H]); apply trace_log. }
    destruct Hnext as (rtl & Htrl & Hrest).
    apply IH in Hrest as (evs2 & Htr2 & Hres & Hrep2 & Hreq2).
    exists (evs1 ++ [ev] ++ evs2). split.
    { rewrite Htr2, Htrl, Htr1, <- !app_assoc. done. }
    split; [exact Hres|]. split.
    + rewrite !cancel_reports_app, Hrep1. cbn [app].
      rewrite fmap_app, Hrep2. unfold ev. by destruct r1.
    + rewrite !http_attempts_app.
      replace (http_attempts [ev]) with (@nil (nat * request * attempt_outcome))
        by (unfold ev; by destruct r1).
      cbn [app]. apply Forall_app. split.
      * eapply Forall_impl; [exact Hreq1|].
        intros x (Ha & Hm & Hep & _). split; [done|]. split; [done|].
        exists v. split; [left | done].
      * eapply Forall_impl; [exact Hreq2|].
        intros x (Ha & Hm & w & Hw & Hep). split; [done|]. split; [done|].
        exists w. split; [by right | done].
Qed.

(** X9.  [close_all_orders] after a listing of order records: the
    orders are taken in the order of the listing, and for each one
    that has an [id] exactly one outcome is logged, cancelled or
    failed, a failed cancellation not stopping the loop.  When every
    record has an [id] the call returns normally whatever the
    cancellations answered.  At the first record without an [id] the
    call raises the error of [order['id']], and neither that order nor
    a later one is cancelled.  Every DELETE it sends goes to
    [/private/orders/<id>] of an order processed. *)
Theorem close_all_orders_reports i sym rt rt0 good ids rest r rt' :
  get_open_orders E B i (Some sym) rt = (Ok (JList (good ++ rest)), rt0) ->
  Forall2 (fun o v => subscript o "id" = Ok v) good ids ->
  match rest with
  | [] => True
  | bad :: _ => exists e, subscript bad "id" = Raise e
  end ->
  close_all_orders E B i sym rt = (r, rt') ->
  let evs := events_since rt0 rt' in
  match rest with
  | [] => r = Ok tt
  | bad :: _ => forall e, subscript bad "id" = Raise e -> r = Raise e
  end
  /\ (fun x : json * nat * bool => x.1) <$> cancel_reports evs
     = (fun v => (v, i)) <$> ids
  /\ Forall (fun x : nat * request * attempt_outcome =>
               x.1.1 = i /\ req_method x.1.2 = "DELETE"
               /\ exists v, v ∈ ids
                    /\ req_endpoint x.1.2
                       = "/private/orders/" +:+ str_of_json E v)
       (http_attempts evs).
Proof.
  intros Hlist Hids Hstop H evs. subst evs.
  unfold close_all_orders in H. unfold bind at 1 in H.
  rewrite Hlist in H. rewrite bind_lift_result in H. cbn [iterate] in H.
  apply (cancel_each_reports i good ids rest Hids Hstop) in H
    as (evs & Htr & Hres).
  by rewrite (events_since_app _ _ _ Htr).
Qed.
End GatewayExtras.

(** ** Traces only grow; answers to orders *)

Section TraceGrows.
Context (E : env).

Lemma trace_grows_closed : frame_closed E trace_grows.
Proof.
  split.
  - intros rt. exists []. by rewrite app_nil_r.
  - intros a b c [e1 H1] [e2 H2]. exists (e1 ++ e2).
    by rewrite H2, H1, app_assoc.
  - intros lvl r rt. by eexists [_].
  - intros d rt. eexists. apply trace_asyncio_sleep.
  - intros rt. exists []. by rewrite app_nil_r.
  - intros rt. exists []. by rewrite app_nil_r.
  - intros rt. exists []. by rewrite app_nil_r.
Qed.

Lemma trace_grows_requests B : requests_keep E B trace_grows.
Proof.
  apply requests_keep_of_send; [apply trace_grows_closed|].
  intros i rq rt. destruct (send_spec E i rq rt) as (rt1 & -> & Htr & _).
  by eexists.
Qed.
End TraceGrows.

Section Answers.
Context (E : env).

Lemma order_answers_app a b :
  order_answers (a ++ b) = order_answers a ++ order_answers b.
Proof. unfold order_answers. by rewrite answered_app, omap_app. Qed.


(** Answers and placed orders are the same requests. *)
Lemma order_answers_accounts evs :
  (fun x : nat * json => x.1) <$> order_answers evs
  = (fun x : nat * order_data => x.1) <$> placed_orders evs.
Proof.
  unfold order_answers, placed_orders.
  induction (answered evs) as [|[[a rq] d] l IH]; [done|].
  rewrite !omap_cons_match. destruct (order_of_request rq); cbn; by rewrite ?IH.
Qed.

Lemma order_answers_none evs : placed_orders evs = [] -> order_answers evs = [].
Proof.
  intros H. pose proof (order_answers_accounts evs) as Ha. rewrite H in Ha.
  by apply fmap_nil_inv in Ha.
Qed.

Lemma order_answers_stop rt : order_answers (stop_events E rt) = [].
Proof. unfold stop_events. by destruct (stop_requested_at E _). Qed.


Lemma order_bodies_stop rt : order_bodies (stop_events E rt) = [].
Proof. unfold stop_events. by destruct (stop_requested_at E _). Qed.


(** The answer to an order that was placed. *)
Lemma call_events_answer b i od d evs :
  call_events b i "POST" "/private/orders" (JsonBody od) (Ok d) evs ->
  1 <= b -> order_answers evs = [(i, d)].
Proof.
  intros (rq & Hm & Hep & Hkw & _ & Hans) Hb.
  destruct Hans as [(_ & Ha & _) | (? & _)]; [|lia].
  unfold order_answers, order_of_request. rewrite Ha. cbn.
  by rewrite Hm, Hep, Hkw.
Qed.

(** Events none of which carries an order body: they have to agree
    with the orders of every size. *)
Lemma no_bodies sym evs :
  (forall size, Forall (session_event sym size) evs) -> order_bodies evs = [].
Proof.
  intros H.
  pose proof (order_bodies_session sym 0%float evs (H 0%float)) as H0.
  pose proof (order_bodies_session sym 1%float evs (H 1%float)) as H1.
  destruct (order_bodies evs) as [|od l]; [done|].
  apply Forall_cons_1 in H0 as [(s0 & ->) _].
  apply Forall_cons_1 in H1 as [(s1 & Heq) _].
  apply (f_equal (fun od => (od_quantity od =? 0)%float)) in Heq.
  vm_compute in Heq. discriminate.
Qed.
End Answers.

(** ** The anatomy of a session that settles *)

Section Anatomy.
Context (E : env) (B : bot_config).
Let max := max_retries (trading_config B).
Let cfg := trading_config B.

Lemma bind_ok_inv {St A C} (m : M St A) (k : A -> M St C) s v s' :
  bind m k s = (Ok v, s') ->
  exists a s1, m s = (Ok a, s1) /\ k a s1 = (Ok v, s').
Proof.
  intros H. apply bind_inv in H as [H | (e & _ & [=])]. exact H.
Qed.

(** The two opening orders, when both are answered. *)
Lemma place_pair_ok sym side1 side2 size s o1 o2 s' :
  bind (lift_rt (place_order E B 0 sym side1 MARKET size None)) (fun a =>
    bind (lift_rt (place_order E B 1 sym side2 MARKET size None)) (fun b =>
      ret (a, b))) s = (Ok (o1, o2), s') ->
  1 <= max ->
  exists evs,
    trace s'.2 = trace s.2 ++ evs /\ s'.1 = s.1
    /\ order_answers evs = [(0%nat, o1); (1%nat, o2)]
    /\ placed_orders evs
       = [(0%nat, market_order sym side1 size);
          (1%nat, market_order sym side2 size)]
    /\ market_documents evs = [] /\ pnl_reports evs = [].
Proof.
  intros H Hmax.
  apply bind_ok_inv in H as (a & s1 & H1 & H).
  apply lift_rt_inv in H1 as (rt1 & H1 & ->).
  apply make_request_general in H1 as (evs1 & Htr1 & Hc1).
  pose proof (call_events_answer _ _ _ _ _ Hc1 Hmax) as Ha1.
  apply call_events_order in Hc1 as (_ & Hm1 & Hp1 & Ho1).
  apply bind_ok_inv in H as (b & s2 & H2 & H).
  apply lift_rt_inv in H2 as (rt2 & H2 & ->).
  apply make_request_general in H2 as (evs2 & Htr2 & Hc2).
  pose proof (call_events_answer _ _ _ _ _ Hc2 Hmax) as Ha2.
  apply call_events_order in Hc2 as (_ & Hm2 & Hp2 & Ho2).
  injection H as <- <- <-. cbn [fst snd] in *.
  destruct (Ho1 Hmax) as [Hpl1 _], (Ho2 Hmax) as [Hpl2 _].
  exists (evs1 ++ evs2). split_and!.
  - by rewrite Htr2, Htr1, <- app_assoc.
  - done.
  - by rewrite order_answers_app, Ha1, Ha2.
  - by rewrite placed_orders_app, Hpl1, Hpl2.
  - by rewrite market_documents_app, Hm1, Hm2.
  - by rewrite pnl_reports_app, Hp1, Hp2.
Qed.

(** The opening phase when it succeeds. *)
Lemma open_positions_ok r sid sym long s price size s' :
  open_positions E B r sid sym long s = (Ok (price, size), s') ->
  exists evs md o1 o2 id1 id2,
    trace s'.2 = trace s.2 ++ evs
    /\ s'.1 = update_session r
                (set_account2_order_id id2 ∘ set_account1_order_id id1) s.1
    /\ 1 <= max
    /\ market_documents evs = [md] /\ last_price_of E md = Ok price
    /\ order_answers evs = [(0%nat, o1); (1%nat, o2)]
    /\ subscript o1 "id" = Ok id1 /\ subscript o2 "id" = Ok id2
    /\ placed_orders evs = opening_orders sym long size
    /\ EvLog INFO (LogOpened sid id1 id2 size price) ∈ evs
    /\ pnl_reports evs = [].
Proof.
  intros H. unfold open_positions in H.
  apply bind_ok_inv in H as (md & s1 & H1 & H).
  apply get_market_data_run in H1
    as (evs1 & Hen1 & Htr1 & Hs1 & Hpl1 & Hdc1 & Hpn1 & Hmd1).
  rewrite bind_lift_result in H.
  destruct (subscript md "last_price") as [lp|e] eqn:Hlp; [|done].
  rewrite bind_lift_result in H.
  destruct (py_float E lp) as [p|e] eqn:Hprice; [|done].
  destruct Hmd1 as [[Hmax Hmd1] | (_ & -> & _)]; [|discriminate].
  apply bind_ok_inv in H as (sz & s2 & H2 & H).
  assert (Hs2 : s2.1 = s1.1 /\ trace s2.2 = trace s1.2).
  { unfold uniform_size in H2.
    destruct (random_uniform_spec E
                (max_position_size (trading_config B) * 0.3)%float
                (max_position_size (trading_config B)) s1.2)
      as (x & rt2 & Hu & Htr2 & _).
    rewrite Hu in H2. by injection H2 as <- <-. }
  destruct Hs2 as [Hen2 Htr2].
  apply bind_ok_inv in H as ([o1 o2] & s3 & H3 & H).
  assert (Hpair : exists evs3,
            trace s3.2 = trace s2.2 ++ evs3 /\ s3.1 = s2.1
            /\ order_answers evs3 = [(0%nat, o1); (1%nat, o2)]
            /\ placed_orders evs3 = opening_orders sym long sz
            /\ market_documents evs3 = [] /\ pnl_reports evs3 = []).
  { destruct long; by apply place_pair_ok in H3. }
  destruct Hpair as (evs3 & Htr3 & Hen3 & Ha3 & Hpl3 & Hmd3 & Hpn3).
  cbn [fst snd] in H.
  rewrite bind_lift_result in H.
  destruct (dict_get o1 "id" JNull) as [id1|e] eqn:Hid1; [|done].
  rewrite bind_on_engine, bind_lift_result in H. cbn [fst snd] in H.
  destruct (dict_get o2 "id" JNull) as [id2|e] eqn:Hid2; [|done].
  rewrite bind_on_engine, bind_lift_result in H. cbn [fst snd] in H.
  rewrite update_session_compose in H.
  destruct (subscript o1 "id") as [shown1|e] eqn:Hsh1; [|done].
  rewrite bind_lift_result in H.
  destruct (subscript o2 "id") as [shown2|e] eqn:Hsh2; [|done].
  rewrite bind_on_runtime in H. cbn [fst snd] in H.
  injection H as <- <- <-. cbn [fst snd].
  assert (Hsame : forall o v w,
            dict_get o "id" JNull = Ok v -> subscript o "id" = Ok w -> v = w).
  { intros o v w Hd Hsub. destruct o; try done. cbn in Hd, Hsub.
    destruct (assoc "id" kv); congruence. }
  rewrite (Hsame o1 id1 shown1 Hid1 Hsh1), (Hsame o2 id2 shown2 Hid2 Hsh2).
  exists (evs1 ++ evs3 ++ [EvLog INFO (LogOpened sid shown1 shown2 sz p)]),
    md, o1, o2, shown1, shown2.
  split_and!; try done.
  - by rewrite trace_log, Htr3, Htr2, Htr1, <- !app_assoc.
  - by rewrite Hen3, Hen2, Hen1.
  - by rewrite !market_documents_app, Hmd1, Hmd3.
  - unfold last_price_of. by rewrite Hlp.
  - rewrite !order_answers_app, (order_answers_none evs1 Hpl1), Ha3. done.
  - rewrite !placed_orders_app, Hpl1, Hpl3. done.
  - apply elem_of_app. right. apply elem_of_app. right. left.
  - rewrite !pnl_reports_app, Hpn1, Hpn3. done.
Qed.

(** A run of the [try] block that reaches its end. *)
Lemma session_body_ok r sid sym long dur s s' :
  session_body E B r sid sym long dur s = (Ok tt, s') ->
  exists evs_o evs_r o1 o2 o3 o4 id1 id2 price size t,
    trace s'.2 = trace s.2 ++ evs_o ++ EvSleep (inject_Z dur) :: evs_r
    /\ s'.1 = update_session r
                (set_closed true ∘ set_end_time t
                 ∘ (set_account2_order_id id2 ∘ set_account1_order_id id1)) s.1
    /\ placed_orders evs_o = opening_orders sym long size
    /\ placed_orders evs_r = closing_orders sym long size
    /\ order_answers evs_o = [(0%nat, o1); (1%nat, o2)]
    /\ order_answers evs_r = [(0%nat, o3); (1%nat, o4)]
    /\ subscript o1 "id" = Ok id1 /\ subscript o2 "id" = Ok id2
    /\ EvLog INFO (LogOpened sid id1 id2 size price) ∈ evs_o
    /\ pnl_reports evs_o = [] /\ pnl_reports evs_r <> [].
Proof.
  intros H. unfold session_body in H.
  apply bind_ok_inv in H as ([price size] & s1 & H1 & H).
  apply open_positions_ok in H1
    as (evs1 & md & o1 & o2 & id1 & id2 & Htr1 & Hen1 & Hmax & Hmd1 & Hlp1
        & Ha1 & Hid1 & Hid2 & Hpl1 & Hlog & Hpn1).
  rewrite bind_on_runtime in H. cbn [fst snd] in H.
  apply bind_ok_inv in H as ([] & s2 & H2 & H).
  apply close_positions_spec in H2
    as (evs2 & Htr2 & Hen2 & Hs2 & Hpn2 & Hmd2 & Hpl2).
  apply settle_spec in H
    as (evs4 & t & Htr4 & Hen4 & Hs4 & Hpl4 & Hdc4 & Hres4).
  cbn [fst snd] in *.
  destruct (Hpl2 Hmax) as [Hpl2a _].
  destruct Hres4 as (md2 & close & Hmd4 & Hlp4 & Hz & Hpn4).
  set (evs_r := stop_events E s1.2 ++ evs2 ++ evs4).
  assert (Hplr : placed_orders evs_r = closing_orders sym long size).
  { unfold evs_r. rewrite !placed_orders_app, placed_orders_stop, Hpl2a, Hpl4.
    by rewrite app_nil_r. }
  assert (Har : exists o3 o4, order_answers evs_r = [(0%nat, o3); (1%nat, o4)]).
  { pose proof (order_answers_accounts evs_r) as Hacc. rewrite Hplr in Hacc.
    destruct (order_answers evs_r) as [|[a3 o3] [|[a4 o4] [|? ?]]]; try done.
    cbn in Hacc. injection Hacc as -> ->. by exists o3, o4. }
  destruct Har as (o3 & o4 & Har).
  exists evs1, evs_r, o1, o2, o3, o4, id1, id2, price, size, t.
  split_and!; try done.
  - rewrite Htr4, Htr2, trace_asyncio_sleep, Htr1. unfold evs_r.
    rewrite <- !app_assoc. done.
  - rewrite Hen4, Hen2, Hen1. by rewrite update_session_compose.
  - unfold evs_r. rewrite !pnl_reports_app, pnl_reports_stop, Hpn2, Hpn4.
    done.
Qed.
End Anatomy.

(** ** The session engine *)

Section EngineExtras.
Context (E : env) (B : bot_config).
Let max := max_retries (trading_config B).
Let cfg := trading_config B.

(** Why [choose_parameters] raises. *)
Lemma choose_parameters_raise rt e rt' :
  choose_parameters E B rt = (Raise e, rt') ->
  (e = IndexError /\ symbols cfg = [])
  \/ (e = ValueError /\ symbols cfg <> []
      /\ max_session_duration cfg < min_session_duration cfg).
Proof.
  unfold choose_parameters, bind. fold cfg.
  destruct (random_choice_spec E (symbols cfg) rt)
    as [[Hnil ->] | (sym & rt1 & -> & Hsym & _)].
  { intros [= <- <-]. by left. }
  destruct (random_choice_spec E [true; false] rt1)
    as [[? _] | (long & rt2 & -> & _)]; [done|].
  destruct (random_randint_spec E (min_session_duration cfg)
              (max_session_duration cfg) rt2)
    as [[Hlt ->] | (_ & dur & rt3 & -> & _)]; [|done].
  intros [= <- <-]. right. split; [done|]. split; [|done].
  intros Hnil. rewrite Hnil in Hsym. by apply elem_of_nil in Hsym.
Qed.

(** X10.  Of the runs in which the task is not cancelled: from an
    idle engine [execute_delta_neutral_session] raises an [Exception]
    only while it chooses the parameters of the session, [IndexError]
    when the symbol list is empty, [ValueError] when the duration
    bounds are inverted.  Then no session was created and nothing was
    logged or sent.  With symbols and ordered bounds it returns
    normally, whatever the exchange answers. *)
Theorem session_raises_only_on_parameters s :
  active_session s.1 = None ->
  let run := execute_delta_neutral_session E B s in
  match run.1 with
  | Raise e =>
      run.2.1 = s.1 /\ trace run.2.2 = trace s.2
      /\ ((e = IndexError /\ symbols cfg = [])
          \/ (e = ValueError /\ symbols cfg <> []
              /\ max_session_duration cfg < min_session_duration cfg))
  | Ok _ =>
      symbols cfg <> []
      /\ min_session_duration cfg <= max_session_duration cfg
  end.
Proof.
  intros Hidle run. subst run.
  destruct (execute_delta_neutral_session E B s) as [res s'] eqn:H.
  cbn [fst snd]. pose proof H as Hout.
  apply execute_outcome in Hout
    as [(e & -> & Hen & Htr & _)
       | (-> & sess & evs & size & _ & _ & Hsym & Hdur & _)]; [| |done].
  - split; [done|]. split; [done|].
    unfold execute_delta_neutral_session in H. rewrite Hidle in H.
    destruct (choose_parameters E B s.2) as [[[[sym long] dur]|e'] rt1] eqn:Hc.
    + cbn [fresh_uuid read_clock register_session] in H.
      match type of H with
      | context [session_body E B ?r ?sid ?sy ?lo ?du ?st] =>
          destruct (session_body E B r sid sy lo du st) as [[v|e''] sb]
      end; discriminate.
    + injection H as <- _. by apply choose_parameters_raise in Hc.
  - split; [|unfold cfg; lia].
    intros Hnil. unfold cfg in Hnil. rewrite Hnil in Hsym.
    by apply elem_of_nil in Hsym.
Qed.

(** A session that settles ran its [try] block to the end. *)
Lemma execute_settled s res s' :
  active_session s.1 = None ->
  execute_delta_neutral_session E B s = (res, s') ->
  settled (events_since s.2 s'.2) ->
  exists sess0 rt4 sb,
    res = Ok tt
    /\ closed sess0 = false
    /\ trace rt4 = trace s.2
         ++ [EvLog INFO (LogSessionStart (session_id sess0) (symbol sess0)
                           (account1_long sess0) (planned_duration sess0))]
    /\ session_body E B (length (heap s.1)) (session_id sess0) (symbol sess0)
         (account1_long sess0) (planned_duration sess0)
         ({| heap := heap s.1 ++ [sess0];
             sessions := sessions s.1 ++ [length (heap s.1)];
             active_session := Some (length (heap s.1)) |}, rt4)
       = (Ok tt, sb)
    /\ s'.1 = set_active None sb.1 /\ s'.2 = sb.2.
Proof.
  intros Hidle H Hset.
  apply execute_spec in H
    as [(e & _ & _ & Htr & _)
       | (-> & sess0 & rt4 & bres & sb & _ & _ & Hcl & _ & Htr4 & Hbody
          & Hen & Hrt)]; [| |done].
  { rewrite (events_since_app _ _ []) in Hset by (by rewrite app_nil_r).
    by destruct Hset. }
  destruct bres as [[]|e]; [by exists sess0, rt4, sb|].
  exfalso. apply Hset.
  apply session_body_spec in Hbody as (evsb & size & Htrb & _ & _ & Hcases).
  cbn [fst snd] in Htrb.
  assert (Hpn : pnl_reports evsb = []).
  { destruct Hcases as [(f & e' & _ & _ & _ & Hpn)
                       | (f & t & _ & _ & _ & _ & Hpn)]; done. }
  destruct (cleanup_quiet E B (symbol sess0)
              (log ERROR (LogSessionFailed (session_id sess0) e) sb.2))
    as (evsc & Htrc & _ & _ & _ & Hpnc & _).
  rewrite (events_since_app s.2 s'.2
             ([EvLog INFO (LogSessionStart (session_id sess0) (symbol sess0)
                             (account1_long sess0) (planned_duration sess0))]
              ++ evsb ++ [EvLog ERROR (LogSessionFailed (session_id sess0) e)]
              ++ evsc)).
  2:{ rewrite Hrt, Htrc, trace_log, Htrb, Htr4, <- !app_assoc. done. }
  rewrite !pnl_reports_app, Hpn, Hpnc. done.
Qed.

(** What a settled session leaves in the heap and in the trace. *)
Lemma settled_anatomy s res s' :
  active_session s.1 = None ->
  execute_delta_neutral_session E B s = (res, s') ->
  settled (events_since s.2 s'.2) ->
  exists sess before after o1 o2 o3 o4 size price,
    heap s'.1 = heap s.1 ++ [sess]
    /\ events_since s.2 s'.2
       = before ++ EvSleep (inject_Z (planned_duration sess)) :: after
    /\ placed_orders before
       = opening_orders (symbol sess) (account1_long sess) size
    /\ placed_orders after
       = closing_orders (symbol sess) (account1_long sess) size
    /\ order_answers before = [(0%nat, o1); (1%nat, o2)]
    /\ order_answers after = [(0%nat, o3); (1%nat, o4)]
    /\ subscript o1 "id" = Ok (account1_order_id sess)
    /\ subscript o2 "id" = Ok (account2_order_id sess)
    /\ EvLog INFO (LogOpened (session_id sess) (account1_order_id sess)
                     (account2_order_id sess) size price) ∈ before
    /\ pnl_reports before = [] /\ pnl_reports after <> [].
Proof.
  intros Hidle H Hset.
  destruct (execute_settled s res s' Hidle H Hset)
    as (sess0 & rt4 & sb & -> & Hcl & Htr4 & Hbody & Hen & Hrt).
  apply session_body_ok in Hbody
    as (evs_o & evs_r & o1 & o2 & o3 & o4 & id1 & id2 & price & size & t
        & Htr & Hsb & Hplo & Hplr & Hao & Har & Hid1 & Hid2 & Hlog
        & Hpno & Hpnr).
  cbn [fst snd] in Htr, Hsb.
  rewrite Hsb, registered_update in Hen.
  set (start := EvLog INFO (LogSessionStart (session_id sess0) (symbol sess0)
                              (account1_long sess0) (planned_duration sess0))) in *.
  eexists _, ([start] ++ evs_o), evs_r, o1, o2, o3, o4, size, price.
  split; [by rewrite Hen|]. cbn.
  split_and!; try done.
  - apply events_since_app. rewrite Hrt, Htr, Htr4, <- !app_assoc. done.
  - by right.
Qed.

(** X11.  In a session that settles the positions are held for the
    planned duration: the sleep of [planned_duration] seconds comes
    after the two opening orders were placed and before the two
    closing orders are, and the profit figures are logged after
    both. *)
Theorem hold_between_orders s res s' :
  active_session s.1 = None ->
  execute_delta_neutral_session E B s = (res, s') ->
  settled (events_since s.2 s'.2) ->
  exists sess size before after,
    heap s'.1 = heap s.1 ++ [sess]
    /\ events_since s.2 s'.2
       = before ++ EvSleep (inject_Z (planned_duration sess)) :: after
    /\ placed_orders before
       = opening_orders (symbol sess) (account1_long sess) size
    /\ placed_orders after
       = closing_orders (symbol sess) (account1_long sess) size
    /\ pnl_reports before = [] /\ pnl_reports after <> [].
Proof.
  intros Hidle H Hset.
  destruct (settled_anatomy s res s' Hidle H Hset)
    as (sess & before & after & o1 & o2 & o3 & o4 & size & price & Hheap
        & Hev & Hplo & Hplr & _ & _ & _ & _ & _ & Hpno & Hpnr).
  by exists sess, size, before, after.
Qed.

(** X12.  The order ids a settled session keeps are those of its
    opening orders: [account1_order_id] and [account2_order_id] are
    the [id] entries of what the first and the second call of
    [place_order] returned, and they are the ids in the log line of
    the opening.  Four calls of [place_order] return a document in
    all - the body of a response with status 200 that decoded - for
    the accounts 0, 1, 0 and 1 in that order; requests that were sent
    again after a transient failure are not counted here. *)
Theorem session_keeps_opening_ids s res s' :
  active_session s.1 = None ->
  execute_delta_neutral_session E B s = (res, s') ->
  settled (events_since s.2 s'.2) ->
  exists sess o1 o2 o3 o4 size price,
    heap s'.1 = heap s.1 ++ [sess]
    /\ order_answers (events_since s.2 s'.2)
       = [(0%nat, o1); (1%nat, o2); (0%nat, o3); (1%nat, o4)]
    /\ subscript o1 "id" = Ok (account1_order_id sess)
    /\ subscript o2 "id" = Ok (account2_order_id sess)
    /\ EvLog INFO (LogOpened (session_id sess) (account1_order_id sess)
                     (account2_order_id sess) size price)
       ∈ events_since s.2 s'.2.
Proof.
  intros Hidle H Hset.
  destruct (settled_anatomy s res s' Hidle H Hset)
    as (sess & before & after & o1 & o2 & o3 & o4 & size & price & Hheap
        & Hev & _ & _ & Hao & Har & Hid1 & Hid2 & Hlog & _).
  exists sess, o1, o2, o3, o4, size, price. rewrite Hev.
  split; [done|]. split; [|split; [done|split; [done|]]].
  - change (?x :: ?l) with ([x] ++ l).
    rewrite !order_answers_app, Hao, Har. done.
  - apply elem_of_app. by left.
Qed.
End EngineExtras.

(** ** The price comes first *)

Section PriceFirst.
Context (E : env) (B : bot_config).
Let max := max_retries (trading_config B).
Let cfg := trading_config B.

(** The opening phase sends no order before it has a price. *)
Lemma open_positions_price_first r sid sym long s res s' :
  open_positions E B r sid sym long s = (res, s') ->
  exists pre post,
    trace s'.2 = trace s.2 ++ pre ++ post
    /\ order_bodies pre = []
    /\ ((exists md price,
           market_documents pre = [md] /\ last_price_of E md = Ok price)
        \/ (post = [] /\ exists e, res = Raise e)).
Proof.
  intros H. unfold open_positions in H.
  apply bind_inv in H as [(md & s1 & H1 & H) | (e & H1 & ->)];
    apply get_market_data_run in H1
      as (evs1 & Hen1 & Htr1 & Hs1 & Hpl1 & Hdc1 & Hpn1 & Hmd1);
    pose proof (no_bodies sym evs1 Hs1) as Hob.
  2:{ exists evs1, []. rewrite app_nil_r. split; [done|]. split; [done|].
      right. split; [done|]. by exists e. }
  rewrite bind_lift_result in H.
  destruct (subscript md "last_price") as [lp|e] eqn:Hlp.
  2:{ injection H as <- <-. exists evs1, []. rewrite app_nil_r.
      split; [done|]. split; [done|]. right. split; [done|]. by exists e. }
  rewrite bind_lift_result in H.
  destruct (py_float E lp) as [p|e] eqn:Hprice.
  2:{ injection H as <- <-. exists evs1, []. rewrite app_nil_r.
      split; [done|]. split; [done|]. right. split; [done|]. by exists e. }
  destruct Hmd1 as [[Hmax Hmd1] | (_ & -> & _)]; [|discriminate].
  eapply (preserves_run trace_grows snd) in H;
    [|preserves_tac (trace_grows_closed E) (trace_grows_requests E B)].
  destruct H as [post Hpost].
  exists evs1, post. split; [by rewrite Hpost, Htr1, app_assoc|].
  split; [done|]. left. exists md, p. split; [done|].
  unfold last_price_of. by rewrite Hlp.
Qed.

(** X13.  No order is sent without a price: in every run of
    [execute_delta_neutral_session] from an idle engine, either no
    request with an order body is made at all, or before the first
    one a market-data document was received for whose [last_price]
    [float()] returned a number: it raised neither [KeyError],
    [TypeError], [ValueError] nor, for an integer beyond the range of
    binary64, [OverflowError]. *)
Theorem no_order_without_price s res s' :
  active_session s.1 = None ->
  execute_delta_neutral_session E B s = (res, s') ->
  let evs := events_since s.2 s'.2 in
  order_bodies evs = []
  \/ exists pre post md price,
       evs = pre ++ post /\ order_bodies pre = []
       /\ market_documents pre = [md] /\ last_price_of E md = Ok price.
Proof.
  intros Hidle H evs. subst evs.
  apply execute_spec in H
    as [(e & _ & _ & Htr & _)
       | (-> & sess0 & rt4 & bres & sb & _ & _ & _ & _ & Htr4 & Hbody
          & Hen & Hrt)]; [| |done].
  { left. by rewrite (events_since_app _ _ []) by (by rewrite app_nil_r). }
  set (start := EvLog INFO (LogSessionStart (session_id sess0) (symbol sess0)
                              (account1_long sess0) (planned_duration sess0))) in *.
  assert (Hend : trace_grows sb.2 s'.2).
  { rewrite Hrt. destruct bres as [[]|e].
    - apply (frame_refl E _ (trace_grows_closed E)).
    - eapply (frame_trans E _ (trace_grows_closed E));
        [apply (Plog E _ (trace_grows_closed E))|].
      apply (P_cleanup E B _ (trace_grows_closed E)
               (trace_grows_requests E B)). }
  unfold session_body in Hbody.
  apply bind_inv in Hbody as [(opened & s1 & H1 & Hrest) | (e & H1 & ->)];
    apply open_positions_price_first in H1
      as (pre & post & Htr1 & Hob & Hprice); cbn [fst snd] in Htr1.
  - destruct Hprice as [(md & price & Hmd & Hlp) | (_ & e & [=])].
    eapply (preserves_run trace_grows snd) in Hrest;
      [|preserves_tac (trace_grows_closed E) (trace_grows_requests E B)].
    destruct Hrest as [post2 Htr2]. destruct Hend as [post3 Htr3].
    right. exists ([start] ++ pre), (post ++ post2 ++ post3), md, price.
    split.
    { apply events_since_app.
      rewrite Htr3, Htr2, Htr1, Htr4, <- !app_assoc. done. }
    split; [by rewrite order_bodies_app, Hob|].
    split; [by rewrite market_documents_app, Hmd | done].
  - destruct Hprice as [(md & price & Hmd & Hlp) | (-> & _)].
    + destruct Hend as [post3 Htr3].
      right. exists ([start] ++ pre), (post ++ post3), md, price.
      split.
      { apply events_since_app.
        rewrite Htr3, Htr1, Htr4, <- !app_assoc. done. }
      split; [by rewrite order_bodies_app, Hob|].
      split; [by rewrite market_documents_app, Hmd | done].
    + left. rewrite app_nil_r in Htr1.
      destruct (cleanup_quiet E B (symbol sess0)
                  (log ERROR (LogSessionFailed (session_id sess0) e) sb.2))
        as (evsc & Htrc & Hsc & _).
      rewrite (events_since_app s.2 s'.2
                 ([start] ++ pre
                  ++ [EvLog ERROR (LogSessionFailed (session_id sess0) e)]
                  ++ evsc)).
      2:{ rewrite Hrt, Htrc, trace_log, Htr1, Htr4, <- !app_assoc. done. }
      rewrite !order_bodies_app, Hob, (no_bodies (symbol sess0) evsc (Hsc _)).
      done.
Qed.
End PriceFirst.

(** ** The journal of the process *)

Section Journal.
Context (E : env).

Lemma process_logs_app a b :
  process_logs (a ++ b) = process_logs a ++ process_logs b.
Proof. apply omap_app. Qed.

Lemma bot_events_app a b : bot_events (a ++ b) = bot_events a ++ bot_events b.
Proof. apply omap_app. Qed.

Lemma balance_reports_app a b :
  balance_reports (a ++ b) = balance_reports a ++ balance_reports b.
Proof. apply omap_app. Qed.

Lemma bot_events_from evs : bot_events (FromBot <$> evs) = evs.
Proof.
  induction evs as [|ev evs IH]; [done|].
  change (bot_events (FromBot <$> ev :: evs))
    with (ev :: bot_events (FromBot <$> evs)).
  by rewrite IH.
Qed.

Lemma process_logs_from evs : process_logs (FromBot <$> evs) = [].
Proof. by induction evs. Qed.

Lemma balance_reports_from evs : balance_reports (FromBot <$> evs) = [].
Proof. by induction evs. Qed.

(** What the events of [close] amount to. *)
Lemma closing_events_quiet evs :
  Forall closing_event evs ->
  process_logs evs = [] /\ balance_reports evs = []
  /\ http_attempts (bot_events evs) = []
  /\ announced_counts (bot_events evs) = []
  /\ sleeps (bot_events evs) = [].
Proof.
  induction 1 as [|ev evs Hev _ (IH1 & IH2 & IH3 & IH4 & IH5)]; [done|].
  destruct ev as [[a rq o|d|lvl r]|t|i|lvl r]; try done.
  destruct lvl, r; try done.
Qed.

(** One client closed. *)
Lemma close_one_spec p index :
  the_bot (close_one E p index)
  = ((the_bot p).1, await_point E (the_bot p).2)
  /\ sessions_per_account (close_one E p index)
     = alter close_client index (sessions_per_account p)
  /\ journal (close_one E p index)
     = journal p ++ ClientClosed index
                    :: (FromBot <$> stop_events E (the_bot p).2).
Proof.
  unfold close_one, call, on_runtime. cbn [fst snd the_bot
    sessions_per_account journal].
  split; [done|]. split; [done|].
  rewrite (events_since_app _ _ _ (trace_await_point E (the_bot p).2)).
  by rewrite <- app_assoc.
Qed.

Lemma closing_event_stop rt :
  Forall closing_event (FromBot <$> stop_events E rt).
Proof.
  unfold stop_events. destruct (stop_requested_at E _); repeat constructor.
Qed.

(** The loop of [close] over the first [k] clients. *)
Lemma close_loop_spec (k : nat) : forall p,
  (k <= length (sessions_per_account p))%nat ->
  let p' := foldl (close_one E) p (seq 0 k) in
  length (sessions_per_account p') = length (sessions_per_account p)
  /\ client_timeout <$> sessions_per_account p'
     = client_timeout <$> sessions_per_account p
  /\ (forall i c, (i < k)%nat -> sessions_per_account p' !! i = Some c ->
        client_closed c = true)
  /\ (the_bot p').1 = (the_bot p).1
  /\ flag_kept E (the_bot p).2 (the_bot p').2
  /\ exists evs, journal p' = journal p ++ evs /\ Forall closing_event evs
       /\ trace (the_bot p').2 = trace (the_bot p).2 ++ bot_events evs.
Proof.
  induction k as [|k IH]; intros p Hk; cbn zeta.
  { cbn. split_and!; try done.
    - intros; lia.
    - apply flag_kept_refl.
    - exists []. by rewrite !app_nil_r. }
  rewrite seq_S, foldl_app. cbn [foldl Nat.add].
  destruct (IH p) as (Hlen & Htm & Hcl & Hen & Hfl & evs & Hj & Hall & Htr);
    [lia|].
  set (q := foldl (close_one E) p (seq 0 k)) in *.
  destruct (close_one_spec q k) as (Hb & Hs & Hjn).
  rewrite Hb, Hs, Hjn. cbn [fst snd].
  split_and!.
  - by rewrite length_alter.
  - rewrite (list_fmap_alter client_timeout close_client id)
      by (apply Forall_true; intros x; reflexivity).
    rewrite list_alter_id by (intros x; reflexivity). exact Htm.
  - intros i c Hi Hc. destruct (decide (i = k)) as [->|Hne].
    + rewrite list_lookup_alter_eq in Hc.
      destruct (sessions_per_account q !! k); [|done].
      by injection Hc as <-.
    + rewrite list_lookup_alter_ne in Hc by done.
      apply (Hcl i c); [lia | done].
  - done.
  - eapply flag_kept_trans; [exact Hfl | apply flag_kept_await].
  - exists (evs ++ ClientClosed k :: (FromBot <$> stop_events E (the_bot q).2)).
    split; [by rewrite Hj, <- app_assoc|]. split.
    + apply Forall_app. split; [done|]. constructor; [done|].
      apply closing_event_stop.
    + rewrite trace_await_point, Htr, bot_events_app. cbn.
      by rewrite bot_events_from, <- app_assoc.
Qed.

(** [close]: every client is closed, the shutdown is logged last, and
    nothing else happens but [stop()] being called meanwhile. *)
Lemma close_spec p :
  length (sessions_per_account (close E p)) = length (sessions_per_account p)
  /\ client_timeout <$> sessions_per_account (close E p)
     = client_timeout <$> sessions_per_account p
  /\ Forall (fun c => client_closed c = true) (sessions_per_account (close E p))
  /\ (the_bot (close E p)).1 = (the_bot p).1
  /\ flag_kept E (the_bot p).2 (the_bot (close E p)).2
  /\ exists evs,
       journal (close E p)
       = journal p ++ evs ++ [ProcessLog INFO LogShutdown]
       /\ Forall closing_event evs
       /\ trace (the_bot (close E p)).2
          = trace (the_bot p).2 ++ bot_events evs.
Proof.
  unfold close.
  destruct (close_loop_spec (length (sessions_per_account p)) p)
    as (Hlen & Htm & Hcl & Hen & Hfl & evs & Hj & Hall & Htr); [lia|].
  cbn zeta in *. cbn [record_event sessions_per_account the_bot journal].
  split_and!; try done.
  - apply Forall_lookup. intros i c Hc. apply (Hcl i c); [|done].
    apply lookup_lt_Some in Hc. lia.
  - exists evs. by rewrite Hj, <- app_assoc.
Qed.
End Journal.

(** ** [main] *)

Section Program.
Context (E : env).

(** One balance request made from [main]. *)
Lemma call_balance_spec B i p r p1 :
  call (lift_rt (get_balance E B i)) p = (r, p1) ->
  (the_bot p1).1 = (the_bot p).1
  /\ sessions_per_account p1 = sessions_per_account p
  /\ flag_kept E (the_bot p).2 (the_bot p1).2
  /\ exists evs,
       journal p1 = journal p ++ (FromBot <$> evs)
       /\ trace (the_bot p1).2 = trace (the_bot p).2 ++ evs
       /\ Forall balance_request (http_attempts evs)
       /\ announced_counts evs = [].
Proof.
  unfold call. intros H.
  destruct (lift_rt (get_balance E B i) (the_bot p)) as [r0 b1] eqn:Hb.
  injection H as <- <-. cbn [the_bot sessions_per_account journal].
  apply lift_rt_inv in Hb as (rt1 & Hb & ->). cbn [fst snd].
  pose proof Hb as Hfl.
  apply (flag_kept_requests E B) in Hfl.
  apply make_request_general in Hb as (evs & Htr & Hc).
  split; [done|]. split; [done|]. split; [exact Hfl|].
  exists evs. rewrite (events_since_app _ _ _ Htr).
  split; [done|]. split; [done|].
  pose proof (call_events_requests _ _ _ _ _ _ _ Hc) as [Hreq _].
  destruct Hc as (rq & _ & _ & _ & Hall & _).
  split; [|apply (executor_event_quiet _ _ _ Hall)].
  eapply Forall_impl; [exact Hreq|]. by intros x (_ & ? & ? & _).
Qed.

(** The balance checks of [main]. *)
Lemma check_balances_spec B accounts : forall i p r p',
  check_balances E B i accounts p = (r, p') ->
  (the_bot p').1 = (the_bot p).1
  /\ sessions_per_account p' = sessions_per_account p
  /\ flag_kept E (the_bot p).2 (the_bot p').2
  /\ exists evs,
       journal p' = journal p ++ evs
       /\ trace (the_bot p').2 = trace (the_bot p).2 ++ bot_events evs
       /\ Forall balance_request (http_attempts (bot_events evs))
       /\ announced_counts (bot_events evs) = []
       /\ process_logs evs
          = (fun x : string * json => (INFO, LogBalance x.1 x.2))
              <$> balance_reports evs
       /\ match r with
          | Ok _ =>
              (fun x : string * json => x.1) <$> balance_reports evs
              = account_name <$> accounts
          | Raise e =>
              exists checked rest,
                accounts = checked ++ rest /\ rest <> []
                /\ (fun x : string * json => x.1) <$> balance_reports evs
                   = account_name <$> checked
          end.
Proof.
  induction accounts as [|account rest IH]; intros i p r p' H.
  { injection H as <- <-. split_and!; try done; [apply flag_kept_refl|].
    exists []. rewrite !app_nil_r. by split_and!. }
  cbn [check_balances] in H.
  apply bind_inv in H as [(balance & p1 & H1 & H) | (e & H1 & ->)];
    apply call_balance_spec in H1
      as (Hen1 & Hcl1 & Hfl1 & evs1 & Hj1 & Htr1 & Hreq1 & Han1).
  2:{ split_and!; try done. exists (FromBot <$> evs1).
      rewrite bot_events_from, process_logs_from, balance_reports_from.
      split_and!; try done. by exists [], (account :: rest). }
  change (check_balances E B (S i) rest
            (record_event
               (ProcessLog INFO (LogBalance (account_name account) balance)) p1)
          = (r, p')) in H.
  apply IH in H as (Hen & Hcl & Hfl & evs & Hj & Htr & Hreq & Han & Hlogs & Hres).
  cbn [record_event the_bot sessions_per_account journal] in *.
  split; [congruence|]. split; [congruence|].
  split; [by eapply flag_kept_trans|].
  exists ((FromBot <$> evs1)
          ++ [ProcessLog INFO (LogBalance (account_name account) balance)]
          ++ evs).
  rewrite !bot_events_app, !process_logs_app, !balance_reports_app,
    bot_events_from, process_logs_from, balance_reports_from.
  cbn [app].
  change (bot_events [ProcessLog INFO (LogBalance (account_name account) balance)])
    with (@nil event).
  change (process_logs [ProcessLog INFO (LogBalance (account_name account) balance)])
    with [(INFO, LogBalance (account_name account) balance)].
  change (balance_reports
            [ProcessLog INFO (LogBalance (account_name account) balance)])
    with [(account_name account, balance)].
  cbn [app]. split_and!.
  - by rewrite Hj, Hj1, <- !app_assoc.
  - by rewrite Htr, Htr1, <- app_assoc.
  - rewrite http_attempts_app. by apply Forall_app.
  - by rewrite announced_counts_app, Han1, Han.
  - by rewrite Hlogs.
  - destruct r as [[]|e].
    + cbn. by rewrite Hres.
    + destruct Hres as (checked & rest' & -> & Hne & Hnames).
      exists (account :: checked), rest'. split; [done|]. split; [done|].
      cbn. by rewrite Hnames.
Qed.

(** The [try] block of [main]. *)
Lemma program_body_spec B accounts p r p' :
  bind (check_balances E B 0 accounts) (fun _ => call (run_daily_cycle E B)) p
  = (r, p') ->
  sessions_per_account p' = sessions_per_account p
  /\ exists evs,
       journal p' = journal p ++ evs
       /\ process_logs evs
          = (fun x : string * json => (INFO, LogBalance x.1 x.2))
              <$> balance_reports evs
       /\ ((exists e checked rest,
              r = Raise e /\ accounts = checked ++ rest /\ rest <> []
              /\ (fun x : string * json => x.1) <$> balance_reports evs
                 = account_name <$> checked
              /\ Forall balance_request (http_attempts (bot_events evs))
              /\ announced_counts (bot_events evs) = []
              /\ (the_bot p').1 = (the_bot p).1
              /\ flag_kept E (the_bot p).2 (the_bot p').2)
           \/ (exists b1,
                 (fun x : string * json => x.1) <$> balance_reports evs
                 = account_name <$> accounts
                 /\ b1.1 = (the_bot p).1
                 /\ run_daily_cycle E B b1 = (r, the_bot p')
                 /\ FromBot <$> events_since b1.2 (the_bot p').2
                    `suffix_of` evs)).
Proof.
  intros H.
  apply bind_inv in H as [([] & p1 & H1 & H) | (e & H1 & ->)];
    apply check_balances_spec in H1
      as (Hen1 & Hcl1 & Hfl1 & evs1 & Hj1 & Htr1 & Hreq1 & Han1 & Hlogs1 & Hres1).
  2:{ split; [done|]. exists evs1. split; [done|]. split; [done|]. left.
      destruct Hres1 as (checked & rest & -> & Hne & Hnames).
      by exists e, checked, rest. }
  unfold call in H.
  destruct (run_daily_cycle E B (the_bot p1)) as [r2 b2] eqn:Hrun.
  injection H as <- <-. cbn [the_bot sessions_per_account journal].
  split; [done|].
  exists (evs1 ++ (FromBot <$> events_since (the_bot p1).2 b2.2)).
  split; [by rewrite Hj1, <- app_assoc|].
  rewrite process_logs_app, balance_reports_app, process_logs_from,
    balance_reports_from, !app_nil_r.
  split; [done|]. right. exists (the_bot p1).
  split; [done|]. split; [done|]. split; [done|].
  by apply suffix_app_r.
Qed.

(** With two accounts the bot is constructed. *)
Lemma program_closes_ok a1 a2 cfg res op :
  bot_program E [a1; a2] cfg = (res, op) -> exists p, op = Some p.
Proof.
  unfold bot_program, __init__. cbn [length Nat.eqb negb].
  match goal with
  | |- context [bind ?m ?k ?p0] => destruct (bind m k p0) as [[[]|e] p1]
  end; intros [= <- <-]; by eexists.
Qed.

(** The journal of a program whose bot was constructed. *)
Lemma program_journal accounts cfg res p :
  bot_program E accounts cfg = (res, Some p) ->
  exists p1 evs cevs,
    bind (check_balances E {| account_configs := accounts;
                              trading_config := cfg |} 0 accounts)
      (fun _ => call (run_daily_cycle E {| account_configs := accounts;
                                          trading_config := cfg |}))
      {| the_bot := (initial_engine, initial_runtime);
         sessions_per_account :=
           [ {| client_timeout := request_timeout cfg; client_closed := false |};
             {| client_timeout := request_timeout cfg; client_closed := false |} ];
         journal := [ClientCreated (request_timeout cfg);
                     ClientCreated (request_timeout cfg);
                     ProcessLog INFO LogInitialized] |}
    = (res, p1)
    /\ journal p1 = [ClientCreated (request_timeout cfg);
                     ClientCreated (request_timeout cfg);
                     ProcessLog INFO LogInitialized] ++ evs
    /\ journal p
       = journal p1
         ++ match res with
            | Ok _ => []
            | Raise e => [ProcessLog ERROR (LogBotError e)]
            end
         ++ cevs ++ [ProcessLog INFO LogShutdown]
    /\ Forall closing_event cevs
    /\ (the_bot p).1 = (the_bot p1).1
    /\ flag_kept E (the_bot p1).2 (the_bot p).2.
Proof.
  unfold bot_program, __init__.
  destruct (length accounts =? 2)%nat; cbn [negb]; [|done].
  change ((fun _ : Z =>
             {| client_timeout := request_timeout cfg;
                client_closed := false |}) <$> range 2)
    with [ {| client_timeout := request_timeout cfg; client_closed := false |};
           {| client_timeout := request_timeout cfg; client_closed := false |} ].
  cbn [fmap list_fmap compose client_timeout app].
  match goal with
  | |- context [bind ?m ?k ?p0] =>
      destruct (bind m k p0) as [r p1] eqn:Hbody
  end.
  pose proof Hbody as Hspec.
  apply program_body_spec in Hspec as (_ & evs & Hj & _).
  cbn [journal] in Hj.
  destruct r as [[]|e]; intros [= <- <-].
  - destruct (close_spec E p1) as (_ & _ & _ & Hen & Hfl & cevs & Hjc & Hall & _).
    by exists p1, evs, cevs.
  - destruct (close_spec E (record_event (ProcessLog ERROR (LogBotError e)) p1))
      as (_ & _ & _ & Hen & Hfl & cevs & Hjc & Hall & _).
    exists p1, evs, cevs. split_and!; try done.
    rewrite Hjc. cbn [record_event journal]. by rewrite <- !app_assoc.
Qed.

(** X14.  [main] closes what it opened.  Of the runs in which the
    task is not cancelled: unless the bot could not be constructed -
    [__init__] raises [ValueError] when it is not given exactly two
    accounts, before any client session exists - both client sessions
    are closed when the program ends, whether it returns or raises an
    [Exception], the shutdown record is the last thing it logs, and
    the [Exception] it ends in was logged first. *)
Theorem program_closes_clients accounts cfg :
  match bot_program E accounts cfg with
  | (r, None) => length accounts <> 2%nat /\ r = Raise ValueError
  | (r, Some p) =>
      length accounts = 2%nat
      /\ length (sessions_per_account p) = 2%nat
      /\ Forall (fun c => client_closed c = true
                          /\ client_timeout c = request_timeout cfg)
           (sessions_per_account p)
      /\ last (journal p) = Some (ProcessLog INFO LogShutdown)
      /\ match r with
         | Ok _ => True
         | Raise e => (ERROR, LogBotError e) ∈ process_logs (journal p)
         end
  end.
Proof.
  unfold bot_program, __init__.
  destruct (length accounts =? 2)%nat eqn:Hlen; cbn [negb].
  2:{ apply Nat.eqb_neq in Hlen. done. }
  apply Nat.eqb_eq in Hlen.
  match goal with
  | |- context [bind ?m ?k ?p0] =>
      destruct (bind m k p0) as [r p1] eqn:Hbody
  end.
  apply program_body_spec in Hbody as (Hcl & _).
  cbn [sessions_per_account] in Hcl.
  change ((fun _ : Z =>
             {| client_timeout := request_timeout cfg;
                client_closed := false |}) <$> range 2)
    with [ {| client_timeout := request_timeout cfg; client_closed := false |};
           {| client_timeout := request_timeout cfg; client_closed := false |} ]
    in Hcl.
  assert (Hfinal : forall p2,
            sessions_per_account p2 = sessions_per_account p1 ->
            length (sessions_per_account (close E p2)) = 2%nat
            /\ Forall (fun c => client_closed c = true
                                /\ client_timeout c = request_timeout cfg)
                 (sessions_per_account (close E p2))
            /\ last (journal (close E p2)) = Some (ProcessLog INFO LogShutdown)).
  { intros p2 Hp2.
    destruct (close_spec E p2) as (Hl & Htm & Hclosed & _ & _ & evs & Hj & _).
    rewrite Hp2, Hcl in Hl, Htm. split; [done|]. split.
    - apply Forall_lookup. intros i c Hc. split.
      + rewrite Forall_lookup in Hclosed. by apply (Hclosed i).
      + apply (f_equal (fun l => l !! i)) in Htm.
        rewrite !list_lookup_fmap, Hc in Htm. cbn in Htm.
        destruct i as [|[|i]]; cbn in Htm; [congruence | congruence |].
        apply lookup_lt_Some in Hc. rewrite Hl in Hc. cbn in Hc. lia.
    - rewrite Hj, app_assoc. apply last_snoc. }
  destruct r as [[]|e]; cbn [fst snd].
  - destruct (Hfinal p1 eq_refl) as (? & ? & ?). done.
  - destruct (Hfinal (record_event (ProcessLog ERROR (LogBotError e)) p1)
                eq_refl) as (? & ? & ?).
    split_and!; try done.
    destruct (close_spec E (record_event (ProcessLog ERROR (LogBotError e)) p1))
      as (_ & _ & _ & _ & _ & evs & -> & _).
    cbn [record_event journal]. rewrite !process_logs_app.
    apply elem_of_app. left. apply elem_of_app. right. left.
Qed.

(** X15.  A failed balance check ends the program before it trades.
    Of the runs in which the task is not cancelled: when fewer
    balances than accounts were logged, the program ends in
    the exception of the balance request that failed, logged as an
    error before the shutdown; the accounts after the failing one
    were not asked; every request made was a balance request;
    [run_daily_cycle] was not entered - no cycle was announced,
    [is_running] is still false and no session was created. *)
Theorem balance_failure_stops_trading accounts cfg res p :
  bot_program E accounts cfg = (res, Some p) ->
  (length (balance_reports (journal p)) < length accounts)%nat ->
  exists e checked rest,
    res = Raise e /\ accounts = checked ++ rest /\ rest <> []
    /\ (fun x : string * json => x.1) <$> balance_reports (journal p)
       = account_name <$> checked
    /\ process_logs (journal p)
       = (INFO, LogInitialized)
         :: ((fun x : string * json => (INFO, LogBalance x.1 x.2))
               <$> balance_reports (journal p))
         ++ [(ERROR, LogBotError e); (INFO, LogShutdown)]
    /\ Forall balance_request (http_attempts (bot_events (journal p)))
    /\ announced_counts (bot_events (journal p)) = []
    /\ (the_bot p).1 = initial_engine
    /\ is_running (the_bot p).2 = false.
Proof.
  intros H Hfew.
  apply program_journal in H
    as (p1 & evs & cevs & Hbody & Hj1 & Hj & Hall & Hen & Hfl).
  apply program_body_spec in Hbody as (_ & evs' & Hj1' & Hlogs & Hcases).
  cbn [journal the_bot fst snd] in *.
  rewrite Hj1 in Hj1'. apply app_inv_head in Hj1'. subst evs'.
  apply closing_events_quiet in Hall as (Hc1 & Hc2 & Hc3 & Hc4 & _).
  assert (Hbal : balance_reports (journal p) = balance_reports evs).
  { rewrite Hj, Hj1, !balance_reports_app, Hc2.
    destruct res; cbn; by rewrite !app_nil_r. }
  destruct Hcases
    as [(e & checked & rest & -> & Hacc & Hne & Hnames & Hreq & Han & Hen1 & Hfl1)
       | (b1 & Hnames & _)].
  2:{ exfalso. rewrite Hbal in Hfew.
      apply (f_equal length) in Hnames. rewrite !length_fmap in Hnames. lia. }
  exists e, checked, rest. rewrite Hbal.
  split; [done|]. split; [done|]. split; [done|]. split; [done|].
  split_and!.
  - rewrite Hj, Hj1, !process_logs_app, Hc1, Hlogs. done.
  - rewrite Hj, Hj1, !bot_events_app, !http_attempts_app, Hc3. cbn.
    by rewrite !app_nil_r.
  - rewrite Hj, Hj1, !bot_events_app, !announced_counts_app, Hc4, Han. done.
  - by rewrite Hen, Hen1.
  - destruct (flag_kept_trans E _ _ _ Hfl1 Hfl) as [_ ->]. done.
Qed.

(** X16.  [main] as it is written, with its two accounts and the
    default configuration, in a run in which the task is not
    cancelled, fails only on a failed balance check: it always
    constructs the bot; if it raises an [Exception], fewer than two
    balances were logged, no cycle was announced and the exception was
    logged as an error; otherwise both balances were logged, for
    Account1 and then for Account2, and the daily cycle ran to its
    end, whatever the exchange answered in its sessions. *)
Theorem main_fails_only_on_balance :
  exists p,
    (main E).2 = Some p
    /\ match (main E).1 with
       | Ok _ =>
           (fun x : string * json => x.1) <$> balance_reports (journal p)
           = ["Account1"; "Account2"]
           /\ FromBot (EvLog INFO LogCycleCompleted) ∈ journal p
       | Raise e =>
           (length (balance_reports (journal p)) < 2)%nat
           /\ announced_counts (bot_events (journal p)) = []
           /\ (ERROR, LogBotError e) ∈ process_logs (journal p)
       end.
Proof.
  destruct (main E) as [res op] eqn:Hmain. cbn [fst snd].
  unfold main in Hmain.
  pose proof (program_closes_ok _ _ _ _ _ Hmain) as (p & ->).
  exists p. split; [done|].
  apply program_journal in Hmain
    as (p1 & evs & cevs & Hbody & Hj1 & Hj & Hall & Hen & Hfl).
  apply program_body_spec in Hbody as (_ & evs' & Hj1' & Hlogs & Hcases).
  cbn [journal the_bot fst snd] in *.
  rewrite Hj1 in Hj1'. apply app_inv_head in Hj1'. subst evs'.
  apply closing_events_quiet in Hall as (Hc1 & Hc2 & Hc3 & Hc4 & _).
  assert (Hbal : balance_reports (journal p) = balance_reports evs).
  { rewrite Hj, Hj1, !balance_reports_app, Hc2.
    destruct res; cbn; by rewrite !app_nil_r. }
  destruct Hcases
    as [(e & checked & rest & -> & Hacc & Hne & Hnames & Hreq & Han & Hen1 & Hfl1)
       | (b1 & Hnames & _ & Hrun & Hsuf)].
  - rewrite Hbal. split; [|split].
    + apply (f_equal length) in Hnames. rewrite !length_fmap in Hnames.
      rewrite Hnames. apply (f_equal length) in Hacc.
      rewrite length_app in Hacc. cbn in Hacc.
      destruct rest; [done|]. cbn in Hacc. lia.
    + rewrite Hj, Hj1, !bot_events_app, !announced_counts_app, Hc4, Han. done.
    + rewrite Hj, !process_logs_app. apply elem_of_app. right.
      apply elem_of_app. left. left.
  - match type of Hrun with
    | run_daily_cycle E ?B b1 = _ =>
        destruct (run_daily_cycle_cases E B b1)
          as [[Hlt _] | (n & rt1 & Hn & Htr1 & Hr1 & _ & Heq)];
          [cbn in Hlt; lia|]
    end.
    rewrite Heq in Hrun. cbn in Hn.
    destruct (n =? 0) eqn:Hz; [apply Z.eqb_eq in Hz; lia|].
    cbn zeta in Hrun. injection Hrun as <- Hb.
    rewrite Hbal. split; [done|].
    rewrite Hj, Hj1.
    apply elem_of_app. left. apply elem_of_app. right.
    eapply elem_of_suffix; [|exact Hsuf].
    apply list_elem_of_fmap_2. rewrite <- Hb. cbn [snd].
    match goal with
    | |- context [cycle_loop E ?B ?n ?d ?sl ?s0] =>
        destruct (cycle_loop_trace E B n d sl s0) as (cyc & Hcyc)
    end.
    rewrite (events_since_app _ _
               ([EvLog INFO (LogCycleStart n)] ++ cyc
                ++ [EvLog INFO LogCycleCompleted])).
    2:{ rewrite trace_log, Hcyc. cbn [snd].
        rewrite trace_log, Htr1, <- !app_assoc. done. }
    apply elem_of_app. right. apply elem_of_app. right. left.
Qed.
End Program.

(** ** The order requests of a session *)

Section Sends.
Context (E : env) (B : bot_config).
Let max := max_retries (trading_config B).

Lemma order_sends_app a b : order_sends (a ++ b) = order_sends a ++ order_sends b.
Proof. unfold order_sends. by rewrite http_attempts_app, omap_app. Qed.

Lemma order_sends_stop rt : order_sends (stop_events E rt) = [].
Proof. unfold stop_events. by destruct (stop_requested_at E _). Qed.

(** Without an order body nothing is an order request. *)
Lemma order_sends_bodies evs : order_bodies evs = [] -> order_sends evs = [].
Proof.
  unfold order_bodies, order_sends.
  induction (http_attempts evs) as [|[[a rq] o] l IH]; [done|].
  rewrite !omap_cons_match.
  destruct (req_kwargs rq) as [|od|p] eqn:Hk; [|discriminate|];
    intros H;
    (replace (order_of_request rq) with (@None order_data);
     [cbn; by apply IH
     |unfold order_of_request; rewrite Hk; by destruct (_ && _)]).
Qed.

Lemma repeated_app reps1 reps2 o1 o2 :
  length reps1 = length o1 ->
  repeated (reps1 ++ reps2) (o1 ++ o2) = repeated reps1 o1 ++ repeated reps2 o2.
Proof.
  intros H. unfold repeated. by rewrite zip_with_app, join_app.
Qed.

Lemma repeated_short reps : forall o1 o2,
  (length reps <= length o1)%nat -> repeated reps (o1 ++ o2) = repeated reps o1.
Proof.
  unfold repeated. induction reps as [|n reps IH]; intros [|o o1] o2 H; try done.
  - cbn in H. lia.
  - cbn in *. rewrite IH by lia. done.
Qed.

(** The attempts of one run of the loop: at most one for each element
    of [range(max_retries)]. *)
Lemma attempt_loop_count i rq attempts : forall rt r rt',
  attempt_loop E B i rq attempts rt = (r, rt') ->
  exists evs,
    trace rt' = trace rt ++ evs
    /\ (length (http_attempts evs) <= length attempts)%nat.
Proof.
  induction attempts as [|a rest IH]; intros rt r rt' Hrun.
  { cbn in Hrun. injection Hrun as <- <-. exists []. by rewrite app_nil_r. }
  destruct (attempt_loop_cons E B i rq a rest rt) as (rt1 & Htr & Hn & Hcases).
  set (o := transport E (n_attempts rt) i rq) in *.
  assert (Hone : http_attempts (EvHttp i rq o :: stop_events E rt) = [(i, rq, o)]).
  { change (?x :: ?l) with ([x] ++ l).
    by rewrite http_attempts_app, http_attempts_stop_events. }
  destruct Hcases as [(d & Ho & Hrun1) | [(s & d & Ho & Hs & Hrun1)
    | [(e & Ho & Hr & Hrun1) | [(e & Ho & Hr & Ha & Hrun1)
    | (e & Ho & Hr & Ha & Hrun1)]]]]; rewrite Hrun1 in Hrun.
  - injection Hrun as <- <-. eexists. split; [exact Htr|].
    rewrite Hone. cbn. lia.
  - injection Hrun as <- <-. eexists. split.
    { rewrite trace_log, Htr, <- app_assoc. reflexivity. }
    rewrite http_attempts_app, Hone. cbn. lia.
  - injection Hrun as <- <-. eexists. split; [exact Htr|].
    rewrite Hone. cbn. lia.
  - injection Hrun as <- <-. eexists. split.
    { rewrite trace_log, Htr, <- app_assoc. reflexivity. }
    rewrite http_attempts_app, Hone. cbn. lia.
  - apply IH in Hrun as (evs & Htr' & Hlen).
    rewrite trace_asyncio_sleep, trace_log, Htr in Htr'.
    eexists. split.
    { rewrite Htr', <- !app_assoc. reflexivity. }
    change (EvSleep ?d :: ?l) with ([EvSleep d] ++ l).
    rewrite !http_attempts_app, Hone, http_attempts_stop_events. cbn. lia.
Qed.

Lemma make_request_count i m ep kw rt r rt' evs :
  _make_request E B i m ep kw rt = (r, rt') ->
  trace rt' = trace rt ++ evs ->
  Z.of_nat (length (http_attempts evs)) <= Z.max 0 max.
Proof.
  intros Hrun Htr. destruct (account_configs B !! i) as [acct|] eqn:Hacct.
  - destruct (make_request_loop E B i acct m ep kw rt Hacct)
      as (rq & rt1 & Heq & Htr1 & _).
    rewrite Heq in Hrun.
    apply attempt_loop_count in Hrun as (evs' & Htr' & Hlen).
    rewrite Htr1, Htr in Htr'. apply app_inv_head in Htr' as ->.
    unfold range in Hlen. rewrite length_seqZ in Hlen. unfold max. lia.
  - rewrite make_request_no_account in Hrun by done.
    injection Hrun as <- <-.
    rewrite <- (app_nil_r (trace rt)) in Htr at 1.
    apply app_inv_head in Htr as <-. cbn. lia.
Qed.

Lemma order_sends_executor i rq od evs :
  Forall (executor_event i rq) evs ->
  order_of_request rq = Some od ->
  order_sends evs = replicate (length (http_attempts evs)) (i, od).
Proof.
  intros Hall Hod. apply http_attempts_executor in Hall.
  unfold order_sends.
  induction Hall as [|[[a rq'] o] l [Ha Hrq] _ IH]; [done|].
  cbn in Ha, Hrq. subst a rq'.
  rewrite omap_cons_match, Hod. cbn. by rewrite IH.
Qed.

(** One call of [place_order] under a budget of at least one attempt:
    the order is sent between 0 and [max_retries] times, at least once
    when the call returns, and it counts as placed exactly when the
    call returns. *)
Lemma sent_by_call i sym side size rt r rt' :
  1 <= max ->
  place_order E B i sym side MARKET size None rt = (r, rt') ->
  exists evs n,
    trace rt' = trace rt ++ evs
    /\ order_sends evs = replicate n (i, market_order sym side size)
    /\ Z.of_nat n <= max
    /\ placed_orders evs
       = match r with
         | Ok _ => [(i, market_order sym side size)]
         | Raise _ => []
         end
    /\ match r with Ok _ => (1 <= n)%nat | Raise _ => True end.
Proof.
  intros Hmax Hrun. unfold place_order in Hrun.
  pose proof (make_request_general E B _ _ _ _ _ _ _ Hrun) as (evs & Htr & Hc).
  pose proof (make_request_count _ _ _ _ _ _ _ evs Hrun Htr) as Hcount.
  exists evs, (length (http_attempts evs)).
  split; [done|].
  pose proof Hc as (rq & Hm & Hep & Hkw & Hall & Hans).
  split.
  { apply (order_sends_executor i rq); [done|].
    unfold order_of_request. by rewrite Hm, Hep, Hkw. }
  split; [unfold max in *; lia|].
  apply call_events_order in Hc as (_ & _ & _ & Hpl).
  destruct r as [d|e]; [|done].
  split; [by apply Hpl|].
  destruct Hans as [(_ & _ & retried & -> & _) | (? & _)]; [|unfold max in *; lia].
  rewrite length_app. cbn. lia.
Qed.

Local Ltac solve_sent :=
  solve [ done
        | apply prefix_nil
        | cbn; lia
        | repeat (apply Forall_cons_2; [unfold retry_count; split; (lia || done)|]);
          apply Forall_nil_2
        | unfold repeated; cbn; rewrite ?app_nil_r; done
        | by eexists [_]
        | split; [done | cbn; lia]
        | split; cbn; lia ].

(** Two orders placed one after the other: the second is sent only
    if the first was placed. *)
Lemma place_pair_sent {C} (g : json -> json -> C) sym side1 side2 size
    s res s' :
  1 <= max ->
  bind (lift_rt (place_order E B 0 sym side1 MARKET size None)) (fun o1 =>
    bind (lift_rt (place_order E B 1 sym side2 MARKET size None)) (fun o2 =>
      ret (g o1 o2))) s = (res, s') ->
  let pair := [(0%nat, market_order sym side1 size);
               (1%nat, market_order sym side2 size)] in
  exists evs reps,
    trace s'.2 = trace s.2 ++ evs /\ s'.1 = s.1
    /\ Forall (retry_count max) reps
    /\ order_sends evs = repeated reps pair
    /\ placed_orders evs `prefix_of` pair
    /\ (length (placed_orders evs) <= length reps
        <= S (length (placed_orders evs)))%nat
    /\ (length reps <= 2)%nat
    /\ match res with
       | Ok _ => placed_orders evs = pair /\ length reps = 2%nat
       | Raise _ => (length (placed_orders evs) < 2)%nat
       end.
Proof.
  intros Hmax H pair.
  apply bind_inv in H as [(o1 & s1 & H1 & H) | (e & H1 & ->)];
    apply lift_rt_inv in H1 as (rt1 & H1 & ->);
    apply sent_by_call in H1 as (evs1 & n1 & Htr1 & Hs1 & Hn1 & Hpl1 & Hok1);
    try done.
  2:{ destruct (decide (n1 = 0)%nat) as [->|Hne].
      - exists evs1, []. rewrite Hs1, Hpl1. cbn [fst snd].
        split_and!; solve_sent.
      - exists evs1, [n1]. rewrite Hs1, Hpl1. cbn [fst snd].
        split_and!; solve_sent. }
  apply bind_inv in H as [(o2 & s2 & H2 & H) | (e & H2 & ->)];
    apply lift_rt_inv in H2 as (rt2 & H2 & ->);
    apply sent_by_call in H2 as (evs2 & n2 & Htr2 & Hs2 & Hn2 & Hpl2 & Hok2);
    try done; cbn [fst snd] in *.
  - injection H as <- <-. cbn [fst snd].
    exists (evs1 ++ evs2), [n1; n2].
    rewrite order_sends_app, placed_orders_app, Hs1, Hs2, Hpl1, Hpl2.
    assert (Htr : trace rt2 = trace s.2 ++ evs1 ++ evs2)
      by (by rewrite Htr2, Htr1, <- app_assoc).
    split_and!; solve_sent.
  - assert (Htr : trace rt2 = trace s.2 ++ evs1 ++ evs2)
      by (by rewrite Htr2, Htr1, <- app_assoc).
    destruct (decide (n2 = 0)%nat) as [->|Hne].
    + exists (evs1 ++ evs2), [n1].
      rewrite order_sends_app, placed_orders_app, Hs1, Hs2, Hpl1, Hpl2.
      split_and!; solve_sent.
    + exists (evs1 ++ evs2), [n1; n2].
      rewrite order_sends_app, placed_orders_app, Hs1, Hs2, Hpl1, Hpl2.
      split_and!; solve_sent.
Qed.
(** The opening phase: what it sends and what it places. *)
Lemma open_positions_sent r sid sym long s res s' :
  1 <= max ->
  open_positions E B r sid sym long s = (res, s') ->
  exists evs size reps,
    trace s'.2 = trace s.2 ++ evs
    /\ Forall (retry_count max) reps
    /\ order_sends evs = repeated reps (opening_orders sym long size)
    /\ placed_orders evs `prefix_of` opening_orders sym long size
    /\ (length (placed_orders evs) <= length reps
        <= S (length (placed_orders evs)))%nat
    /\ (length reps <= 2)%nat
    /\ match res with
       | Ok v => v.2 = size
                 /\ placed_orders evs = opening_orders sym long size
                 /\ length reps = 2%nat
       | Raise _ => True
       end.
Proof.
  intros Hmax H. unfold open_positions in H.
  apply bind_inv in H as [(md & s1 & H1 & H) | (e' & H1 & ->)];
    apply get_market_data_run in H1
      as (evs1 & Hen1 & Htr1 & Hs1 & Hpl1 & _);
    pose proof (order_sends_bodies _ (no_bodies sym evs1 Hs1)) as Hsd1.
  2:{ exists evs1, 0%float, []. rewrite Hsd1, Hpl1. split_and!; solve_sent. }
  assert (Hearly :
            exists evs size reps,
              trace s1.2 = trace s.2 ++ evs
              /\ Forall (retry_count max) reps
              /\ order_sends evs = repeated reps (opening_orders sym long size)
              /\ placed_orders evs `prefix_of` opening_orders sym long size
              /\ (length (placed_orders evs) <= length reps
                  <= S (length (placed_orders evs)))%nat
              /\ (length reps <= 2)%nat
              /\ True).
  { exists evs1, 0%float, []. rewrite Hsd1, Hpl1.
    split_and!; solve_sent. }
  rewrite bind_lift_result in H.
  destruct (subscript md "last_price") as [lp|e1].
  2:{ injection H as <- <-. exact Hearly. }
  rewrite bind_lift_result in H.
  destruct (py_float E lp) as [p|e1].
  2:{ injection H as <- <-. exact Hearly. }
  clear Hearly.
  unfold bind at 1 in H. unfold uniform_size in H.
  destruct (random_uniform_spec E (max_position_size (trading_config B) * 0.3)%float
              (max_position_size (trading_config B)) s1.2)
    as (size & rt2 & Hu & Htr2 & _).
  rewrite Hu in H.
  assert (Hpair : forall res3 s3,
            (if long
             then bind (lift_rt (place_order E B 0 sym BUY MARKET size None))
                    (fun o1 =>
                       bind (lift_rt (place_order E B 1 sym SELL MARKET size None))
                         (fun o2 => ret (o1, o2)))
             else bind (lift_rt (place_order E B 0 sym SELL MARKET size None))
                    (fun o1 =>
                       bind (lift_rt (place_order E B 1 sym BUY MARKET size None))
                         (fun o2 => ret (o1, o2)))) (s1.1, rt2) = (res3, s3) ->
            exists evs reps,
              trace s3.2 = trace s.2 ++ evs
              /\ Forall (retry_count max) reps
              /\ order_sends evs = repeated reps (opening_orders sym long size)
              /\ placed_orders evs `prefix_of` opening_orders sym long size
              /\ (length (placed_orders evs) <= length reps
                  <= S (length (placed_orders evs)))%nat
              /\ (length reps <= 2)%nat
              /\ match res3 with
                 | Ok _ => placed_orders evs = opening_orders sym long size
                           /\ length reps = 2%nat
                 | Raise _ => True
                 end).
  { intros res3 s3 H3. destruct long;
      apply place_pair_sent in H3
        as (evs3 & reps & Htr3 & _ & Hreps & Hsd3 & Hpre3 & Hlen3 & Hle3 & Hres3);
      try done; cbn [fst snd] in Htr3;
      exists (evs1 ++ evs3), reps;
      rewrite order_sends_app, placed_orders_app, Hsd1, Hpl1; cbn [app];
      (split; [by rewrite Htr3, Htr2, Htr1, <- app_assoc|]);
      (split_and!; try done); first [lia | by destruct res3]. }
  apply bind_inv in H as [(orders & s3 & H3 & H) | (e' & H3 & ->)];
    apply Hpair in H3 as (evs3 & reps & Htr3 & Hreps & Hsd3 & Hpre3 & Hlen3
                          & Hle3 & Hres3).
  2:{ exists evs3, size, reps. split_and!; first [done | lia]. }
  destruct Hres3 as [Hpl3 Hfull].
  assert (Hlate : forall en : engine,
            exists evs size reps,
              trace (en, s3.2).2 = trace s.2 ++ evs
              /\ Forall (retry_count max) reps
              /\ order_sends evs = repeated reps (opening_orders sym long size)
              /\ placed_orders evs `prefix_of` opening_orders sym long size
              /\ (length (placed_orders evs) <= length reps
                  <= S (length (placed_orders evs)))%nat
              /\ (length reps <= 2)%nat
              /\ True).
  { intros en. exists evs3, size, reps. split_and!; first [done | lia]. }
  rewrite bind_lift_result in H.
  destruct (dict_get orders.1 "id" JNull) as [id1|e1].
  2:{ injection H as <- <-. destruct s3. exact (Hlate _). }
  rewrite bind_on_engine, bind_lift_result in H. cbn [fst snd] in H.
  destruct (dict_get orders.2 "id" JNull) as [id2|e1].
  2:{ injection H as <- <-. exact (Hlate _). }
  rewrite bind_on_engine, bind_lift_result in H. cbn [fst snd] in H.
  destruct (subscript orders.1 "id") as [shown1|e1].
  2:{ injection H as <- <-. exact (Hlate _). }
  rewrite bind_lift_result in H.
  destruct (subscript orders.2 "id") as [shown2|e1].
  2:{ injection H as <- <-. exact (Hlate _). }
  rewrite bind_on_runtime in H. cbn [fst snd] in H.
  injection H as <- <-. cbn [fst snd].
  exists (evs3 ++ [EvLog INFO (LogOpened sid shown1 shown2 size p)]), size, reps.
  rewrite order_sends_app, placed_orders_app. cbn [app].
  change (order_sends [EvLog INFO (LogOpened sid shown1 shown2 size p)])
    with (@nil (nat * order_data)).
  change (placed_orders [EvLog INFO (LogOpened sid shown1 shown2 size p)])
    with (@nil (nat * order_data)).
  rewrite !app_nil_r.
  split; [by rewrite trace_log, Htr3, <- app_assoc|].
  split_and!; first [done | lia].
Qed.

(** The sleep of the holding phase sends nothing. *)
Lemma hold_sends_nothing d rt :
  order_sends (EvSleep d :: stop_events E rt) = []
  /\ placed_orders (EvSleep d :: stop_events E rt) = [].
Proof.
  change (EvSleep d :: ?l) with ([EvSleep d] ++ l).
  by rewrite order_sends_app, placed_orders_app, order_sends_stop,
    placed_orders_stop.
Qed.

(** The [try] block of a session: the order requests it sends are the
    four orders of the session in order, each sent again while its
    attempts fail transiently, up to the first call that fails. *)
Lemma session_body_sent r sid sym long dur s res s' :
  1 <= max ->
  session_body E B r sid sym long dur s = (res, s') ->
  exists evs size reps,
    let four := opening_orders sym long size ++ closing_orders sym long size in
    trace s'.2 = trace s.2 ++ evs
    /\ Forall (retry_count max) reps
    /\ order_sends evs = repeated reps four
    /\ placed_orders evs `prefix_of` four
    /\ (length (placed_orders evs) <= length reps
        <= S (length (placed_orders evs)))%nat
    /\ (length reps <= 4)%nat
    /\ (((length (placed_orders evs) < 4)%nat
         /\ exists f, order_ids_only f /\ s'.1 = update_session r f s.1)
        \/ (placed_orders evs = four /\ length reps = 4%nat
            /\ exists f t, order_ids_only f
                 /\ s'.1 = update_session r
                             (set_closed true ∘ set_end_time t ∘ f) s.1)).
Proof.
  intros Hmax H. unfold session_body in H.
  apply bind_inv in H as [([price size'] & s1 & H1 & H) | (e & H1 & ->)];
    pose proof H1 as Hspec;
    apply open_positions_spec in Hspec as (_ & f & _ & _ & Hen1 & Hf & _);
    apply open_positions_sent in H1
      as (evs1 & size & reps1 & Htr1 & Hreps1 & Hsd1 & Hpre1 & Hlen1 & Hle1
          & Hres1); try done.
  2:{ exists evs1, size, reps1. cbn zeta.
      rewrite repeated_short by (cbn; lia).
      split_and!; try done; try lia.
      - by apply prefix_app_r.
      - left. split; [|by exists f].
        apply prefix_length in Hpre1. cbn in Hpre1.
        destruct (decide (length (placed_orders evs1) = 2%nat)); [|lia].
        lia. }
  destruct Hres1 as (Hsz & Hpl1 & Hfull1). cbn [snd] in Hsz. subst size'.
  rewrite bind_on_runtime in H. cbn [fst snd] in H.
  set (s1' := (s1.1, asyncio_sleep E (inject_Z dur) s1.2)) in *.
  set (hold := EvSleep (inject_Z dur) :: stop_events E s1.2) in *.
  assert (Htr1' : trace s1'.2 = trace s.2 ++ evs1 ++ hold).
  { cbn. by rewrite trace_asyncio_sleep, Htr1, <- app_assoc. }
  destruct (hold_sends_nothing (inject_Z dur) s1.2) as [Hsdh Hplh].
  fold hold in Hsdh, Hplh.
  apply bind_inv in H as [([] & s2 & H2 & H) | (e & H2 & ->)].
  2:{ pose proof H2 as Hspec.
      apply close_positions_spec in Hspec as (_ & _ & Hen2 & _).
      unfold close_positions in H2.
      assert (Hcl : exists evs2 reps2,
                trace s'.2 = trace s1'.2 ++ evs2
                /\ Forall (retry_count max) reps2
                /\ order_sends evs2 = repeated reps2 (closing_orders sym long size)
                /\ placed_orders evs2 `prefix_of` closing_orders sym long size
                /\ (length (placed_orders evs2) <= length reps2
                    <= S (length (placed_orders evs2)))%nat
                /\ (length reps2 <= 2)%nat
                /\ (length (placed_orders evs2) < 2)%nat).
      { destruct long;
          apply (place_pair_sent (fun _ _ => tt)) in H2
            as (evs2 & reps2 & Htr2 & _ & Hreps2 & Hsd2 & Hpre2 & Hlen2 & Hle2
                & Hlt2); try done;
          by exists evs2, reps2. }
      destruct Hcl as (evs2 & reps2 & Htr2 & Hreps2 & Hsd2 & Hpre2 & Hlen2
                       & Hle2 & Hlt2).
      exists ((evs1 ++ hold) ++ evs2), size, (reps1 ++ reps2). cbn zeta.
      rewrite !order_sends_app, !placed_orders_app, Hsdh, Hplh, !app_nil_r.
      rewrite repeated_app by (by rewrite Hfull1).
      rewrite Hsd1, Hsd2, Hpl1.
      split_and!; try done.
      - by rewrite Htr2, Htr1', <- !app_assoc.
      - by apply Forall_app.
      - by apply prefix_app.
      - rewrite !length_app, Hfull1. cbn. lia.
      - rewrite !length_app, Hfull1. cbn. lia.
      - rewrite !length_app, Hfull1. lia.
      - left. split; [rewrite length_app; cbn; lia|].
        exists f. split; [done|]. rewrite Hen2. unfold s1'. cbn [fst].
        exact Hen1. }
  pose proof H2 as Hspec.
  apply close_positions_spec in Hspec as (_ & _ & Hen2 & _).
  unfold close_positions in H2.
  assert (Hcl : exists evs2 reps2,
            trace s2.2 = trace s1'.2 ++ evs2
            /\ Forall (retry_count max) reps2
            /\ order_sends evs2 = repeated reps2 (closing_orders sym long size)
            /\ placed_orders evs2 = closing_orders sym long size
            /\ length reps2 = 2%nat).
  { destruct long;
      apply (place_pair_sent (fun _ _ => tt)) in H2
        as (evs2 & reps2 & Htr2 & _ & Hreps2 & Hsd2 & _ & _ & _ & Hpl2 & Hfull2);
      try done; by exists evs2, reps2. }
  destruct Hcl as (evs2 & reps2 & Htr2 & Hreps2 & Hsd2 & Hpl2 & Hfull2).
  apply settle_spec in H as (evs4 & t & Htr4 & Hen4 & Hs4 & Hpl4 & _).
  pose proof (order_sends_bodies _ (no_bodies sym evs4 Hs4)) as Hsd4.
  cbn [fst snd] in *.
  exists ((evs1 ++ hold) ++ evs2 ++ evs4), size, (reps1 ++ reps2). cbn zeta.
  rewrite !order_sends_app, !placed_orders_app, Hsdh, Hplh, Hsd4, Hpl4,
    !app_nil_r.
  rewrite repeated_app by (by rewrite Hfull1).
  rewrite Hsd1, Hsd2, Hpl1, Hpl2.
  split_and!; try done.
  - by rewrite Htr4, Htr2, Htr1', <- !app_assoc.
  - by apply Forall_app.
  - rewrite !length_app, Hfull1, Hfull2. cbn. lia.
  - rewrite !length_app, Hfull1, Hfull2. cbn. lia.
  - rewrite !length_app, Hfull1, Hfull2. lia.
  - right. split; [done|]. split; [by rewrite length_app, Hfull1, Hfull2|].
    exists f, t. split; [done|]. rewrite Hen4, Hen2. unfold s1'. cbn [fst].
    rewrite Hen1. by rewrite update_session_compose.
Qed.
End Sends.

(** ** A cycle that is cut short *)

Section InterruptedCycle.
Context (E : env) (B : bot_config).
Let cfg := trading_config B.

(** The loop over the slots, whatever [stop()] does: it runs an
    initial part of the slots. *)
Lemma cycle_loop_prefix daily min_delay slots : forall s,
  active_session s.1 = None ->
  exists ran rest evs,
    slots = ran ++ rest
    /\ trace (cycle_loop E B daily min_delay slots s).2 = trace s.2 ++ evs
    /\ (fun x : Z * Z * Q => x.1) <$> slot_reports evs
       = (fun k => (k + 1, daily)) <$> ran
    /\ announced_counts evs = []
    /\ (length (sessions (cycle_loop E B daily min_delay slots s).1)
        <= length (sessions s.1) + length ran)%nat
    /\ active_session (cycle_loop E B daily min_delay slots s).1 = None
    /\ (rest <> [] ->
        is_running (cycle_loop E B daily min_delay slots s).2 = false).
Proof.
  induction slots as [|n slots IH]; intros s Hidle.
  { exists [], [], []. cbn.
    split_and!; try done; try lia; by rewrite app_nil_r. }
  destruct (is_running s.2) eqn:Hrun.
  2:{ rewrite cycle_loop_stopped by done. exists [], (n :: slots), [].
      cbn. split_and!; try done; try lia; by rewrite app_nil_r. }
  destruct (execute_delta_neutral_session E B s) as [r s1] eqn:Hx.
  rewrite (cycle_loop_step E B daily min_delay n slots s s1 r Hrun Hx).
  cbn zeta.
  assert (Hexec : exists evs1,
            trace s1.2 = trace s.2 ++ evs1 /\ slot_reports evs1 = []
            /\ announced_counts evs1 = []
            /\ active_session s1.1 = None
            /\ (length (sessions s1.1) <= length (sessions s.1) + 1)%nat).
  { apply execute_outcome in Hx
      as [(e & _ & Hen & Htr & _)
         | (_ & sess & evs1 & size & Htr & Hen & _ & _ & _ & Hall & _)];
      [| |done].
    - exists []. rewrite app_nil_r, Hen. split_and!; try done. lia.
    - exists evs1. apply session_event_no_slots in Hall as (Hsr & _ & Han).
      rewrite Hen. cbn. rewrite length_app. cbn. split_and!; try done. }
  destruct Hexec as (evs1 & Htr1 & Hsr1 & Han1 & Hidle1 & Hlen1).
  set (rt1 := match r with
              | Ok _ => s1.2
              | Raise e => log ERROR (LogSlotFailed (n + 1) e) s1.2
              end).
  assert (Htrl : exists logs, trace rt1 = trace s1.2 ++ logs
                              /\ slot_reports logs = []
                              /\ announced_counts logs = []).
  { unfold rt1. destruct r as [[]|e].
    - exists []. by rewrite app_nil_r.
    - by exists [EvLog ERROR (LogSlotFailed (n + 1) e)]. }
  destruct Htrl as (logs & Htrl & Hsrl & Hanl).
  destruct (random_uniform_spec E (min_delay * 0.7)%float (min_delay * 1.3)%float rt1)
    as (delay & rt2 & Hu & Htr2 & _). rewrite Hu.
  set (rt3 := log INFO (LogSlotCompleted (n + 1) daily (delay / 60)%float) rt2).
  destruct (IH (s1.1, asyncio_sleep E (float_value delay) rt3) Hidle1)
    as (ran & rest & evs & Hsl & Htr & Hnum & Hann & Hlen & Hact & Hstop).
  cbn [fst snd] in *.
  exists (n :: ran), rest,
    (evs1 ++ logs
     ++ [EvLog INFO (LogSlotCompleted (n + 1) daily (delay / 60)%float);
         EvSleep (float_value delay)] ++ stop_events E rt3 ++ evs).
  split_and!; try done.
  - by rewrite Hsl.
  - rewrite Htr, trace_asyncio_sleep. unfold rt3.
    rewrite trace_log, Htr2, Htrl, Htr1, <- !app_assoc. done.
  - rewrite !slot_reports_app, Hsr1, Hsrl, slot_reports_stop. cbn.
    by rewrite Hnum.
  - rewrite !announced_counts_app, Han1, Hanl, announced_counts_stop, Hann.
    done.
  - cbn [length]. lia.
Qed.

(** X18.  Of the runs in which the task is not cancelled, whenever
    [stop()] is called: the slots a daily cycle reports as completed
    are an initial part of the slots it announced, numbered from 1 in
    order; it creates at most one session for each of them; and if it
    left slots out, [is_running] is false when it returns: short of a
    cancellation, only [stop()] cuts a cycle short.  When it raises an
    [Exception], it logged nothing or only the announcement of 0
    sessions. *)
Theorem cycle_runs_initial_slots s :
  active_session s.1 = None ->
  let run := run_daily_cycle E B s in
  let evs := events_since s.2 run.2.2 in
  match run.1 with
  | Raise _ => evs = [] \/ evs = [EvLog INFO (LogCycleStart 0)]
  | Ok _ =>
      exists n ran rest,
        announced_counts evs = [n]
        /\ range n = ran ++ rest
        /\ (fun x : Z * Z * Q => x.1) <$> slot_reports evs
           = (fun k => (k + 1, n)) <$> ran
        /\ (length (sessions run.2.1)
            <= length (sessions s.1) + length ran)%nat
        /\ (rest <> [] -> is_running run.2.2 = false)
  end.
Proof.
  intros Hidle run evs. subst run evs.
  destruct (run_daily_cycle_cases E B s)
    as [[Hlt ->] | (n & rt1 & Hn & Htr1 & Hr1 & _ & ->)].
  { cbn [fst snd]. left. apply events_since_app. by rewrite app_nil_r. }
  destruct (n =? 0) eqn:Hz.
  { apply Z.eqb_eq in Hz. subst n. cbn [fst snd]. right.
    apply events_since_app. by rewrite trace_log, Htr1. }
  cbn zeta. cbn [fst snd].
  destruct (cycle_loop_prefix n (int_truediv 86400 n) (range n)
              (s.1, log INFO (LogCycleStart n) rt1) Hidle)
    as (ran & rest & evs & Hsl & Htr & Hnum & Hann & Hlen & Hact & Hstop).
  cbn [fst snd] in *.
  exists n, ran, rest.
  rewrite (events_since_app s.2 _
             ([EvLog INFO (LogCycleStart n)] ++ evs
              ++ [EvLog INFO LogCycleCompleted])).
  2:{ rewrite trace_log, Htr, trace_log, Htr1, <- !app_assoc. done. }
  split_and!; try done.
  - rewrite !announced_counts_app, Hann. done.
  - rewrite !slot_reports_app. cbn. by rewrite app_nil_r.
Qed.
End InterruptedCycle.

(** ** No retry budget *)

Section NoBudget.
Context (E : env) (B : bot_config).
Let cfg := trading_config B.

Lemma nothing_sent_closed : frame_closed E nothing_sent.
Proof.
  split.
  - intros rt. exists []. by rewrite app_nil_r.
  - intros a b c (e1 & H1 & Hn1) (e2 & H2 & Hn2). exists (e1 ++ e2).
    split; [by rewrite H2, H1, app_assoc|].
    by rewrite http_attempts_app, Hn1, Hn2.
  - intros lvl r rt. by eexists [_].
  - intros d rt. eexists. split; [apply trace_asyncio_sleep|].
    change (EvSleep d :: ?l) with ([EvSleep d] ++ l).
    by rewrite http_attempts_app, http_attempts_stop.
  - intros rt. exists []. by rewrite app_nil_r.
  - intros rt. exists []. by rewrite app_nil_r.
  - intros rt. exists []. by rewrite app_nil_r.
Qed.

(** Without a retry budget the executor returns at once. *)
Lemma nothing_sent_requests :
  max_retries cfg <= 0 -> requests_keep E B nothing_sent.
Proof.
  intros Hmax i m ep kw rt r rt' H. unfold _make_request in H.
  destruct (account_configs B !! i) as [acct|].
  2:{ injection H as <- <-. exists []. by rewrite app_nil_r. }
  unfold range in H. fold cfg in H. rewrite seqZ_nil in H by done.
  destruct (String.prefix "/public" ep); cbn in H;
    injection H as <- <-; exists []; by rewrite app_nil_r.
Qed.

Lemma answered_of_attempts evs : http_attempts evs = [] -> answered evs = [].
Proof.
  induction evs as [|[a rq o|d|l r] evs IH]; [done| |exact IH|exact IH].
  discriminate.
Qed.

Lemma execute_sends_nothing s :
  max_retries cfg <= 0 ->
  http_attempts
    (events_since s.2 (execute_delta_neutral_session E B s).2.2) = [].
Proof.
  intros Hmax.
  destruct (execute_delta_neutral_session E B s) as [r s'] eqn:H.
  apply (preserves_execute E B _ nothing_sent_closed
           (nothing_sent_requests Hmax)) in H as (evs & Htr & Hnone).
  cbn [snd]. by rewrite (events_since_app _ _ _ Htr).
Qed.

(** X19.  A retry budget of zero is not "one attempt, no retry": with
    [max_retries <= 0] the bot sends no request at all.  A session
    makes no HTTP attempt and cannot settle, and a whole daily cycle
    makes none either. *)
Theorem zero_budget_sends_nothing :
  max_retries cfg <= 0 ->
  (forall s,
      http_attempts
        (events_since s.2 (execute_delta_neutral_session E B s).2.2) = [])
  /\ (forall s,
        active_session s.1 = None ->
        ~ settled (events_since s.2 (execute_delta_neutral_session E B s).2.2))
  /\ (forall s,
        http_attempts (events_since s.2 (run_daily_cycle E B s).2.2) = []).
Proof.
  intros Hmax.
  assert (Hexec : forall s,
            http_attempts
              (events_since s.2 (execute_delta_neutral_session E B s).2.2) = []).
  { intros s.
    destruct (execute_delta_neutral_session E B s) as [r s'] eqn:H.
    apply (preserves_execute E B _ nothing_sent_closed
             (nothing_sent_requests Hmax)) in H as (evs & Htr & Hnone).
    cbn [snd]. by rewrite (events_since_app _ _ _ Htr). }
  split; [exact Hexec|]. split.
  - intros s Hidle Hset. specialize (Hexec s).
    destruct (execute_delta_neutral_session E B s) as [r s'] eqn:H.
    cbn [snd] in *.
    apply execute_outcome in H
      as [(e & _ & _ & Htr & _)
         | (_ & sess & evs & size & Htr & _ & _ & _ & _ & _ & _ & Hc)];
      [| |done].
    + rewrite (events_since_app _ _ []) in Hset by (by rewrite app_nil_r).
      by apply Hset.
    + rewrite (events_since_app _ _ _ Htr) in Hset, Hexec.
      destruct Hc as [(_ & _ & Hpn) | (_ & _ & _ & _ & [Hpn | Hmd])];
        [by apply Hset | by apply Hset |].
      destruct Hmd as (md1 & md2 & o & c & Hmd & _).
      unfold market_documents in Hmd.
      by rewrite (answered_of_attempts evs Hexec) in Hmd.
  - intros s.
    destruct (run_daily_cycle_cases E B s)
      as [[Hlt ->] | (n & rt1 & Hn & Htr1 & Hr1 & _ & ->)].
    { cbn [snd].
      by rewrite (events_since_app _ (set_running true s.2) [])
        by (by rewrite app_nil_r). }
    destruct (n =? 0).
    { cbn [snd].
      by rewrite (events_since_app _ _ [EvLog INFO (LogCycleStart n)])
        by (by rewrite trace_log, Htr1). }
    cbn zeta. cbn [snd].
    destruct (P_cycle_loop E B _ nothing_sent_closed
                (nothing_sent_requests Hmax) n (int_truediv 86400 n)
                (range n) (s.1, log INFO (LogCycleStart n) rt1))
      as (evs & Htr & Hnone).
    cbn [snd] in Htr.
    rewrite (events_since_app s.2 _
               ([EvLog INFO (LogCycleStart n)] ++ evs
                ++ [EvLog INFO LogCycleCompleted])).
    2:{ rewrite trace_log, Htr, trace_log, Htr1, <- !app_assoc. done. }
    rewrite !http_attempts_app, Hnone. done.
Qed.
End NoBudget.

(** ** Orders on the wire; a stop during a slot *)

Section OrdersOnTheWire.
Context (E : env) (B : bot_config).
Let max := max_retries (trading_config B).
Let cfg := trading_config B.

(** What a run that creates a session sends and places. *)
Lemma execute_sent s res s' :
  active_session s.1 = None ->
  execute_delta_neutral_session E B s = (res, s') ->
  (exists e, res = Raise e /\ events_since s.2 s'.2 = [])
  \/ exists sess size reps,
       heap s'.1 = heap s.1 ++ [sess]
       /\ symbol sess ∈ symbols cfg
       /\ Forall (retry_count max) reps
       /\ order_sends (events_since s.2 s'.2)
          = repeated reps
              (opening_orders (symbol sess) (account1_long sess) size
               ++ closing_orders (symbol sess) (account1_long sess) size)
       /\ placed_orders (events_since s.2 s'.2)
          `prefix_of` (opening_orders (symbol sess) (account1_long sess) size
                       ++ closing_orders (symbol sess) (account1_long sess) size)
       /\ (length (placed_orders (events_since s.2 s'.2)) <= length reps)%nat
       /\ (length reps <= S (length (placed_orders (events_since s.2 s'.2))))%nat
       /\ (length reps <= 4)%nat
       /\ (closed sess = false ->
           (length (placed_orders (events_since s.2 s'.2)) < 4)%nat)
       /\ (closed sess = true ->
           length (placed_orders (events_since s.2 s'.2)) = 4%nat).
Proof.
  intros Hidle H.
  destruct (Z_le_gt_dec 1 max) as [Hmax|Hmax].
  2:{ (* no budget: nothing is sent *)
      pose proof (execute_sends_nothing E B s) as Hnone.
      rewrite H in Hnone. cbn [snd] in Hnone.
      specialize (Hnone ltac:(unfold max in Hmax; lia)).
      assert (Hsd : order_sends (events_since s.2 s'.2) = [])
        by (unfold order_sends; by rewrite Hnone).
      assert (Hpl : placed_orders (events_since s.2 s'.2) = []).
      { unfold placed_orders. by rewrite (answered_of_attempts _ Hnone). }
      apply execute_outcome in H
        as [(e & -> & _ & Htr & _)
           | (_ & sess & evs & size & Htr & Hen & Hsym & _ & _ & _ & _ & Hc)];
        [| |done].
      { left. exists e. split; [done|].
        apply events_since_app. by rewrite app_nil_r. }
      right. exists sess, size, []. rewrite Hsd, Hpl.
      rewrite (events_since_app _ _ _ Htr) in Hpl.
      split; [by rewrite Hen|]. split; [done|].
      split_and!; try done; try apply prefix_nil; try (cbn; lia).
      intros Hcl. destruct Hc as [(Hc & _) | (_ & _ & Hfour & _)];
        [congruence|]. rewrite Hpl in Hfour. discriminate. }
  apply execute_spec in H
    as [(e & -> & _ & Htr & _)
       | (-> & sess0 & rt4 & bres & sb & Hsym & _ & Hcl & _ & Htr4 & Hbody
          & Hen & Hrt)]; [| |done].
  { left. exists e. split; [done|].
    apply events_since_app. by rewrite app_nil_r. }
  right.
  apply session_body_sent in Hbody
    as (evsb & size & reps & Htrb & Hreps & Hsd & Hpre & Hlen & Hle & Hcases);
    [|done].
  cbn [fst snd] in Htrb, Hcases. cbn zeta in Hsd, Hpre, Hcases.
  set (start := EvLog INFO (LogSessionStart (session_id sess0) (symbol sess0)
                              (account1_long sess0) (planned_duration sess0))) in *.
  assert (Hev : exists evsc,
            events_since s.2 s'.2 = [start] ++ evsb ++ evsc
            /\ placed_orders evsc = [] /\ order_sends evsc = []).
  { destruct bres as [[]|e].
    - exists []. split; [|done]. apply events_since_app.
      rewrite Hrt, Htrb, Htr4, app_nil_r, <- !app_assoc. done.
    - destruct (cleanup_quiet E B (symbol sess0)
                  (log ERROR (LogSessionFailed (session_id sess0) e) sb.2))
        as (evsc & Htrc & Hqc & Hplc & _).
      exists ([EvLog ERROR (LogSessionFailed (session_id sess0) e)] ++ evsc).
      split; [|split].
      + apply events_since_app.
        rewrite Hrt, Htrc, trace_log, Htrb, Htr4, <- !app_assoc. done.
      + by rewrite placed_orders_app, Hplc.
      + rewrite order_sends_app.
        by rewrite (order_sends_bodies _ (no_bodies (symbol sess0) evsc
                                            (Hqc (symbol sess0)))). }
  destruct Hev as (evsc & -> & Hplc & Hsdc).
  assert (Hpl : placed_orders ([start] ++ evsb ++ evsc) = placed_orders evsb).
  { rewrite !placed_orders_app, Hplc. cbn. by rewrite app_nil_r. }
  assert (Hsd' : order_sends ([start] ++ evsb ++ evsc) = order_sends evsb).
  { rewrite !order_sends_app, Hsdc. cbn. by rewrite app_nil_r. }
  rewrite Hpl, Hsd'.
  destruct Hcases as [(Hlt & f & Hf & Hsb) | (Hall & Hfull & f & t & Hf & Hsb)];
    rewrite Hsb, registered_update in Hen.
  - exists (f sess0), size, reps.
    destruct (Hf sess0) as (_ & -> & -> & _ & _ & _ & Hc).
    split; [by rewrite Hen|]. split; [done|].
    rewrite Hc, Hcl. split_and!; try done; try lia.
  - exists ((set_closed true ∘ set_end_time t ∘ f) sess0), size, reps.
    destruct (Hf sess0) as (_ & Hsy & Hlong & _).
    cbn [compose set_closed set_end_time symbol account1_long closed].
    rewrite Hsy, Hlong.
    split; [by rewrite Hen|]. split; [done|].
    split_and!; try done; try lia. intros _. by rewrite Hall.
Qed.

(** X17.  A session sends its order requests in one fixed order -
    account 0 opens, account 1 opens, account 0 closes, account 1
    closes - each of them again while its attempts fail transiently,
    between 1 and [max_retries] times, and the next one only after the
    previous call returned; it stops at the first call that fails.  In
    every run that creates a session the order requests sent are
    therefore runs of an initial part of these four, and the orders
    placed - the calls that returned - are an initial part of them
    too, at most one order shorter than the part sent.  The session is
    marked closed exactly when all four were placed; no other order
    is sent, none to reverse the ones that were placed. *)
Theorem orders_stop_at_first_failure s res s' :
  active_session s.1 = None ->
  execute_delta_neutral_session E B s = (res, s') ->
  let evs := events_since s.2 s'.2 in
  (exists e, res = Raise e /\ evs = [])
  \/ exists sess size reps,
       let four :=
         opening_orders (symbol sess) (account1_long sess) size
         ++ closing_orders (symbol sess) (account1_long sess) size in
       heap s'.1 = heap s.1 ++ [sess]
       /\ Forall (retry_count max) reps
       /\ order_sends evs = repeated reps four
       /\ placed_orders evs `prefix_of` four
       /\ (length (placed_orders evs) <= length reps
           <= S (length (placed_orders evs)))%nat
       /\ (length reps <= 4)%nat
       /\ (closed sess = false -> (length (placed_orders evs) < 4)%nat)
       /\ (closed sess = true -> length (placed_orders evs) = 4%nat).
Proof.
  intros Hidle H evs. subst evs.
  destruct (execute_sent s res s' Hidle H)
    as [Hraise | (sess & size & reps & Hheap & _ & Hreps & Hsd & Hpre & Hl1
                  & Hl2 & Hle & Hopen & Hclosed)].
  - by left.
  - right. exists sess, size, reps. cbn zeta. split_and!; done.
Qed.

End OrdersOnTheWire.

Section StopDuringSlot.
Context (E : env) (B : bot_config).

(** C4 (amended: the flag is read only when a slot begins, and
    [run_daily_cycle] sets it).  The value of [is_running] when
    [run_daily_cycle] is called does not matter: the cycle sets the
    flag before anything else, so a [stop()] called earlier is lost.
    Within the cycle, a slot that begins while the flag is set runs in
    full: after the session comes exactly one sleep, of the delay that
    [random.uniform(min_delay * 0.7, min_delay * 1.3)] returned, with
    no request in between.  The flag is false at the end of the slot
    exactly when [stop()] was called at one of the awaits of the slot,
    those of the session and the one of the sleep; the loop then
    leaves without another session or another wait. *)
Theorem stop_observed_at_next_slot daily min_delay :
  (forall b s,
      run_daily_cycle E B (s.1, set_running b s.2)
      = run_daily_cycle E B (s.1, set_running true s.2))
  /\ (forall n rest s r s1,
        is_running s.2 = true ->
        execute_delta_neutral_session E B s = (r, s1) ->
        exists delay rt3,
          let slot_end := (s1.1, asyncio_sleep E (float_value delay) rt3) in
          cycle_loop E B daily min_delay (n :: rest) s
          = cycle_loop E B daily min_delay rest slot_end
          /\ (exists u : Z,
                 delay = (min_delay * 0.7
                          + (min_delay * 1.3 - min_delay * 0.7)
                            * (float_of_Z (u mod 2 ^ 53) / float_of_Z (2 ^ 53)))%float)
          /\ sleeps (events_since s1.2 slot_end.2) = [float_value delay]
          /\ http_attempts (events_since s1.2 slot_end.2) = []
          /\ is_running slot_end.2
             = negb (stop_between E (n_awaits s.2) (n_awaits slot_end.2))
          /\ (is_running slot_end.2 = false ->
              cycle_loop E B daily min_delay (n :: rest) s = slot_end)).
Proof.
  split; [done|].
  intros n rest s r s1 Hrun H.
  rewrite (cycle_loop_step E B daily min_delay n rest s s1 r Hrun H). cbn zeta.
  set (rt1 := match r with
              | Ok _ => s1.2
              | Raise e => log ERROR (LogSlotFailed (n + 1) e) s1.2
              end).
  destruct (random_uniform_spec E (min_delay * 0.7)%float
              (min_delay * 1.3)%float rt1)
    as (delay & rt2 & Hu & Htr2 & Hr2 & Haw2 & Hdraw).
  rewrite Hu.
  set (rt3 := log INFO (LogSlotCompleted (n + 1) daily (delay / 60)%float) rt2).
  set (logs := match r with
               | Ok _ => []
               | Raise e => [EvLog ERROR (LogSlotFailed (n + 1) e)]
               end
               ++ [EvLog INFO (LogSlotCompleted (n + 1) daily (delay / 60)%float)]).
  assert (Htr3 : trace rt3 = trace s1.2 ++ logs).
  { unfold rt3, logs. rewrite trace_log, Htr2. unfold rt1. destruct r; [done|].
    by rewrite trace_log, <- app_assoc. }
  assert (Hw : wire logs = []) by (unfold logs; by destruct r).
  assert (Hr3 : is_running rt3 = is_running s1.2).
  { unfold rt3. cbn. rewrite Hr2. unfold rt1. by destruct r. }
  assert (Haw3 : n_awaits rt3 = n_awaits s1.2).
  { unfold rt3. cbn. rewrite Haw2. unfold rt1. by destruct r. }
  exists delay, rt3. cbn [fst snd].
  assert (Hflag : is_running (asyncio_sleep E (float_value delay) rt3)
                  = negb (stop_between E (n_awaits s.2)
                            (n_awaits (asyncio_sleep E (float_value delay) rt3)))).
  { pose proof (preserves_execute E B (flag_kept E) (flag_kept_closed E)
                  (flag_kept_requests E B) s r s1 H) as [Hle1 Hf1].
    pose proof (frame_sleep E _ (flag_kept_closed E) (float_value delay) rt3)
      as [Hle2 Hf2].
    rewrite Hr3, Haw3 in Hf2. rewrite Haw3 in Hle2.
    rewrite Hf2, Hf1, Hrun. cbn [andb].
    rewrite (stop_between_split E (n_awaits s.2) (n_awaits s1.2)
               (n_awaits (asyncio_sleep E (float_value delay) rt3))) by lia.
    by rewrite negb_orb. }
  split; [done|]. split; [exact Hdraw|].
  rewrite (events_since_app s1.2 _
             (logs ++ EvSleep (float_value delay) :: stop_events E rt3)).
  2:{ by rewrite trace_asyncio_sleep, Htr3, <- app_assoc. }
  split_and!.
  - rewrite <- sleeps_wire, wire_app, Hw. cbn [app].
    change (EvSleep (float_value delay) :: ?l)
      with ([EvSleep (float_value delay)] ++ l).
    by rewrite wire_app, wire_stop_events.
  - rewrite <- http_attempts_wire, wire_app, Hw. cbn [app].
    change (EvSleep (float_value delay) :: ?l)
      with ([EvSleep (float_value delay)] ++ l).
    by rewrite wire_app, wire_stop_events.
  - exact Hflag.
  - intros Hstop. by apply cycle_loop_stopped.
Qed.
End StopDuringSlot.

(** ** The further properties at concrete runs *)

Lemma make_request_every_run_witness :
  (account_configs default_bot !! 0%nat
   = Some {| account_name := "Account1"; api_key := "key1"; secret_key := "secret1" |}
   /\ 1 <= max_retries (trading_config default_bot))
  /\ exists k : nat,
       Z.of_nat k < max_retries (trading_config default_bot)
       /\ length (http_attempts (events_since initial_runtime flaky_balance.2)) = S k
       /\ sleeps (events_since initial_runtime flaky_balance.2)
          = (fun n => inject_Z (2 ^ n)) <$> seqZ 0 (Z.of_nat k).
Proof.
  assert (Hmax : 1 <= max_retries (trading_config default_bot)) by (cbn; lia).
  split; [exact (conj eq_refl Hmax)|].
  destruct (make_request_every_run (stub_env flaky_transport) default_bot
              0 _ "GET" "/private/account/balance" NoKwargs initial_runtime
              eq_refl Hmax)
    as (rq & k & Hk & _ & Hlen & Hsl & _).
  exists k. exact (conj Hk (conj Hlen Hsl)).
Defined.

Lemma signature_ignores_body_witness :
  exists x y,
    x ∈ http_attempts
          (events_since initial_runtime
             (_make_request (stub_env rejecting) default_bot 0 "POST" "/private/orders"
                (JsonBody (market_order "ETH-USDC" BUY 0.1%float)) initial_runtime).2)
    /\ y ∈ http_attempts
             (events_since initial_runtime
                (_make_request (stub_env rejecting) default_bot 0 "POST"
                   "/private/orders" NoKwargs initial_runtime).2)
    /\ req_headers x.1.2 = req_headers y.1.2.
Proof.
  destruct (http_attempts
              (events_since initial_runtime
                 (_make_request (stub_env rejecting) default_bot 0 "POST"
                    "/private/orders"
                    (JsonBody (market_order "ETH-USDC" BUY 0.1%float))
                    initial_runtime).2)) as [|x l1] eqn:H1.
  { exfalso. revert H1. vm_compute. discriminate. }
  destruct (http_attempts
              (events_since initial_runtime
                 (_make_request (stub_env rejecting) default_bot 0 "POST"
                    "/private/orders" NoKwargs initial_runtime).2))
    as [|y l2] eqn:H2.
  { exfalso. revert H2. vm_compute. discriminate. }
  exists x, y.
  assert (Hx : x ∈ x :: l1) by left.
  assert (Hy : y ∈ y :: l2) by left.
  rewrite <- H1 in Hx. rewrite <- H2 in Hy.
  destruct (signature_ignores_body (stub_env rejecting) default_bot 0 "POST"
              "/private/orders" _ _ initial_runtime x y Hx Hy)
    as (Hh & _).
  split; [left|]. split; [left|]. exact Hh.
Defined.

Lemma uninterrupted_cycle_witness :
  (valid_config (trading_config scenario_bot)
   /\ 1 <= min_daily_sessions (trading_config scenario_bot)
   /\ active_session initial_bot.1 = None
   /\ (forall n, (n_awaits initial_bot.2 <= n)%nat ->
         stop_requested_at (stub_env scenario_transport) n = false)
   /\ run_daily_cycle (stub_env scenario_transport) scenario_bot initial_bot
      = (scenario_cycle.1, scenario_cycle.2))
  /\ exists n,
       2 <= n <= 2
       /\ scenario_cycle.1 = Ok tt
       /\ (fun x : Z * Z * Q => x.1)
            <$> slot_reports (events_since initial_bot.2 scenario_cycle.2.2)
          = (fun k => (k + 1, n)) <$> range n
       /\ slot_failures (events_since initial_bot.2 scenario_cycle.2.2) = []
       /\ length (sessions scenario_cycle.2.1)
          = (length (sessions initial_bot.1) + Z.to_nat n)%nat
       /\ is_running scenario_cycle.2.2 = true.
Proof.
  assert (Hvalid : valid_config (trading_config scenario_bot)).
  { unfold valid_config. cbn. split_and!; try done. }
  assert (Hmin : 1 <= min_daily_sessions (trading_config scenario_bot))
    by (cbn; lia).
  assert (Hquiet : forall n, (n_awaits initial_bot.2 <= n)%nat ->
            stop_requested_at (stub_env scenario_transport) n = false)
    by (intros n _; reflexivity).
  assert (Hrun : run_daily_cycle (stub_env scenario_transport) scenario_bot
                   initial_bot = (scenario_cycle.1, scenario_cycle.2)).
  { unfold scenario_cycle. apply surjective_pairing. }
  split; [exact (conj Hvalid (conj Hmin (conj eq_refl (conj Hquiet Hrun))))|].
  destruct (uninterrupted_cycle (stub_env scenario_transport) scenario_bot
              initial_bot _ _ Hvalid Hmin eq_refl Hquiet Hrun)
    as (n & Hn & Hres & _ & Hslots & Hfail & _ & Hlen & _ & Hflag).
  exists n. exact (conj Hn (conj Hres (conj Hslots (conj Hfail (conj Hlen Hflag))))).
Defined.

Lemma cycle_without_symbols_witness :
  (symbols (trading_config no_symbols_bot) = []
   /\ active_session initial_bot.1 = None)
  /\ (run_daily_cycle (stub_env rejecting) no_symbols_bot initial_bot).2.1
     = initial_bot.1
  /\ http_attempts
       (events_since initial_bot.2
          (run_daily_cycle (stub_env rejecting) no_symbols_bot initial_bot).2.2)
     = [].
Proof.
  split; [exact (conj eq_refl eq_refl)|].
  destruct (cycle_without_symbols (stub_env rejecting) no_symbols_bot initial_bot
              eq_refl eq_refl) as (Hen & Hnone & _).
  exact (conj Hen Hnone).
Defined.

Lemma get_open_orders_result_witness :
  get_open_orders (stub_env refusing_orders) default_bot 0 (Some "ETH-USDC")
    initial_runtime = (listed_orders.1, listed_orders.2)
  /\ Forall (fun x : nat * request * attempt_outcome =>
               x.1.1 = 0%nat /\ req_method x.1.2 = "GET"
               /\ req_endpoint x.1.2 = "/private/orders/open"
               /\ req_kwargs x.1.2 = QueryParams [("symbol", "ETH-USDC")])
       (http_attempts (events_since initial_runtime listed_orders.2)).
Proof.
  assert (Hrun : get_open_orders (stub_env refusing_orders) default_bot 0
                   (Some "ETH-USDC") initial_runtime
                 = (listed_orders.1, listed_orders.2)).
  { unfold listed_orders. apply surjective_pairing. }
  split; [exact Hrun|].
  exact (proj1 (get_open_orders_result (stub_env refusing_orders) default_bot 0
                  (Some "ETH-USDC") initial_runtime _ _ Hrun)).
Defined.

Lemma close_all_orders_reports_witness :
  (get_open_orders (stub_env refusing_orders) default_bot 0 (Some "ETH-USDC")
     initial_runtime
   = (Ok (JList ([JDict [("id", JStr "a1")]] ++ [])), listed_orders.2)
   /\ Forall2 (fun o v => subscript o "id" = Ok v)
        [JDict [("id", JStr "a1")]] [JStr "a1"]
   /\ close_all_orders (stub_env refusing_orders) default_bot 0 "ETH-USDC"
        initial_runtime = (cancelled_orders.1, cancelled_orders.2))
  /\ cancelled_orders.1 = Ok tt
  /\ (fun x : json * nat * bool => x.1)
       <$> cancel_reports (events_since listed_orders.2 cancelled_orders.2)
     = [(JStr "a1", 0%nat)].
Proof.
  assert (Hlist : get_open_orders (stub_env refusing_orders) default_bot 0
                    (Some "ETH-USDC") initial_runtime
                  = (Ok (JList ([JDict [("id", JStr "a1")]] ++ [])),
                     listed_orders.2)).
  { vm_compute. reflexivity. }
  assert (Hids : Forall2 (fun o v => subscript o "id" = Ok v)
                   [JDict [("id", JStr "a1")]] [JStr "a1"]).
  { constructor; [reflexivity | constructor]. }
  assert (Hrun : close_all_orders (stub_env refusing_orders) default_bot 0
                   "ETH-USDC" initial_runtime
                 = (cancelled_orders.1, cancelled_orders.2)).
  { unfold cancelled_orders. apply surjective_pairing. }
  split; [exact (conj Hlist (conj Hids Hrun))|].
  destruct (close_all_orders_reports (stub_env refusing_orders) default_bot 0
              "ETH-USDC" initial_runtime _ _ _ [] _ _ Hlist Hids I Hrun)
    as (Hres & Hrep & _).
  exact (conj Hres Hrep).
Defined.

Lemma session_raises_only_on_parameters_witness :
  active_session initial_bot.1 = None
  /\ match scenario_session.1 with
     | Raise e => False
     | Ok _ =>
         symbols (trading_config scenario_bot) <> []
         /\ min_session_duration (trading_config scenario_bot)
            <= max_session_duration (trading_config scenario_bot)
     end.
Proof.
  split; [reflexivity|].
  generalize (session_raises_only_on_parameters (stub_env scenario_transport)
                scenario_bot initial_bot eq_refl).
  cbv zeta. unfold scenario_session.
  destruct (execute_delta_neutral_session (stub_env scenario_transport)
              scenario_bot initial_bot).1 as [[]|e]; intros H; [exact H|].
  destruct H as (_ & _ & [[_ H] | (_ & _ & H)]); [discriminate H|].
  revert H. cbn. lia.
Defined.

Lemma hold_between_orders_witness :
  (active_session initial_bot.1 = None
   /\ execute_delta_neutral_session (stub_env scenario_transport) scenario_bot
        initial_bot = (scenario_session.1, scenario_session.2)
   /\ settled (events_since initial_bot.2 scenario_session.2.2))
  /\ exists sess before after,
       events_since initial_bot.2 scenario_session.2.2
       = before ++ EvSleep (inject_Z (planned_duration sess)) :: after
       /\ length (placed_orders before) = 2%nat
       /\ length (placed_orders after) = 2%nat
       /\ pnl_reports before = [].
Proof.
  assert (Hex : execute_delta_neutral_session (stub_env scenario_transport)
                  scenario_bot initial_bot
                = (scenario_session.1, scenario_session.2)).
  { unfold scenario_session. apply surjective_pairing. }
  assert (Hset : settled (events_since initial_bot.2 scenario_session.2.2)).
  { vm_compute. discriminate. }
  split; [exact (conj eq_refl (conj Hex Hset))|].
  destruct (hold_between_orders (stub_env scenario_transport) scenario_bot
              initial_bot _ _ eq_refl Hex Hset)
    as (sess & size & before & after & _ & Hev & Hb & Ha & Hpn & _).
  exists sess, before, after.
  refine (conj Hev (conj _ (conj _ Hpn))).
  - rewrite Hb. reflexivity.
  - rewrite Ha. reflexivity.
Defined.

Lemma session_keeps_opening_ids_witness :
  (active_session initial_bot.1 = None
   /\ execute_delta_neutral_session (stub_env scenario_transport) scenario_bot
        initial_bot = (scenario_session.1, scenario_session.2)
   /\ settled (events_since initial_bot.2 scenario_session.2.2))
  /\ exists sess o1 o2 o3 o4,
       heap scenario_session.2.1 = heap initial_bot.1 ++ [sess]
       /\ order_answers (events_since initial_bot.2 scenario_session.2.2)
          = [(0%nat, o1); (1%nat, o2); (0%nat, o3); (1%nat, o4)]
       /\ subscript o1 "id" = Ok (account1_order_id sess)
       /\ subscript o2 "id" = Ok (account2_order_id sess).
Proof.
  assert (Hex : execute_delta_neutral_session (stub_env scenario_transport)
                  scenario_bot initial_bot
                = (scenario_session.1, scenario_session.2)).
  { unfold scenario_session. apply surjective_pairing. }
  assert (Hset : settled (events_since initial_bot.2 scenario_session.2.2)).
  { vm_compute. discriminate. }
  split; [exact (conj eq_refl (conj Hex Hset))|].
  destruct (session_keeps_opening_ids (stub_env scenario_transport) scenario_bot
              initial_bot _ _ eq_refl Hex Hset)
    as (sess & o1 & o2 & o3 & o4 & size & price & Hheap & Hans & H1 & H2 & _).
  exists sess, o1, o2, o3, o4. exact (conj Hheap (conj Hans (conj H1 H2))).
Defined.

Lemma no_order_without_price_witness :
  (active_session initial_bot.1 = None
   /\ execute_delta_neutral_session (stub_env scenario_transport) scenario_bot
        initial_bot = (scenario_session.1, scenario_session.2))
  /\ (order_bodies (events_since initial_bot.2 scenario_session.2.2) = []
      \/ exists pre post md price,
           events_since initial_bot.2 scenario_session.2.2 = pre ++ post
           /\ order_bodies pre = [] /\ market_documents pre = [md]
           /\ last_price_of (stub_env scenario_transport) md = Ok price).
Proof.
  assert (Hex : execute_delta_neutral_session (stub_env scenario_transport)
                  scenario_bot initial_bot
                = (scenario_session.1, scenario_session.2)).
  { unfold scenario_session. apply surjective_pairing. }
  split; [exact (conj eq_refl Hex)|].
  exact (no_order_without_price (stub_env scenario_transport) scenario_bot
           initial_bot _ _ eq_refl Hex).
Defined.

Lemma balance_failure_stops_trading_witness :
  exists p,
    (bot_program (stub_env rejecting) two_accounts default_trading_config
     = (rejected_program.1, Some p)
     /\ (length (balance_reports (journal p)) < length two_accounts)%nat)
    /\ announced_counts (bot_events (journal p)) = []
    /\ (the_bot p).1 = initial_engine
    /\ is_running (the_bot p).2 = false.
Proof.
  destruct rejected_program.2 as [p|] eqn:Hp.
  2:{ exfalso. revert Hp. vm_compute. discriminate. }
  exists p.
  assert (Hrun : bot_program (stub_env rejecting) two_accounts
                   default_trading_config = (rejected_program.1, Some p)).
  { rewrite <- Hp. unfold rejected_program. apply surjective_pairing. }
  assert (Hlt : (length (balance_reports (journal p)) < length two_accounts)%nat).
  { revert Hp. vm_compute. intros [= <-]. repeat constructor. }
  split; [exact (conj Hrun Hlt)|].
  destruct (balance_failure_stops_trading (stub_env rejecting) two_accounts
              default_trading_config _ p Hrun Hlt)
    as (e & checked & rest & _ & _ & _ & _ & _ & _ & Hann & Hen & Hflag).
  exact (conj Hann (conj Hen Hflag)).
Defined.

Lemma orders_stop_at_first_failure_witness :
  (active_session initial_bot.1 = None
   /\ execute_delta_neutral_session (stub_env refusing_orders) default_bot
        initial_bot = (refused_session.1, refused_session.2))
  /\ exists sess size reps,
       heap refused_session.2.1 = heap initial_bot.1 ++ [sess]
       /\ Forall (retry_count (max_retries (trading_config default_bot))) reps
       /\ order_sends (events_since initial_bot.2 refused_session.2.2)
          = repeated reps
              (opening_orders (symbol sess) (account1_long sess) size
               ++ closing_orders (symbol sess) (account1_long sess) size)
       /\ placed_orders (events_since initial_bot.2 refused_session.2.2)
          `prefix_of` (opening_orders (symbol sess) (account1_long sess) size
                       ++ closing_orders (symbol sess) (account1_long sess) size)
       /\ (length reps <= 4)%nat
       /\ (closed sess = false ->
           (length (placed_orders
                      (events_since initial_bot.2 refused_session.2.2)) < 4)%nat).
Proof.
  assert (Hex : execute_delta_neutral_session (stub_env refusing_orders)
                  default_bot initial_bot
                = (refused_session.1, refused_session.2)).
  { unfold refused_session. apply surjective_pairing. }
  split; [exact (conj eq_refl Hex)|].
  destruct (orders_stop_at_first_failure (stub_env refusing_orders) default_bot
              initial_bot _ _ eq_refl Hex)
    as [(e & He & _)
       | (sess & size & reps & Hheap & Hreps & Hsd & Hpre & _ & Hle & Hopen & _)].
  - exfalso. revert He. vm_compute. discriminate.
  - exists sess, size, reps.
    exact (conj Hheap (conj Hreps (conj Hsd (conj Hpre (conj Hle Hopen))))).
Defined.

Lemma cycle_runs_initial_slots_witness :
  active_session initial_bot.1 = None
  /\ exists n ran rest,
       announced_counts (events_since initial_bot.2 stopped_cycle.2.2) = [n]
       /\ range n = ran ++ rest
       /\ (fun x : Z * Z * Q => x.1)
            <$> slot_reports (events_since initial_bot.2 stopped_cycle.2.2)
          = (fun k => (k + 1, n)) <$> ran
       /\ (rest <> [] -> is_running stopped_cycle.2.2 = false).
Proof.
  split; [reflexivity|].
  generalize (cycle_runs_initial_slots (stopping_env rejecting) scenario_bot
                initial_bot eq_refl).
  cbv zeta. unfold stopped_cycle.
  destruct (run_daily_cycle (stopping_env rejecting) scenario_bot initial_bot).1
    as [[]|e] eqn:Hres; intros H.
  2:{ exfalso. revert Hres. vm_compute. discriminate. }
  destruct H as (n & ran & rest & Hann & Hsplit & Hrep & _ & Hflag).
  exists n, ran, rest. exact (conj Hann (conj Hsplit (conj Hrep Hflag))).
Defined.

Lemma zero_budget_sends_nothing_witness :
  max_retries (trading_config (bot_with_retries 0)) <= 0
  /\ http_attempts
       (events_since initial_bot.2
          (execute_delta_neutral_session (stub_env rejecting)
             (bot_with_retries 0) initial_bot).2.2) = []
  /\ http_attempts
       (events_since initial_bot.2
          (run_daily_cycle (stub_env rejecting) (bot_with_retries 0)
             initial_bot).2.2) = [].
Proof.
  assert (Hmax : max_retries (trading_config (bot_with_retries 0)) <= 0)
    by (cbn; lia).
  split; [exact Hmax|].
  destruct (zero_budget_sends_nothing (stub_env rejecting) (bot_with_retries 0)
              Hmax) as (Hs & _ & Hc).
  exact (conj (Hs initial_bot) (Hc initial_bot)).
Defined.



(** C4, as stated, fails: [stop()] is called while the first session of
    a two-session cycle awaits its first response; the session then
    fails, and the loop still sleeps the whole inter-session delay, the
    30239.999999999996 seconds drawn with this random source, before it
    leaves.  No second session is started. *)
Lemma stop_does_not_skip_the_delay :
  exists before after,
    trace stopped_cycle.2.2 = before ++ EvLog INFO LogStopping :: after
    /\ sleeps before = []
    /\ sleeps after = [float_value 30239.999999999996%float]
    /\ length (history stopped_cycle.2.1) = 1%nat.
Proof.
  exists (take 3 (trace stopped_cycle.2.2)), (drop 4 (trace stopped_cycle.2.2)).
  split_and!.
  - vm_compute. reflexivity.
  - vm_compute. reflexivity.
  - vm_compute. reflexivity.
  - vm_compute. reflexivity.
Qed.

Lemma stop_observed_at_next_slot_witness :
  (is_running (initial_engine, set_running true initial_runtime).2 = true
   /\ execute_delta_neutral_session (stopping_env rejecting) scenario_bot
        (initial_engine, set_running true initial_runtime)
      = (stopped_slot.1, stopped_slot.2))
  /\ exists delay rt3,
       let slot_end :=
         (stopped_slot.2.1,
          asyncio_sleep (stopping_env rejecting) (float_value delay) rt3) in
       cycle_loop (stopping_env rejecting) scenario_bot 2
         (int_truediv 86400 2) [0; 1]
         (initial_engine, set_running true initial_runtime)
       = slot_end
       /\ sleeps (events_since stopped_slot.2.2 slot_end.2) = [float_value delay]
       /\ http_attempts (events_since stopped_slot.2.2 slot_end.2) = []
       /\ is_running slot_end.2 = false.
Proof.
  assert (Hex : execute_delta_neutral_session (stopping_env rejecting) scenario_bot
                  (initial_engine, set_running true initial_runtime)
                = (stopped_slot.1, stopped_slot.2)).
  { unfold stopped_slot. apply surjective_pairing. }
  split; [exact (conj eq_refl Hex)|].
  destruct (proj2 (stop_observed_at_next_slot (stopping_env rejecting) scenario_bot
                     2 (int_truediv 86400 2))
              0 [1] (initial_engine, set_running true initial_runtime) _ _
              eq_refl Hex)
    as (delay & rt3 & _ & _ & Hsl & Hhttp & Hflag & Hleave).
  exists delay, rt3. cbn zeta in *.
  assert (Hstop : is_running
                    (stopped_slot.2.1,
                     asyncio_sleep (stopping_env rejecting) (float_value delay)
                       rt3).2 = false).
  { rewrite Hflag. cbn [snd].
    assert (Hle : (1 <= n_awaits (asyncio_sleep (stopping_env rejecting)
                                    (float_value delay) rt3))%nat).
    { unfold asyncio_sleep. rewrite n_awaits_await_point. lia. }
    unfold stop_between.
    change (n_awaits (set_running true initial_runtime)) with 0%nat.
    rewrite Nat.sub_0_r.
    destruct (n_awaits (asyncio_sleep (stopping_env rejecting)
                          (float_value delay) rt3)); [lia|].
    reflexivity. }
  exact (conj (Hleave Hstop) (conj Hsl (conj Hhttp Hstop))).
Defined.
